(** * Panindigan: the MQTT transport core

    A shallow embedding of the packet codec and connection manager
    ([MQTTClient]) and of the event parser ([EventParser]) of the
    panindigan messaging client, with the properties of its design
    document stated over it.

    Conventions of the embedding:
    - a Node [Buffer] is a [list Z] of byte values; [Buffer.from(array)]
      keeps the low eight bits of every entry;
    - a JavaScript string is the [string] of its UTF-8 bytes, so that
      [Buffer.from(s, 'utf-8')] and [buf.toString('utf8', a, b)] are the
      byte-wise conversions (ill-formed UTF-8, which Node replaces by
      U+FFFD, is outside the model);
    - JavaScript numbers are exact integers ([Z]); the wrap-arounds the
      source writes ([% 65536], [& 0xFF]) are written out;
    - a function that can throw returns a [Result]; [try]/[catch] is a
      match on it;
    - [emit] is a change of the client, and [emitOutcome] says how the
      call ends: an ['error'] with no listener is thrown. [handleError]
      and [sendConnect], which end with such an [emit], are changes of
      the client too. *)

From Stdlib Require Import ZArith List String Ascii Bool Lia.
From Stdlib Require Import DecimalString.
From stdpp Require Import base option list gmap strings.

Local Open Scope Z_scope.

(** ** Exceptions *)

Inductive Exn : Type :=
| RangeError
| TypeError
| SyntaxError
| Error (message : string).

Inductive Result (A : Type) : Type :=
| Ok (a : A)
| Throw (e : Exn).

Arguments Ok {A} a.
Arguments Throw {A} e.

(** Sequencing: the first exception thrown propagates. *)
#[global] Instance Result_bind : MBind Result :=
  fun A B (k : A -> Result B) (r : Result A) =>
    match r with
    | Ok a => k a
    | Throw e => Throw e
    end.

#[global] Instance Result_ret : MRet Result := fun A a => Ok a.

(** ** Buffers *)

Definition Buffer : Type := list Z.

(** [Buffer.from(numbers)]: every entry is stored modulo 256. *)
Definition Buffer_from (numbers : list Z) : Buffer :=
  map (fun x => x mod 256) numbers.

(** [Buffer.from(s, 'utf-8')]. *)
Definition Buffer_from_string (s : string) : Buffer :=
  map (fun c => Z.of_N (N_of_ascii c)) (list_ascii_of_string s).

Definition string_of_bytes (bs : list Z) : string :=
  string_of_list_ascii (map (fun b => ascii_of_N (Z.to_N b)) bs).

(** [data[i]]: [None] is JavaScript's [undefined]. *)
Definition byteAt (data : Buffer) (i : Z) : option Z :=
  if i <? 0 then None else data !! Z.to_nat i.

(** The number a bit operation sees: [undefined] is 0. *)
Definition toInt32 (v : option Z) : Z := default 0 v.

(** [data.readUInt16BE(offset)]: a range error unless both bytes are
    inside the buffer. *)
Definition readUInt16BE (data : Buffer) (offset : Z) : Result Z :=
  match byteAt data offset, byteAt data (offset + 1) with
  | Some first, Some last => Ok (first * 2 ^ 8 + last)
  | _, _ => Throw RangeError
  end.

(** [Buffer.alloc(2)] followed by [writeUInt16BE(value)]: a range error
    unless the value is an unsigned 16-bit integer. *)
Definition writeUInt16BE (value : Z) : Result Buffer :=
  if (0 <=? value) && (value <=? 65535)
  then Ok [value / 256; value mod 256]
  else Throw RangeError.

(** [data.toString('utf8', start, end)]: both ends are clamped to the
    buffer. The bytes are kept as they are; Node replaces ill-formed
    UTF-8 by U+FFFD, which is outside the model. *)
Definition toString (data : Buffer) (start end_ : Z) : string :=
  string_of_bytes
    (take (Z.to_nat end_ - Z.to_nat start)%nat (drop (Z.to_nat start) data)).

(** [data.slice(offset)]. *)
Definition slice (data : Buffer) (offset : Z) : Buffer :=
  drop (Z.to_nat offset) data.

Definition byteLength (data : Buffer) : Z := Z.of_nat (length data).

(** ** PacketCodec: the remaining-length field *)

(** The body of [encodeRemainingLength]'s [do ... while (num > 0)] loop.
    [fuel] bounds the number of iterations; [encodeRemainingLength]
    supplies more than the loop uses (see [encodeLoop_fuel]). *)
Fixpoint encodeLoop (fuel : nat) (num : Z) : list Z :=
  match fuel with
  | O => []
  | S fuel' =>
      let digit := Z.rem num 128 in
      let num' := num / 128 in
      if 0 <? num'
      then Z.lor digit 128 :: encodeLoop fuel' num'
      else [digit]
  end.

Definition encodeRemainingLength (length : Z) : Buffer :=
  Buffer_from (encodeLoop (S (Z.to_nat (Z.log2 length))) length).

(** The [do ... while ((digit & 128) !== 0)] loop of
    [parsePublishPacket], reading from the bytes at and after [offset].
    Past the end of the buffer [digit] is [undefined], which both masks
    turn into 0, so the loop stops there. Returns the value and the
    offset after the last byte read. *)
Fixpoint decodeLoop (rest : list Z) (multiplier remainingLength offset : Z)
  : Z * Z :=
  match rest with
  | [] => (remainingLength, offset + 1)
  | digit :: rest' =>
      let remainingLength' := remainingLength + Z.land digit 127 * multiplier in
      if Z.land digit 128 =? 0
      then (remainingLength', offset + 1)
      else decodeLoop rest' (multiplier * 128) remainingLength' (offset + 1)
  end.

Definition decodeRemainingLength (data : Buffer) (offset : Z) : Z * Z :=
  decodeLoop (drop (Z.to_nat offset) data) 1 0 offset.

(** ** PacketCodec: frames *)

Record MQTTMessage : Type := {
  topic : string;
  payload : Buffer;
  qos : Z;
  retain : bool
}.

(** A decoded frame, as [parsePacket] returns it. *)
Inductive Packet : Type :=
| CONNACK (returnCode : option Z)
| PUBLISH (topic : string) (payload : Buffer) (qos : Z) (packetId : option Z)
| PUBACK (packetId : Z)
| SUBACK (packetId : Z) (grantedQos : list (option Z))
| OtherPacket (type : string).

(** [parsePublishPacket], with the offset at which the remaining-length
    loop starts as a parameter; the source fixes it to 2. *)
Definition parsePublishPacketFrom (start : Z) (data : Buffer) : Result Packet :=
  let qos := Z.land (Z.shiftr (toInt32 (byteAt data 0)) 1) 3 in
  let '(remainingLength, offset) := decodeRemainingLength data start in
  topicLength ← readUInt16BE data offset;
  let offset := offset + 2 in
  let topic := toString data offset (offset + topicLength) in
  let offset := offset + topicLength in
  if 0 <? qos
  then
    packetId ← readUInt16BE data offset;
    Ok (PUBLISH topic (slice data (offset + 2)) qos (Some packetId))
  else Ok (PUBLISH topic (slice data offset) qos None).

Definition parsePublishPacket (data : Buffer) : Result Packet :=
  parsePublishPacketFrom 2 data.

Definition packetTypes (packetType : Z) : string :=
  match packetType with
  | 1 => "CONNECT"
  | 2 => "CONNACK"
  | 3 => "PUBLISH"
  | 4 => "PUBACK"
  | 5 => "PUBREC"
  | 6 => "PUBREL"
  | 7 => "PUBCOMP"
  | 8 => "SUBSCRIBE"
  | 9 => "SUBACK"
  | 12 => "PINGREQ"
  | 13 => "PINGRESP"
  | 14 => "DISCONNECT"
  | _ => "UNKNOWN"
  end.

Definition parsePacket (data : Buffer) : Result Packet :=
  let packetType := Z.land (Z.shiftr (toInt32 (byteAt data 0)) 4) 15 in
  let type := packetTypes packetType in
  if String.eqb type "CONNACK" then Ok (CONNACK (byteAt data 3))
  else if String.eqb type "PUBLISH" then parsePublishPacket data
  else if String.eqb type "PUBACK" then
    packetId ← readUInt16BE data 2; Ok (PUBACK packetId)
  else if String.eqb type "SUBACK" then
    packetId ← readUInt16BE data 2; Ok (SUBACK packetId [byteAt data 4])
  else Ok (OtherPacket type).

(** A packet id is used as a condition ([qos > 0 && packetId]):
    [undefined] and 0 are falsy. *)
Definition truthyId (packetId : option Z) : bool :=
  match packetId with
  | Some n => negb (n =? 0)
  | None => false
  end.

Definition buildPublishPacket (message : MQTTMessage) (packetId : option Z)
  : Result Buffer :=
  let topicBuf := Buffer_from_string (topic message) in
  topicLength ← writeUInt16BE (byteLength topicBuf);
  let variableHeader := topicLength ++ topicBuf in
  variableHeader ←
    (if (0 <? qos message) && truthyId packetId
     then
       packetIdBuf ← writeUInt16BE (toInt32 packetId);
       Ok (variableHeader ++ packetIdBuf)
     else Ok variableHeader);
  let remainingLength := byteLength variableHeader + byteLength (payload message) in
  let remainingLengthBuf := encodeRemainingLength remainingLength in
  let fixedHeaderByte :=
    Z.lor (Z.lor 48 (Z.shiftl (qos message) 1)) (if retain message then 1 else 0) in
  let fixedHeader := Buffer_from [fixedHeaderByte] ++ remainingLengthBuf in
  Ok (fixedHeader ++ variableHeader ++ payload message).

Definition buildSubscribePacket (packetId : Z) (topic : string) (qos : Z)
  : Result Buffer :=
  let topicBuf := Buffer_from_string topic in
  topicLength ← writeUInt16BE (byteLength topicBuf);
  packetIdBuf ← writeUInt16BE packetId;
  let payload := packetIdBuf ++ topicLength ++ topicBuf ++ Buffer_from [qos] in
  let remainingLength := byteLength payload in
  let remainingLengthBuf := encodeRemainingLength remainingLength in
  let fixedHeaderByte := 130 in
  let fixedHeader := Buffer_from [fixedHeaderByte] ++ remainingLengthBuf in
  Ok (fixedHeader ++ payload).

Definition buildPubAckPacket (packetId : Z) : Buffer :=
  Buffer_from [64; 2; Z.land (Z.shiftr packetId 8) 255; Z.land packetId 255].

(** ** JavaScript values decoded from JSON *)

Set Warnings "-register-all".


(** What [JSON.parse] returns. An object is the list of its own
    members, each key once. Numbers are integers. *)
Inductive json : Type :=
| JNull
| JBool (b : bool)
| JNum (n : Z)
| JStr (s : string)
| JArr (items : list json)
| JObj (members : list (string * json)).

(** A JavaScript value read from a payload: [None] is [undefined]. *)
Definition JSValue : Type := option json.

(** The value as a condition ([if (v)], [!v], [v || d]). *)
Definition truthy (v : JSValue) : bool :=
  match v with
  | None => false
  | Some JNull => false
  | Some (JBool b) => b
  | Some (JNum n) => negb (n =? 0)
  | Some (JStr s) => negb (String.eqb s "")
  | Some (JArr _) => true
  | Some (JObj _) => true
  end.

Fixpoint lookupMember (key : string) (members : list (string * json)) : JSValue :=
  match members with
  | [] => None
  | (k, v) :: members' =>
      if String.eqb k key then Some v else lookupMember key members'
  end.

(** [v.key]: a type error on [null] and [undefined]; [undefined] when
    the member is missing. The keys the parser reads name no built-in
    member of strings, numbers or arrays, which therefore have none. *)
Definition getProp (v : JSValue) (key : string) : Result JSValue :=
  match v with
  | None => Throw TypeError
  | Some JNull => Throw TypeError
  | Some (JObj members) => Ok (lookupMember key members)
  | Some _ => Ok None
  end.

(** A value whose members can be read: anything but [null] and
    [undefined]. *)
Definition readable (v : JSValue) : Prop :=
  match v with
  | None => False
  | Some JNull => False
  | Some _ => True
  end.

(** [v?.key]. *)
Definition getPropOpt (v : JSValue) (key : string) : JSValue :=
  match v with
  | Some (JObj members) => lookupMember key members
  | _ => None
  end.

(** [a || b]. *)
Definition orElse (a b : JSValue) : JSValue := if truthy a then a else b.

Definition isArray (v : JSValue) : bool :=
  match v with
  | Some (JArr _) => true
  | _ => false
  end.

Definition strictEqStr (v : JSValue) (s : string) : bool :=
  match v with
  | Some (JStr s') => String.eqb s' s
  | _ => false
  end.

(** The decimal text of a number inside a template string. *)
Definition numberToString (n : Z) : string := NilZero.string_of_int (Z.to_int n).

(** ** EventParser *)

Inductive ReactionType : Type := like | love | haha | wow | sad | angry | care.

Inductive PresenceStatus : Type := active | idle | offline.

Inductive CallStatus : Type := started | ended | missed.

Record Message : Type := {
  messageId : JSValue;
  threadId : JSValue;
  senderId : JSValue;
  body : JSValue;
  timestamp : JSValue;
  attachments : list json;
  mentions : list json;
  isGroup : bool;
  reactions : list json;
  isUnread : bool
}.

(** The events the parser builds; the constructor is the [type] tag,
    except where one interface serves two tags. Fields the source only
    casts keep the value found in the payload. *)
Inductive PanindiganEvent : Type :=
| MessageEvent (timestamp : Z) (message : Message)
| MessageReactionEvent (timestamp : Z) (threadId messageId userId : JSValue)
    (reaction : option ReactionType)
| TypingEvent (timestamp : Z) (threadId userId : JSValue) (isTyping : bool)
| ReadReceiptEvent (timestamp : Z) (threadId userId watermarkTimestamp : JSValue)
| DeliveryReceiptEvent (timestamp : Z) (threadId userId deliveredTimestamp : JSValue)
| PresenceEvent (timestamp : Z) (userId : JSValue) (status : PresenceStatus)
    (lastActive : JSValue)
| ThreadRenameEvent (timestamp : Z) (threadId author name : JSValue)
| ThreadColorEvent (timestamp : Z) (threadId author color : JSValue)
| ThreadEmojiEvent (timestamp : Z) (threadId author emoji : JSValue)
| ThreadImageEvent (timestamp : Z) (threadId author imageUrl : JSValue)
| ThreadNicknameEvent (timestamp : Z) (threadId author participantId nickname : JSValue)
| ThreadParticipantsEvent (type : string) (timestamp : Z)
    (threadId author participantIds : JSValue)
| ThreadAdminEvent (type : string) (timestamp : Z)
    (threadId author participantIds : JSValue)
| ThreadLeaveEvent (timestamp : Z) (threadId userId : JSValue)
| CallEvent (timestamp : Z) (callId threadId callerId isVideo isGroupCall : JSValue)
    (status : CallStatus) (duration : JSValue).

(** The [type] tag of an event. *)
Definition eventType (e : PanindiganEvent) : string :=
  match e with
  | MessageEvent _ _ => "message"
  | MessageReactionEvent _ _ _ _ _ => "message_reaction"
  | TypingEvent _ _ _ _ => "typ"
  | ReadReceiptEvent _ _ _ _ => "read_receipt"
  | DeliveryReceiptEvent _ _ _ _ => "delivery_receipt"
  | PresenceEvent _ _ _ _ => "presence"
  | ThreadRenameEvent _ _ _ _ => "thread_rename"
  | ThreadColorEvent _ _ _ _ => "thread_color"
  | ThreadEmojiEvent _ _ _ _ => "thread_emoji"
  | ThreadImageEvent _ _ _ _ => "thread_image"
  | ThreadNicknameEvent _ _ _ _ _ => "thread_nickname"
  | ThreadParticipantsEvent type _ _ _ _ => type
  | ThreadAdminEvent type _ _ _ _ => type
  | ThreadLeaveEvent _ _ _ => "thread_leave"
  | CallEvent _ _ _ _ _ _ _ _ => "call"
  end.

(** The thread an event is attributed to ([None]: the event has no
    such field). *)
Definition eventThreadId (e : PanindiganEvent) : option JSValue :=
  match e with
  | MessageEvent _ m => Some (threadId m)
  | MessageReactionEvent _ t _ _ _ => Some t
  | TypingEvent _ t _ _ => Some t
  | ReadReceiptEvent _ t _ _ => Some t
  | DeliveryReceiptEvent _ t _ _ => Some t
  | PresenceEvent _ _ _ _ => None
  | ThreadRenameEvent _ t _ _ => Some t
  | ThreadColorEvent _ t _ _ => Some t
  | ThreadEmojiEvent _ t _ _ => Some t
  | ThreadImageEvent _ t _ _ => Some t
  | ThreadNicknameEvent _ t _ _ _ => Some t
  | ThreadParticipantsEvent _ _ t _ _ => Some t
  | ThreadAdminEvent _ _ t _ _ => Some t
  | ThreadLeaveEvent _ t _ => Some t
  | CallEvent _ _ t _ _ _ _ _ => Some t
  end.

Definition null : JSValue := Some JNull.

Definition extractThreadId (threadKey : JSValue) : Result JSValue :=
  if negb (truthy threadKey) then Ok null
  else
    threadFbId ← getProp threadKey "threadFbId";
    if truthy threadFbId then Ok threadFbId
    else
      otherUserFbId ← getProp threadKey "otherUserFbId";
      if truthy otherUserFbId then Ok otherUserFbId
      else Ok null.

Definition arrayOrEmpty (v : JSValue) : list json :=
  match v with
  | Some (JArr items) => items
  | _ => []
  end.

Definition parseAttachments (delta : JSValue) : Result (list json) :=
  attachments ← getProp delta "attachments";
  if negb (truthy attachments) || negb (isArray attachments) then Ok []
  else Ok (arrayOrEmpty attachments).

Definition parseMentions (delta : JSValue) : Result (list json) :=
  mentions ← getProp delta "mentions";
  if negb (truthy mentions) || negb (isArray mentions) then Ok []
  else Ok (arrayOrEmpty mentions).

(** [reactionMap[reaction] || null], for a string key that is one of
    the table's own seven. Every other value gives [null] here; in the
    source a key that is not a string is first converted to one, and
    the names of [Object.prototype] (such as [constructor]) find its
    members, which is outside the model. *)
Definition mapReaction (reaction : JSValue) : option ReactionType :=
  if strictEqStr reaction "👍" then Some like
  else if strictEqStr reaction "❤️" then Some love
  else if strictEqStr reaction "😆" then Some haha
  else if strictEqStr reaction "😮" then Some wow
  else if strictEqStr reaction "😢" then Some sad
  else if strictEqStr reaction "😠" then Some angry
  else if strictEqStr reaction "🥰" then Some care
  else None.

Definition mapPresenceStatus (status : JSValue) : PresenceStatus :=
  if strictEqStr status "ACTIVE" || strictEqStr status "active" then active
  else if strictEqStr status "IDLE" || strictEqStr status "idle" then idle
  else offline.

Definition mapCallState (state : JSValue) : CallStatus :=
  if strictEqStr state "STARTED" || strictEqStr state "started" then started
  else if strictEqStr state "ENDED" || strictEqStr state "ended" then ended
  else missed.

(** [s.startsWith(pre)]. *)
Fixpoint startsWith (s pre : string) {struct pre} : bool :=
  match pre with
  | EmptyString => true
  | String a pre' =>
      match s with
      | EmptyString => false
      | String b s' => Ascii.eqb a b && startsWith s' pre'
      end
  end.

Section EventParser.

(** The platform's [JSON.parse], applied to the payload's text, and
    the clock reading [Date.now()] of the call. *)
Variable JSON_parse : string -> Result json.
Variable Date_now : Z.

Definition parseDelta (delta : JSValue) : Result (option PanindiganEvent) :=
  messageMetadata ← getProp delta "messageMetadata";
  if truthy messageMetadata then
    let metadata := messageMetadata in
    threadKey ← getProp metadata "threadKey";
    threadId ← extractThreadId threadKey;
    if negb (truthy threadId) then Ok None
    else
      let isGroup := truthy (getPropOpt threadKey "threadFbId") in
      messageId ← getProp metadata "messageId";
      actorFbId ← getProp metadata "actorFbId";
      body ← getProp delta "body";
      timestamp ← getProp metadata "timestamp";
      attachments ← parseAttachments delta;
      mentions ← parseMentions delta;
      Ok (Some (MessageEvent Date_now
        {| messageId :=
             orElse messageId (Some (JStr ("msg_" ++ numberToString Date_now)));
           threadId := threadId;
           senderId := orElse actorFbId (Some (JStr ""));
           body := orElse body (Some (JStr ""));
           timestamp := orElse timestamp (Some (JNum Date_now));
           attachments := attachments;
           mentions := mentions;
           isGroup := isGroup;
           reactions := [];
           isUnread := true |}))
  else
    reaction ← getProp delta "reaction";
    if truthy reaction then
      threadKey ← getProp delta "threadKey";
      threadId ← extractThreadId threadKey;
      if negb (truthy threadId) then Ok None
      else
        messageId ← getProp reaction "messageId";
        actorFbId ← getProp delta "actorFbId";
        reaction' ← getProp reaction "reaction";
        Ok (Some (MessageReactionEvent Date_now
          threadId
          (orElse messageId (Some (JStr "")))
          (orElse actorFbId (Some (JStr "")))
          (mapReaction (orElse reaction' (Some (JStr ""))))))
    else Ok None.

Definition parseDirectDelta (data : JSValue) : Result (option PanindiganEvent) :=
  metadata ← getProp data "messageMetadata";
  if negb (truthy metadata) then Ok None
  else
    threadKey ← getProp metadata "threadKey";
    threadId ← extractThreadId threadKey;
    if negb (truthy threadId) then Ok None
    else
      let isGroup := truthy (getPropOpt threadKey "threadFbId") in
      messageId ← getProp metadata "messageId";
      actorFbId ← getProp metadata "actorFbId";
      body ← getProp data "body";
      timestamp ← getProp metadata "timestamp";
      attachments ← parseAttachments data;
      mentions ← parseMentions data;
      Ok (Some (MessageEvent Date_now
        {| messageId :=
             orElse messageId (Some (JStr ("msg_" ++ numberToString Date_now)));
           threadId := threadId;
           senderId := orElse actorFbId (Some (JStr ""));
           body := orElse body (Some (JStr ""));
           timestamp := orElse timestamp (Some (JNum Date_now));
           attachments := attachments;
           mentions := mentions;
           isGroup := isGroup;
           reactions := [];
           isUnread := true |})).

(** The [for (const delta of deltas)] loop of [parseMessageSync]:
    [Ok (Some e)] when the loop returns [e], [Ok None] when it runs
    to its end. *)
Fixpoint scanDeltas (deltas : list json) : Result (option PanindiganEvent) :=
  match deltas with
  | [] => Ok None
  | delta :: deltas' =>
      parsed ← parseDelta (Some delta);
      match parsed with
      | Some e => Ok (Some e)
      | None => scanDeltas deltas'
      end
  end.

Definition parseMessageSync (data : JSValue) : Result (option PanindiganEvent) :=
  let msgData := data in
  deltas ← getProp msgData "deltas";
  found ←
    (if truthy deltas && isArray deltas
     then scanDeltas (arrayOrEmpty deltas)
     else Ok None);
  match found with
  | Some e => Ok (Some e)
  | None =>
      delta ← getProp msgData "delta";
      if truthy delta then parseDelta delta
      else
        messageMetadata ← getProp msgData "messageMetadata";
        if truthy messageMetadata then parseDirectDelta msgData
        else Ok None
  end.

Definition parseRTCEvent (data : JSValue) : Result (option PanindiganEvent) :=
  let rtcData := data in
  callState ← getProp rtcData "callState";
  if truthy callState then
    callId ← getProp rtcData "callId";
    threadId ← getProp rtcData "threadId";
    callerId ← getProp rtcData "callerId";
    isVideoCall ← getProp rtcData "isVideoCall";
    isGroupCall ← getProp rtcData "isGroupCall";
    duration ← getProp rtcData "duration";
    Ok (Some (CallEvent Date_now callId threadId callerId
      (orElse isVideoCall (Some (JBool false)))
      (orElse isGroupCall (Some (JBool false)))
      (mapCallState callState)
      duration))
  else Ok None.

Definition parsePresence (data : JSValue) : Result (option PanindiganEvent) :=
  let presenceData := data in
  userId ← getProp presenceData "userId";
  status ← getProp presenceData "status";
  lastActive ← getProp presenceData "lastActive";
  Ok (Some (PresenceEvent Date_now userId (mapPresenceStatus status) lastActive)).

Definition parseTypingNotification (data : JSValue)
  : Result (option PanindiganEvent) :=
  let typingData := data in
  threadId ← getProp typingData "threadId";
  senderId ← getProp typingData "senderId";
  typingStatus ← getProp typingData "typingStatus";
  Ok (Some (TypingEvent Date_now threadId senderId
    (match typingStatus with Some (JNum 1) => true | _ => false end))).

(** [threadKey?.threadFbId || ''], the thread id of every branch of
    [parseGraphQLEvent]. *)
Definition threadFbIdOrEmpty (threadKey : JSValue) : JSValue :=
  orElse (getPropOpt threadKey "threadFbId") (Some (JStr "")).

Definition parseGraphQLEvent (data : JSValue) : Result (option PanindiganEvent) :=
  let gqlData := data in
  deltaThreadName ← getProp gqlData "deltaThreadName";
  if truthy deltaThreadName then
    let delta := deltaThreadName in
    threadKey ← getProp delta "threadKey";
    actorFbId ← getProp delta "actorFbId";
    name ← getProp delta "name";
    Ok (Some (ThreadRenameEvent Date_now (threadFbIdOrEmpty threadKey) actorFbId name))
  else
  deltaThreadColor ← getProp gqlData "deltaThreadColor";
  if truthy deltaThreadColor then
    let delta := deltaThreadColor in
    threadKey ← getProp delta "threadKey";
    actorFbId ← getProp delta "actorFbId";
    color ← getProp delta "color";
    Ok (Some (ThreadColorEvent Date_now (threadFbIdOrEmpty threadKey) actorFbId color))
  else
  deltaThreadIcon ← getProp gqlData "deltaThreadIcon";
  if truthy deltaThreadIcon then
    let delta := deltaThreadIcon in
    threadKey ← getProp delta "threadKey";
    actorFbId ← getProp delta "actorFbId";
    emoji ← getProp delta "emoji";
    Ok (Some (ThreadEmojiEvent Date_now (threadFbIdOrEmpty threadKey) actorFbId emoji))
  else
  deltaThreadImage ← getProp gqlData "deltaThreadImage";
  if truthy deltaThreadImage then
    let delta := deltaThreadImage in
    threadKey ← getProp delta "threadKey";
    actorFbId ← getProp delta "actorFbId";
    imageUrl ← getProp delta "imageUrl";
    Ok (Some (ThreadImageEvent Date_now (threadFbIdOrEmpty threadKey) actorFbId imageUrl))
  else
  deltaNickname ← getProp gqlData "deltaNickname";
  if truthy deltaNickname then
    let delta := deltaNickname in
    threadKey ← getProp delta "threadKey";
    actorFbId ← getProp delta "actorFbId";
    participantId ← getProp delta "participantId";
    nickname ← getProp delta "nickname";
    Ok (Some (ThreadNicknameEvent Date_now (threadFbIdOrEmpty threadKey) actorFbId
      participantId nickname))
  else
  deltaParticipantsAdded ← getProp gqlData "deltaParticipantsAdded";
  if truthy deltaParticipantsAdded then
    let delta := deltaParticipantsAdded in
    threadKey ← getProp delta "threadKey";
    actorFbId ← getProp delta "actorFbId";
    participantIds ← getProp delta "participantIds";
    Ok (Some (ThreadParticipantsEvent "thread_add_participants" Date_now
      (threadFbIdOrEmpty threadKey) actorFbId participantIds))
  else
  deltaParticipantsRemoved ← getProp gqlData "deltaParticipantsRemoved";
  if truthy deltaParticipantsRemoved then
    let delta := deltaParticipantsRemoved in
    threadKey ← getProp delta "threadKey";
    actorFbId ← getProp delta "actorFbId";
    participantIds ← getProp delta "participantIds";
    Ok (Some (ThreadParticipantsEvent "thread_remove_participants" Date_now
      (threadFbIdOrEmpty threadKey) actorFbId participantIds))
  else
  deltaAdminAdded ← getProp gqlData "deltaAdminAdded";
  if truthy deltaAdminAdded then
    let delta := deltaAdminAdded in
    threadKey ← getProp delta "threadKey";
    actorFbId ← getProp delta "actorFbId";
    participantIds ← getProp delta "participantIds";
    Ok (Some (ThreadAdminEvent "thread_promote" Date_now
      (threadFbIdOrEmpty threadKey) actorFbId participantIds))
  else
  deltaAdminRemoved ← getProp gqlData "deltaAdminRemoved";
  if truthy deltaAdminRemoved then
    let delta := deltaAdminRemoved in
    threadKey ← getProp delta "threadKey";
    actorFbId ← getProp delta "actorFbId";
    participantIds ← getProp delta "participantIds";
    Ok (Some (ThreadAdminEvent "thread_demote" Date_now
      (threadFbIdOrEmpty threadKey) actorFbId participantIds))
  else
  deltaLeftThread ← getProp gqlData "deltaLeftThread";
  if truthy deltaLeftThread then
    let delta := deltaLeftThread in
    threadKey ← getProp delta "threadKey";
    actorFbId ← getProp delta "actorFbId";
    Ok (Some (ThreadLeaveEvent Date_now (threadFbIdOrEmpty threadKey) actorFbId))
  else Ok None.

Definition parseMessagingEvent (data : JSValue) : Result (option PanindiganEvent) :=
  let msgData := data in
  readReceipt ← getProp msgData "readReceipt";
  if truthy readReceipt then
    let receipt := readReceipt in
    threadId ← getProp receipt "threadId";
    actorFbId ← getProp receipt "actorFbId";
    watermarkTimestamp ← getProp receipt "watermarkTimestamp";
    Ok (Some (ReadReceiptEvent Date_now threadId actorFbId watermarkTimestamp))
  else
  deliveryReceipt ← getProp msgData "deliveryReceipt";
  if truthy deliveryReceipt then
    let receipt := deliveryReceipt in
    threadId ← getProp receipt "threadId";
    actorFbId ← getProp receipt "actorFbId";
    deliveredTimestamp ← getProp receipt "deliveredTimestamp";
    Ok (Some (DeliveryReceiptEvent Date_now threadId actorFbId deliveredTimestamp))
  else Ok None.

Definition parseC2BEvent (data : JSValue) : Result (option PanindiganEvent) :=
  parseMessageSync data.


(** The body of [parse]'s [try] block. *)
Definition parseBody (topic : string) (payload : Buffer)
  : Result (option PanindiganEvent) :=
  parsed ← JSON_parse (string_of_bytes payload);
  let data := Some parsed in
  if String.eqb topic "/t_ms" then parseMessageSync data
  else if String.eqb topic "/t_rtc" then parseRTCEvent data
  else if String.eqb topic "/t_p" then parsePresence data
  else if String.eqb topic "/t_tn" then parseTypingNotification data
  else if String.eqb topic "/t_graphql" then parseGraphQLEvent data
  else if String.eqb topic "/t_messaging_events" then parseMessagingEvent data
  else if startsWith topic "/mqtt_c2b_" then parseC2BEvent data
  else Ok None.

(** [EventParser.parse]: [None] is [null]. *)
Definition parse (topic : string) (payload : Buffer) : option PanindiganEvent :=
  match parseBody topic payload with
  | Ok event => event
  | Throw _ => None
  end.

End EventParser.

(** ** MQTTClient: the connection manager *)

(** What the client emits to its listeners. *)
Inductive Emitted : Type :=
| Emit_connect
| Emit_disconnect (info : option (Z * string))
| Emit_error (error : Exn)
| Emit_message (topic : string) (payload : Buffer)
| Emit_raw (topic : string) (payload : Buffer)
| Emit_typed (type : string) (event : PanindiganEvent)
| Emit_event (event : PanindiganEvent).

Inductive PromiseState : Type :=
| Pending
| Resolved
| Rejected (reason : Exn).

(** What a method call evaluates to. *)
Inductive RetVal : Type :=
| Undefined
| PromiseOf (p : nat).

(** The fields of the class, followed by the part of the environment
    the class acts on: the sockets it opened and what it sent on them,
    the events it emitted, and the promises and timers it created. *)
Record MQTTClient : Type := {
  userId : string;  (* the session's user id *)
  clientId : string;
  ws : option nat;  (* the current WebSocket, by handle; [None] is [null] *)
  connected : bool;
  connecting : bool;
  reconnectAttempts : Z;
  maxReconnectAttempts : Z;
  reconnectDelay : Z;
  reconnectTimer : option Z;  (* the armed timeout, by its delay *)
  keepAliveTimer : option Z;  (* the armed interval, by its period *)
  lastPacketId : Z;
  pendingAcks : gmap Z nat;  (* packet id to the promise its callback resolves *)
  messageQueue : list MQTTMessage;
  sockets : nat;  (* WebSockets created so far; the next handle *)
  closed : list nat;  (* sockets on which [close()] was called *)
  sent : list (nat * Buffer);  (* frames handed to [send], oldest first *)
  emitted : list Emitted;  (* events emitted, oldest first *)
  promises : list PromiseState;  (* promises created by [sendPublish], by index *)
  ackTimers : gmap nat Z;  (* armed PUBACK timeouts: promise to packet id *)
  awaiting : nat;  (* [connect()] calls suspended on their promise *)
  lapsed : nat;  (* [connect()] calls that timed out, their [once] listener
                    for ['error'] still registered *)
  errorListeners : nat  (* listeners the consumer registered for ['error'] *)
}.

(** Field updates. *)
Definition set_ws (v : option nat) (c : MQTTClient) : MQTTClient :=
  {| userId := userId c; clientId := clientId c; ws := v;
     connected := connected c; connecting := connecting c;
     reconnectAttempts := reconnectAttempts c;
     maxReconnectAttempts := maxReconnectAttempts c;
     reconnectDelay := reconnectDelay c; reconnectTimer := reconnectTimer c;
     keepAliveTimer := keepAliveTimer c; lastPacketId := lastPacketId c;
     pendingAcks := pendingAcks c; messageQueue := messageQueue c;
     sockets := sockets c; closed := closed c; sent := sent c;
     emitted := emitted c; promises := promises c; ackTimers := ackTimers c;
     awaiting := awaiting c; lapsed := lapsed c;
     errorListeners := errorListeners c |}.

Definition set_connected (v : bool) (c : MQTTClient) : MQTTClient :=
  {| userId := userId c; clientId := clientId c; ws := ws c; connected := v;
     connecting := connecting c; reconnectAttempts := reconnectAttempts c;
     maxReconnectAttempts := maxReconnectAttempts c;
     reconnectDelay := reconnectDelay c; reconnectTimer := reconnectTimer c;
     keepAliveTimer := keepAliveTimer c; lastPacketId := lastPacketId c;
     pendingAcks := pendingAcks c; messageQueue := messageQueue c;
     sockets := sockets c; closed := closed c; sent := sent c;
     emitted := emitted c; promises := promises c; ackTimers := ackTimers c;
     awaiting := awaiting c; lapsed := lapsed c;
     errorListeners := errorListeners c |}.

Definition set_connecting (v : bool) (c : MQTTClient) : MQTTClient :=
  {| userId := userId c; clientId := clientId c; ws := ws c;
     connected := connected c; connecting := v;
     reconnectAttempts := reconnectAttempts c;
     maxReconnectAttempts := maxReconnectAttempts c;
     reconnectDelay := reconnectDelay c; reconnectTimer := reconnectTimer c;
     keepAliveTimer := keepAliveTimer c; lastPacketId := lastPacketId c;
     pendingAcks := pendingAcks c; messageQueue := messageQueue c;
     sockets := sockets c; closed := closed c; sent := sent c;
     emitted := emitted c; promises := promises c; ackTimers := ackTimers c;
     awaiting := awaiting c; lapsed := lapsed c;
     errorListeners := errorListeners c |}.

Definition set_reconnectAttempts (v : Z) (c : MQTTClient) : MQTTClient :=
  {| userId := userId c; clientId := clientId c; ws := ws c;
     connected := connected c; connecting := connecting c;
     reconnectAttempts := v; maxReconnectAttempts := maxReconnectAttempts c;
     reconnectDelay := reconnectDelay c; reconnectTimer := reconnectTimer c;
     keepAliveTimer := keepAliveTimer c; lastPacketId := lastPacketId c;
     pendingAcks := pendingAcks c; messageQueue := messageQueue c;
     sockets := sockets c; closed := closed c; sent := sent c;
     emitted := emitted c; promises := promises c; ackTimers := ackTimers c;
     awaiting := awaiting c; lapsed := lapsed c;
     errorListeners := errorListeners c |}.

Definition set_reconnectTimer (v : option Z) (c : MQTTClient) : MQTTClient :=
  {| userId := userId c; clientId := clientId c; ws := ws c;
     connected := connected c; connecting := connecting c;
     reconnectAttempts := reconnectAttempts c;
     maxReconnectAttempts := maxReconnectAttempts c;
     reconnectDelay := reconnectDelay c; reconnectTimer := v;
     keepAliveTimer := keepAliveTimer c; lastPacketId := lastPacketId c;
     pendingAcks := pendingAcks c; messageQueue := messageQueue c;
     sockets := sockets c; closed := closed c; sent := sent c;
     emitted := emitted c; promises := promises c; ackTimers := ackTimers c;
     awaiting := awaiting c; lapsed := lapsed c;
     errorListeners := errorListeners c |}.

Definition set_keepAliveTimer (v : option Z) (c : MQTTClient) : MQTTClient :=
  {| userId := userId c; clientId := clientId c; ws := ws c;
     connected := connected c; connecting := connecting c;
     reconnectAttempts := reconnectAttempts c;
     maxReconnectAttempts := maxReconnectAttempts c;
     reconnectDelay := reconnectDelay c; reconnectTimer := reconnectTimer c;
     keepAliveTimer := v; lastPacketId := lastPacketId c;
     pendingAcks := pendingAcks c; messageQueue := messageQueue c;
     sockets := sockets c; closed := closed c; sent := sent c;
     emitted := emitted c; promises := promises c; ackTimers := ackTimers c;
     awaiting := awaiting c; lapsed := lapsed c;
     errorListeners := errorListeners c |}.

Definition set_lastPacketId (v : Z) (c : MQTTClient) : MQTTClient :=
  {| userId := userId c; clientId := clientId c; ws := ws c;
     connected := connected c; connecting := connecting c;
     reconnectAttempts := reconnectAttempts c;
     maxReconnectAttempts := maxReconnectAttempts c;
     reconnectDelay := reconnectDelay c; reconnectTimer := reconnectTimer c;
     keepAliveTimer := keepAliveTimer c; lastPacketId := v;
     pendingAcks := pendingAcks c; messageQueue := messageQueue c;
     sockets := sockets c; closed := closed c; sent := sent c;
     emitted := emitted c; promises := promises c; ackTimers := ackTimers c;
     awaiting := awaiting c; lapsed := lapsed c;
     errorListeners := errorListeners c |}.

Definition set_pendingAcks (v : gmap Z nat) (c : MQTTClient) : MQTTClient :=
  {| userId := userId c; clientId := clientId c; ws := ws c;
     connected := connected c; connecting := connecting c;
     reconnectAttempts := reconnectAttempts c;
     maxReconnectAttempts := maxReconnectAttempts c;
     reconnectDelay := reconnectDelay c; reconnectTimer := reconnectTimer c;
     keepAliveTimer := keepAliveTimer c; lastPacketId := lastPacketId c;
     pendingAcks := v; messageQueue := messageQueue c; sockets := sockets c;
     closed := closed c; sent := sent c; emitted := emitted c;
     promises := promises c; ackTimers := ackTimers c;
     awaiting := awaiting c; lapsed := lapsed c;
     errorListeners := errorListeners c |}.

Definition set_messageQueue (v : list MQTTMessage) (c : MQTTClient) : MQTTClient :=
  {| userId := userId c; clientId := clientId c; ws := ws c;
     connected := connected c; connecting := connecting c;
     reconnectAttempts := reconnectAttempts c;
     maxReconnectAttempts := maxReconnectAttempts c;
     reconnectDelay := reconnectDelay c; reconnectTimer := reconnectTimer c;
     keepAliveTimer := keepAliveTimer c; lastPacketId := lastPacketId c;
     pendingAcks := pendingAcks c; messageQueue := v; sockets := sockets c;
     closed := closed c; sent := sent c; emitted := emitted c;
     promises := promises c; ackTimers := ackTimers c;
     awaiting := awaiting c; lapsed := lapsed c;
     errorListeners := errorListeners c |}.

Definition set_sockets (v : nat) (c : MQTTClient) : MQTTClient :=
  {| userId := userId c; clientId := clientId c; ws := ws c;
     connected := connected c; connecting := connecting c;
     reconnectAttempts := reconnectAttempts c;
     maxReconnectAttempts := maxReconnectAttempts c;
     reconnectDelay := reconnectDelay c; reconnectTimer := reconnectTimer c;
     keepAliveTimer := keepAliveTimer c; lastPacketId := lastPacketId c;
     pendingAcks := pendingAcks c; messageQueue := messageQueue c;
     sockets := v; closed := closed c; sent := sent c; emitted := emitted c;
     promises := promises c; ackTimers := ackTimers c;
     awaiting := awaiting c; lapsed := lapsed c;
     errorListeners := errorListeners c |}.

Definition set_closed (v : list nat) (c : MQTTClient) : MQTTClient :=
  {| userId := userId c; clientId := clientId c; ws := ws c;
     connected := connected c; connecting := connecting c;
     reconnectAttempts := reconnectAttempts c;
     maxReconnectAttempts := maxReconnectAttempts c;
     reconnectDelay := reconnectDelay c; reconnectTimer := reconnectTimer c;
     keepAliveTimer := keepAliveTimer c; lastPacketId := lastPacketId c;
     pendingAcks := pendingAcks c; messageQueue := messageQueue c;
     sockets := sockets c; closed := v; sent := sent c; emitted := emitted c;
     promises := promises c; ackTimers := ackTimers c;
     awaiting := awaiting c; lapsed := lapsed c;
     errorListeners := errorListeners c |}.

Definition set_sent (v : list (nat * Buffer)) (c : MQTTClient) : MQTTClient :=
  {| userId := userId c; clientId := clientId c; ws := ws c;
     connected := connected c; connecting := connecting c;
     reconnectAttempts := reconnectAttempts c;
     maxReconnectAttempts := maxReconnectAttempts c;
     reconnectDelay := reconnectDelay c; reconnectTimer := reconnectTimer c;
     keepAliveTimer := keepAliveTimer c; lastPacketId := lastPacketId c;
     pendingAcks := pendingAcks c; messageQueue := messageQueue c;
     sockets := sockets c; closed := closed c; sent := v;
     emitted := emitted c; promises := promises c; ackTimers := ackTimers c;
     awaiting := awaiting c; lapsed := lapsed c;
     errorListeners := errorListeners c |}.

Definition set_emitted (v : list Emitted) (c : MQTTClient) : MQTTClient :=
  {| userId := userId c; clientId := clientId c; ws := ws c;
     connected := connected c; connecting := connecting c;
     reconnectAttempts := reconnectAttempts c;
     maxReconnectAttempts := maxReconnectAttempts c;
     reconnectDelay := reconnectDelay c; reconnectTimer := reconnectTimer c;
     keepAliveTimer := keepAliveTimer c; lastPacketId := lastPacketId c;
     pendingAcks := pendingAcks c; messageQueue := messageQueue c;
     sockets := sockets c; closed := closed c; sent := sent c; emitted := v;
     promises := promises c; ackTimers := ackTimers c;
     awaiting := awaiting c; lapsed := lapsed c;
     errorListeners := errorListeners c |}.

Definition set_promises (v : list PromiseState) (c : MQTTClient) : MQTTClient :=
  {| userId := userId c; clientId := clientId c; ws := ws c;
     connected := connected c; connecting := connecting c;
     reconnectAttempts := reconnectAttempts c;
     maxReconnectAttempts := maxReconnectAttempts c;
     reconnectDelay := reconnectDelay c; reconnectTimer := reconnectTimer c;
     keepAliveTimer := keepAliveTimer c; lastPacketId := lastPacketId c;
     pendingAcks := pendingAcks c; messageQueue := messageQueue c;
     sockets := sockets c; closed := closed c; sent := sent c;
     emitted := emitted c; promises := v; ackTimers := ackTimers c;
     awaiting := awaiting c; lapsed := lapsed c;
     errorListeners := errorListeners c |}.

Definition set_ackTimers (v : gmap nat Z) (c : MQTTClient) : MQTTClient :=
  {| userId := userId c; clientId := clientId c; ws := ws c;
     connected := connected c; connecting := connecting c;
     reconnectAttempts := reconnectAttempts c;
     maxReconnectAttempts := maxReconnectAttempts c;
     reconnectDelay := reconnectDelay c; reconnectTimer := reconnectTimer c;
     keepAliveTimer := keepAliveTimer c; lastPacketId := lastPacketId c;
     pendingAcks := pendingAcks c; messageQueue := messageQueue c;
     sockets := sockets c; closed := closed c; sent := sent c;
     emitted := emitted c; promises := promises c; ackTimers := v;
     awaiting := awaiting c; lapsed := lapsed c;
     errorListeners := errorListeners c |}.

Definition set_awaiting (v : nat) (c : MQTTClient) : MQTTClient :=
  {| userId := userId c; clientId := clientId c; ws := ws c;
     connected := connected c; connecting := connecting c;
     reconnectAttempts := reconnectAttempts c;
     maxReconnectAttempts := maxReconnectAttempts c;
     reconnectDelay := reconnectDelay c; reconnectTimer := reconnectTimer c;
     keepAliveTimer := keepAliveTimer c; lastPacketId := lastPacketId c;
     pendingAcks := pendingAcks c; messageQueue := messageQueue c;
     sockets := sockets c; closed := closed c; sent := sent c;
     emitted := emitted c; promises := promises c; ackTimers := ackTimers c;
     awaiting := v; lapsed := lapsed c;
     errorListeners := errorListeners c |}.

Definition set_lapsed (v : nat) (c : MQTTClient) : MQTTClient :=
  {| userId := userId c; clientId := clientId c; ws := ws c;
     connected := connected c; connecting := connecting c;
     reconnectAttempts := reconnectAttempts c;
     maxReconnectAttempts := maxReconnectAttempts c;
     reconnectDelay := reconnectDelay c; reconnectTimer := reconnectTimer c;
     keepAliveTimer := keepAliveTimer c; lastPacketId := lastPacketId c;
     pendingAcks := pendingAcks c; messageQueue := messageQueue c;
     sockets := sockets c; closed := closed c; sent := sent c;
     emitted := emitted c; promises := promises c; ackTimers := ackTimers c;
     awaiting := awaiting c; lapsed := v;
     errorListeners := errorListeners c |}.

Definition set_errorListeners (v : nat) (c : MQTTClient) : MQTTClient :=
  {| userId := userId c; clientId := clientId c; ws := ws c;
     connected := connected c; connecting := connecting c;
     reconnectAttempts := reconnectAttempts c;
     maxReconnectAttempts := maxReconnectAttempts c;
     reconnectDelay := reconnectDelay c; reconnectTimer := reconnectTimer c;
     keepAliveTimer := keepAliveTimer c; lastPacketId := lastPacketId c;
     pendingAcks := pendingAcks c; messageQueue := messageQueue c;
     sockets := sockets c; closed := closed c; sent := sent c;
     emitted := emitted c; promises := promises c; ackTimers := ackTimers c;
     awaiting := awaiting c; lapsed := lapsed c;
     errorListeners := v |}.

(** [MQTT_DEFAULT_OPTIONS] of [utils/Constants.ts]. *)
Definition MQTT_DEFAULT_OPTIONS_keepalive : Z := 60.
Definition MQTT_DEFAULT_OPTIONS_reconnectPeriod : Z := 5000.

(** A client as its constructor leaves it. *)
Definition newClient (userId clientId : string) : MQTTClient :=
  {| userId := userId; clientId := clientId; ws := None;
     connected := false; connecting := false;
     reconnectAttempts := 0; maxReconnectAttempts := 10;
     reconnectDelay := MQTT_DEFAULT_OPTIONS_reconnectPeriod;
     reconnectTimer := None; keepAliveTimer := None;
     lastPacketId := 0; pendingAcks := ∅; messageQueue := [];
     sockets := 0%nat; closed := []; sent := []; emitted := [];
     promises := []; ackTimers := ∅; awaiting := 0%nat; lapsed := 0%nat;
     errorListeners := 0%nat |}.

(** The message of an exception, as the source prints it into another
    message; for the platform's own errors the text is the platform's
    and only its class is kept. *)
Definition exnMessage (e : Exn) : string :=
  match e with
  | Error message => message
  | RangeError => "RangeError"
  | TypeError => "TypeError"
  | SyntaxError => "SyntaxError"
  end.

(** [this.emit(...)], as a change of the client; how the call ends is
    [emitOutcome]. The two listeners [connect()] registers with [once]
    settle the promise it awaits: ['connect'] resolves it and takes the
    call's ['error'] listener off; ['error'] rejects it, and the [catch]
    of [connect()] then clears [connecting]. The listeners of a call
    that timed out do nothing when they run; being [once] listeners, an
    ['error'] removes theirs too. Other listeners belong to the
    consumer and stay. *)
Definition emit (e : Emitted) (c : MQTTClient) : MQTTClient :=
  let c := set_emitted (emitted c ++ [e]) c in
  match e with
  | Emit_connect => set_awaiting 0%nat c
  | Emit_error _ =>
      let c := set_lapsed 0%nat c in
      match awaiting c with
      | O => c
      | S _ => set_connecting false (set_awaiting 0%nat c)
      end
  | _ => c
  end.

(** How the call [this.emit(...)] ends. An [EventEmitter] that has no
    listener for ['error'] throws the error it is asked to emit; the
    listeners are those of the [connect()] calls, suspended or timed
    out, and the consumer's. The other events never throw. *)
Definition emitOutcome (e : Emitted) (c : MQTTClient) : Result unit :=
  match e with
  | Emit_error error =>
      match (awaiting c + lapsed c + errorListeners c)%nat with
      | O => Throw error
      | S _ => Ok tt
      end
  | _ => Ok tt
  end.

(** [this.ws?.send(packet)]. *)
Definition wsSend (packet : Buffer) (c : MQTTClient) : MQTTClient :=
  match ws c with
  | Some s => set_sent (sent c ++ [(s, packet)]) c
  | None => c
  end.

Definition getNextPacketId (c : MQTTClient) : Z * MQTTClient :=
  let c := set_lastPacketId ((lastPacketId c + 1) mod 65536) c in
  (lastPacketId c, c).

Definition stopReconnect (c : MQTTClient) : MQTTClient :=
  match reconnectTimer c with
  | Some _ => set_reconnectTimer None c
  | None => c
  end.

Definition stopKeepAlive (c : MQTTClient) : MQTTClient :=
  match keepAliveTimer c with
  | Some _ => set_keepAliveTimer None c
  | None => c
  end.

Definition startKeepAlive (c : MQTTClient) : MQTTClient :=
  set_keepAliveTimer (Some (MQTT_DEFAULT_OPTIONS_keepalive * 1000)) c.

Definition sendDisconnect (c : MQTTClient) : MQTTClient :=
  wsSend (Buffer_from [224; 0]) c.

Definition sendPing (c : MQTTClient) : MQTTClient :=
  wsSend (Buffer_from [192; 0]) c.

Definition sendPubAck (packetId : Z) (c : MQTTClient) : MQTTClient :=
  wsSend (buildPubAckPacket packetId) c.

(** [connect()] up to its [await]: a no-op when connected or
    connecting, else a new socket is opened and the call suspends. *)
Definition connect (c : MQTTClient) : MQTTClient :=
  if connected c || connecting c then c
  else
    let c := set_connecting true c in
    let c := set_ws (Some (sockets c)) (set_sockets (S (sockets c)) c) in
    set_awaiting (S (awaiting c)) c.

(** The timeout inside [connect()] fires on a call still suspended:
    the call is rejected, and its two listeners stay registered. *)
Definition connectTimeout (c : MQTTClient) : MQTTClient :=
  match awaiting c with
  | O => c
  | S n => set_lapsed (S (lapsed c)) (set_awaiting n (set_connecting false c))
  end.

Definition disconnect (c : MQTTClient) : MQTTClient :=
  let c := stopReconnect c in
  let c := stopKeepAlive c in
  let c :=
    match ws c with
    | Some s =>
        let c := sendDisconnect c in
        let c := set_closed (closed c ++ [s]) c in
        set_ws None c
    | None => c
    end in
  let c := set_connected false c in
  let c := set_connecting false c in
  emit (Emit_disconnect None) c.

Definition isSome {A : Type} (o : option A) : bool :=
  match o with
  | Some _ => true
  | None => false
  end.

Definition subscribe (topic : string) (qos : Z) (c : MQTTClient)
  : Result unit * MQTTClient :=
  if negb (connected c) || negb (isSome (ws c))
  then (Throw (Error "Not connected to MQTT broker"), c)
  else
    let '(packetId, c) := getNextPacketId c in
    match buildSubscribePacket packetId topic qos with
    | Throw e => (Throw e, c)
    | Ok subscribePacket => (Ok tt, wsSend subscribePacket c)
    end.

Definition sendPublish (message : MQTTMessage) (c : MQTTClient)
  : Result RetVal * MQTTClient :=
  let '(packetId, c) :=
    if 0 <? qos message
    then let '(id, c) := getNextPacketId c in (Some id, c)
    else (None, c) in
  match buildPublishPacket message packetId with
  | Throw e => (Throw e, c)
  | Ok packet =>
      let c := wsSend packet c in
      if (0 <? qos message) && truthyId packetId
      then
        let p := length (promises c) in
        let c := set_promises (promises c ++ [Pending]) c in
        let c := set_ackTimers (<[p := toInt32 packetId]> (ackTimers c)) c in
        let c := set_pendingAcks (<[toInt32 packetId := p]> (pendingAcks c)) c in
        (Ok (PromiseOf p), c)
      else (Ok Undefined, c)
  end.

(** [publish(topic, payload, qos, retain)]; a string payload goes
    through [Buffer.from]. The value of [sendPublish] is dropped. *)
Definition publish (topic : string) (payload : Buffer + string) (qos : Z)
  (retain : bool) (c : MQTTClient) : Result RetVal * MQTTClient :=
  let message :=
    {| topic := topic;
       payload := match payload with
                  | inl buffer => buffer
                  | inr text => Buffer_from_string text
                  end;
       qos := qos;
       retain := retain |} in
  if negb (connected c) || negb (isSome (ws c))
  then (Ok Undefined, set_messageQueue (messageQueue c ++ [message]) c)
  else
    match sendPublish message c with
    | (Throw e, c) => (Throw e, c)
    | (Ok _, c) => (Ok Undefined, c)
    end.

(** The topics of [subscribeToTopics], in its order. *)
Definition requiredTopics (c : MQTTClient) : list string :=
  [ "/t_ms"; "/t_rtc"; "/t_p"; "/t_tn"; "/t_graphql"; "/t_messaging_events";
    "mqtt_c2b_" ++ userId c;
    "/t_sb"; "/t_admin_text"; "/t_presence"; "/t_msg_body"; "/t_delta" ]%string.

(** The [for] loop of [subscribeToTopics]: what a [subscribe] throws is
    caught and the loop goes on. *)
Fixpoint subscribeEach (topics : list string) (c : MQTTClient) : MQTTClient :=
  match topics with
  | [] => c
  | topic :: topics' =>
      let '(_, c) := subscribe topic 1 c in
      subscribeEach topics' c
  end.

Definition subscribeToTopics (c : MQTTClient) : MQTTClient :=
  subscribeEach (requiredTopics c) c.

(** The [while] loop of [processMessageQueue], on the messages still
    queued: [sendPublish] leaves the queue and [connected] alone, so
    [queue] is [messageQueue c] at every test of the condition (see
    [flushLoop_queue]). An exception leaves the loop. *)
Fixpoint flushLoop (queue : list MQTTMessage) (c : MQTTClient)
  : Result unit * MQTTClient :=
  match queue with
  | [] => (Ok tt, c)
  | message :: queue' =>
      if connected c then
        let c := set_messageQueue queue' c in
        match sendPublish message c with
        | (Throw e, c) => (Throw e, c)
        | (Ok _, c) => flushLoop queue' c
        end
      else (Ok tt, c)
  end.

Definition processMessageQueue (c : MQTTClient) : Result unit * MQTTClient :=
  flushLoop (messageQueue c) c.

Definition scheduleReconnect (c : MQTTClient) : MQTTClient :=
  match reconnectTimer c with
  | Some _ => c
  | None =>
      let c := set_reconnectAttempts (reconnectAttempts c + 1) c in
      let delay := Z.min (reconnectDelay c * reconnectAttempts c) 30000 in
      set_reconnectTimer (Some delay) c
  end.

(** The callback of the reconnect timeout, when it is armed. *)
Definition reconnectTimerFires (c : MQTTClient) : MQTTClient :=
  match reconnectTimer c with
  | Some _ => connect (set_reconnectTimer None c)
  | None => c
  end.

Definition handleClose (code : Z) (reason : string) (c : MQTTClient) : MQTTClient :=
  let c := set_connected false c in
  let c := set_connecting false c in
  let c := emit (Emit_disconnect (Some (code, reason))) c in
  if reconnectAttempts c <? maxReconnectAttempts c
  then scheduleReconnect c
  else c.

(** [handleError], as a change of the client: the call ends as
    [emitOutcome (Emit_error error) c], and what it throws leaves
    through the socket's listener. *)
Definition handleError (error : Exn) (c : MQTTClient) : MQTTClient :=
  emit (Emit_error error) c.

(** [refusalCodes[returnCode] || `Connection refused with code ...`]. *)
Definition refusalReason (returnCode : option Z) : string :=
  match returnCode with
  | Some 1 => "Connection Refused - Unacceptable protocol version"
  | Some 2 => "Connection Refused - Identifier rejected"
  | Some 3 => "Connection Refused - Server unavailable"
  | Some 4 => "Connection Refused - Bad user name or password"
  | Some 5 => "Connection Refused - Not authorized (bad cookies)"
  | Some n => "Connection refused with code " ++ numberToString n
  | None => "Connection refused with code undefined"
  end.

Definition handleConnAck (returnCode : option Z) (c : MQTTClient)
  : Result unit * MQTTClient :=
  match returnCode with
  | Some 0 =>
      let c := set_connected true c in
      let c := set_connecting false c in
      let c := set_reconnectAttempts 0 c in
      let c := startKeepAlive c in
      let c := subscribeToTopics c in
      match processMessageQueue c with
      | (Throw e, c) => (Throw e, c)
      | (Ok _, c) => (Ok tt, emit Emit_connect c)
      end
  | _ =>
      let c := set_connecting false c in
      let reason := refusalReason returnCode in
      let error := Error reason in
      (emitOutcome (Emit_error error) c, emit (Emit_error error) c)
  end.

(** A promise settles once. *)
Definition settle (p : nat) (s : PromiseState) (ps : list PromiseState)
  : list PromiseState :=
  match ps !! p with
  | Some Pending => <[p := s]> ps
  | _ => ps
  end.

(** The callback stored in [pendingAcks] clears the timeout of its
    promise and resolves it. *)
Definition handlePubAck (packetId : Z) (c : MQTTClient) : MQTTClient :=
  match pendingAcks c !! packetId with
  | Some p =>
      let c := set_ackTimers (delete p (ackTimers c)) c in
      let c := set_promises (settle p Resolved (promises c)) c in
      set_pendingAcks (delete packetId (pendingAcks c)) c
  | None => c
  end.

(** The 30-second timeout of promise [p], when it is still armed. *)
Definition publishTimeout (p : nat) (c : MQTTClient) : MQTTClient :=
  match ackTimers c !! p with
  | Some packetId =>
      let c := set_ackTimers (delete p (ackTimers c)) c in
      let c := set_pendingAcks (delete packetId (pendingAcks c)) c in
      set_promises (settle p (Rejected (Error "PUBLISH timeout")) (promises c)) c
  | None => c
  end.

(** The callback of the keep-alive interval, when it is armed. *)
Definition keepAliveFires (c : MQTTClient) : MQTTClient :=
  match keepAliveTimer c with
  | Some _ => if connected c then sendPing c else c
  | None => c
  end.

Definition buildConnectPacket (c : MQTTClient) : Result Buffer :=
  let protocolName := Buffer_from_string "MQTT" in
  let protocolLevel := 4 in
  let connectFlags := 2 in
  let keepAlive := MQTT_DEFAULT_OPTIONS_keepalive in
  let clientIdBuf := Buffer_from_string (clientId c) in
  clientIdLength ← writeUInt16BE (byteLength clientIdBuf);
  let variableHeader :=
    Buffer_from [0; 4] ++ protocolName ++ Buffer_from [protocolLevel]
      ++ Buffer_from [connectFlags]
      ++ Buffer_from [Z.land (Z.shiftr keepAlive 8) 255; Z.land keepAlive 255] in
  let payload := clientIdLength ++ clientIdBuf in
  let remainingLength := byteLength variableHeader + byteLength payload in
  let remainingLengthBuf := encodeRemainingLength remainingLength in
  let fixedHeaderByte := 16 in
  let fixedHeader := Buffer_from [fixedHeaderByte] ++ remainingLengthBuf in
  Ok (fixedHeader ++ variableHeader ++ payload).

(** [sendConnect], as a change of the client; in its [catch] branch
    the call ends as [emitOutcome] of the error it emits. *)
Definition sendConnect (c : MQTTClient) : MQTTClient :=
  match buildConnectPacket c with
  | Ok packet => wsSend packet c
  | Throw e =>
      emit (Emit_error
        (Error ("Failed to send CONNECT packet: " ++ exnMessage e))) c
  end.

Definition handleOpen (c : MQTTClient) : MQTTClient := sendConnect c.

Section Dispatch.

Variable JSON_parse : string -> Result json.

Definition parseAndEmitEvent (now : Z) (topic : string) (payload : Buffer)
  (c : MQTTClient) : MQTTClient :=
  let c := emit (Emit_raw topic payload) c in
  match parse JSON_parse now topic payload with
  | Some event =>
      let c := emit (Emit_typed (eventType event) event) c in
      emit (Emit_event event) c
  | None => c
  end.

Definition handlePublish (now : Z) (topic : string) (payload : Buffer)
  (qos : Z) (packetId : option Z) (c : MQTTClient) : MQTTClient :=
  let c :=
    if (0 <? qos) && truthyId packetId
    then sendPubAck (toInt32 packetId) c
    else c in
  let c := emit (Emit_message topic payload) c in
  parseAndEmitEvent now topic payload c.

(** [handleMessage]: whatever the [try] block throws is logged, and
    the state reached by then is kept. *)
Definition handleMessage (now : Z) (data : Buffer) (c : MQTTClient) : MQTTClient :=
  match parsePacket data with
  | Throw _ => c
  | Ok (CONNACK returnCode) => snd (handleConnAck returnCode c)
  | Ok (PUBLISH topic payload qos packetId) =>
      handlePublish now topic payload qos packetId c
  | Ok (PUBACK packetId) => handlePubAck packetId c
  | Ok (SUBACK _ _) => c
  | Ok (OtherPacket _) => c
  end.

(** What can happen to a client: calls of its public methods, events
    of its sockets, and its timers firing. [Call_on_error] is the
    consumer registering a listener with [on('error', ...)], inherited
    from [EventEmitter]; listeners are taken to leave the client
    alone. *)
Inductive Input : Type :=
| Call_connect
| Call_disconnect
| Call_publish (topic : string) (payload : Buffer + string) (qos : Z) (retain : bool)
| Call_subscribe (topic : string) (qos : Z)
| Ws_open
| Ws_message (data : Buffer) (now : Z)
| Ws_close (code : Z) (reason : string)
| Ws_error (error : Exn)
| ReconnectTimer_fires
| KeepAlive_fires
| ConnectTimeout_fires
| PublishTimeout_fires (p : nat)
| Call_on_error.

(** One input, as a change of the client. What a method or a handler
    throws leaves through its caller; the state it reached is kept. *)
Definition step (c : MQTTClient) (i : Input) : MQTTClient :=
  match i with
  | Call_connect => connect c
  | Call_disconnect => disconnect c
  | Call_publish topic payload qos retain => snd (publish topic payload qos retain c)
  | Call_subscribe topic qos => snd (subscribe topic qos c)
  | Ws_open => handleOpen c
  | Ws_message data now => handleMessage now data c
  | Ws_close code reason => handleClose code reason c
  | Ws_error error => handleError error c
  | ReconnectTimer_fires => reconnectTimerFires c
  | KeepAlive_fires => keepAliveFires c
  | ConnectTimeout_fires => connectTimeout c
  | PublishTimeout_fires p => publishTimeout p c
  | Call_on_error => set_errorListeners (S (errorListeners c)) c
  end.

Definition run (c : MQTTClient) (inputs : list Input) : MQTTClient :=
  fold_left step inputs c.

End Dispatch.

(** ** Sample data *)

(** The text [{"x":1}], by its bytes. *)
Definition payload_x1 : Buffer := [123; 34; 120; 34; 58; 49; 125].

(** The PUBLISH frame with topic [/t_ms], QoS 1, packet id 7 and
    payload [{"x":1}]: header 0x32, remaining length 16, topic length
    0x0005, topic, packet id 0x0007, payload. *)
Definition handBuiltFrame : Buffer :=
  [50; 16; 0; 5; 47; 116; 95; 109; 115; 0; 7; 123; 34; 120; 34; 58; 49; 125].

(** ** The attribution rules, as statements to compare the parser with *)

(** The thread-id rule of the design document: the thread key's
    [threadFbId] when it carries one (the thread is a group), else its
    [otherUserFbId] (one-to-one), else no attribution ([None]). A field
    is carried when its value is truthy. *)
Definition threadIdRule (threadKey : JSValue) : option JSValue :=
  if truthy (getPropOpt threadKey "threadFbId")
  then Some (getPropOpt threadKey "threadFbId")
  else if truthy (getPropOpt threadKey "otherUserFbId")
  then Some (getPropOpt threadKey "otherUserFbId")
  else None.

(** The thread key a message-sync delta is attributed by: the one of
    its message metadata, or for a reaction its own. *)
Definition deltaThreadKey (delta : JSValue) : JSValue :=
  if truthy (getPropOpt delta "messageMetadata")
  then getPropOpt (getPropOpt delta "messageMetadata") "threadKey"
  else getPropOpt delta "threadKey".

(** The delta keys of the graphql topic, in the order the parser tests
    them, each with the type of the event it yields. *)
Definition graphQLDeltas : list (string * string) :=
  [ ("deltaThreadName", "thread_rename");
    ("deltaThreadColor", "thread_color");
    ("deltaThreadIcon", "thread_emoji");
    ("deltaThreadImage", "thread_image");
    ("deltaNickname", "thread_nickname");
    ("deltaParticipantsAdded", "thread_add_participants");
    ("deltaParticipantsRemoved", "thread_remove_participants");
    ("deltaAdminAdded", "thread_promote");
    ("deltaAdminRemoved", "thread_demote");
    ("deltaLeftThread", "thread_leave") ]%string.

(** The first of those keys the payload carries, with its event type
    and its value. *)
Fixpoint firstDelta (data : JSValue) (keys : list (string * string))
  : option (string * JSValue) :=
  match keys with
  | [] => None
  | (key, type) :: keys' =>
      if truthy (getPropOpt data key)
      then Some (type, getPropOpt data key)
      else firstDelta data keys'
  end.

(** A rename of a one-to-one thread: its thread key has only
    [otherUserFbId]. *)
Definition renameOneToOne : json :=
  JObj [("deltaThreadName",
         JObj [("threadKey", JObj [("otherUserFbId", JStr "42")]);
               ("actorFbId", JStr "9");
               ("name", JStr "x")])].

(** A rename whose thread key has neither field. *)
Definition renameUnattributed : json :=
  JObj [("deltaThreadName",
         JObj [("threadKey", JObj []);
               ("actorFbId", JStr "9");
               ("name", JStr "x")])].

(** The message of the design document's example, in a group thread. *)
Definition groupMessage : json :=
  JObj [("delta",
         JObj [("messageMetadata",
                JObj [("threadKey", JObj [("threadFbId", JStr "123")]);
                      ("actorFbId", JStr "9");
                      ("messageId", JStr "m1");
                      ("timestamp", JNum 1000)]);
               ("body", JStr "hi")])].

(** The same, one-to-one. *)
Definition directMessage : json :=
  JObj [("delta",
         JObj [("messageMetadata",
                JObj [("threadKey", JObj [("otherUserFbId", JStr "42")]);
                      ("actorFbId", JStr "9");
                      ("messageId", JStr "m2");
                      ("timestamp", JNum 1000)])])].

(** The topic [subscribeToTopics] builds for the session's user. *)
Definition personalTopic (userId : string) : string := "mqtt_c2b_" ++ userId.

(** ** Well-formed messages and sample clients *)

(** A topic whose UTF-8 length fits the two-byte length prefix; for
    longer ones [writeUInt16BE] throws. *)
Definition encodableTopic (topic : string) : bool :=
  byteLength (Buffer_from_string topic) <=? 65535.

Definition encodable (message : MQTTMessage) : Prop :=
  encodableTopic (topic message) = true.

(** A [publish] call with the fields of [message], as a state change. *)
Definition publishCall (c : MQTTClient) (message : MQTTMessage) : MQTTClient :=
  snd (publish (topic message) (inl (payload message)) (qos message)
         (retain message) c).

(** A client that connected: [connect()], the socket opens, the broker
    accepts. *)
Definition connectedClient : MQTTClient :=
  snd (handleConnAck (Some 0) (handleOpen (connect (newClient "100" "cid")))).

(** One failed reconnection: the socket closes and the reconnect timer
    fires. *)
Definition failedAttempt (c : MQTTClient) : MQTTClient :=
  reconnectTimerFires (handleClose 1006 "" c).

(** A client whose ten automatic attempts all failed. *)
Definition exhaustedClient : MQTTClient :=
  Nat.iter 10 failedAttempt (connect (newClient "100" "cid")).

(** Three QoS 0 messages. *)
Definition threeMessages : list MQTTMessage :=
  [ {| topic := "/a"; payload := [1]; qos := 0; retain := false |};
    {| topic := "/b"; payload := [2]; qos := 0; retain := false |};
    {| topic := "/c"; payload := [3]; qos := 0; retain := false |} ].

(** A topic of 65536 bytes, one more than a two-byte length prefix can
    announce. *)
Definition longTopic : string := string_of_bytes (repeat 97 (Z.to_nat 65536)).

(** Three QoS 0 messages, the second with that topic. *)
Definition withLongTopic : list MQTTMessage :=
  [ {| topic := "/a"; payload := [1]; qos := 0; retain := false |};
    {| topic := longTopic; payload := [2]; qos := 0; retain := false |};
    {| topic := "/c"; payload := [3]; qos := 0; retain := false |} ].

(** ** Frames on the wire *)

(** A frame that starts with [header] and whose remaining-length field,
    read at byte 1, counts exactly the bytes that follow the field. *)
Definition wellFramed (header : Z) (frame : Buffer) : Prop :=
  exists (rest : Buffer) (remainingLength next : Z),
    frame = header :: rest
    /\ decodeRemainingLength frame 1 = (remainingLength, next)
    /\ byteLength frame = next + remainingLength.

(** The topics [parse] has a case for. *)
Definition routedTopics : list string :=
  [ "/t_ms"; "/t_rtc"; "/t_p"; "/t_tn"; "/t_graphql"; "/t_messaging_events" ]%string.

(** ** Sequences of steps *)

(** [k] packet ids allocated in a row. *)
Definition allocate (k : nat) (c : MQTTClient) : MQTTClient :=
  Nat.iter k (fun c => snd (getNextPacketId c)) c.

(** ** Invariants of the connection manager *)

(** The bookkeeping of QoS 1 publishes: pending-ack entries, armed
    timeouts and promises. *)
Definition ackFields (c : MQTTClient) : gmap Z nat * gmap nat Z * list PromiseState :=
  (pendingAcks c, ackTimers c, promises c).

(** The bookkeeping of reconnection. *)
Definition budgetFields (c : MQTTClient) : Z * Z * Z * option Z :=
  (reconnectAttempts c, maxReconnectAttempts c, reconnectDelay c, reconnectTimer c).

(** Every pending-ack entry names a promise whose timeout is armed for
    that packet id; a promise has an armed timeout exactly when it is
    pending. *)
Definition acksOk (acks : gmap Z nat) (timers : gmap nat Z)
  (proms : list PromiseState) : Prop :=
  (forall (id : Z) (p : nat), acks !! id = Some p -> timers !! p = Some id)
  /\ (forall (p : nat) (id : Z), timers !! p = Some id -> proms !! p = Some Pending)
  /\ (forall p : nat, proms !! p = Some Pending -> is_Some (timers !! p)).

Definition acksConsistent (c : MQTTClient) : Prop :=
  acksOk (pendingAcks c) (ackTimers c) (promises c).

(** The attempt counter stays within the budget of ten, and an armed
    reconnect timer waits between 5 and 30 seconds. *)
Definition budgetKept (c : MQTTClient) : Prop :=
  0 <= reconnectAttempts c <= maxReconnectAttempts c
  /\ maxReconnectAttempts c = 10
  /\ reconnectDelay c = 5000
  /\ (forall delay : Z, reconnectTimer c = Some delay -> 5000 <= delay <= 30000).

(** * Properties *)

(** ** Bytes *)

Lemma lor_continuation (d : Z) : 0 <= d < 128 -> Z.lor d 128 = d + 128.
Proof.
  intros H. destruct d as [|p|p]; [reflexivity| |lia].
  do 7 (destruct p as [p|p|]; try reflexivity); lia.
Qed.

Lemma land_low7 (b : Z) : Z.land b 127 = b mod 128.
Proof. change 127 with (Z.ones 7). now rewrite Z.land_ones. Qed.

Lemma land_continuation (b : Z) :
  0 <= b < 256 -> (Z.land b 128 =? 0) = (b <? 128).
Proof.
  intros H. destruct b as [|p|p]; [reflexivity| |lia].
  do 8 (destruct p as [p|p|]; try reflexivity); lia.
Qed.

(** ** The remaining-length field *)

Section RemainingLength.

(** One turn of the encoder's loop on a non-negative number. *)
Lemma encodeLoop_step (fuel : nat) (n : Z) :
  0 <= n ->
  encodeLoop (S fuel) n =
    if n <? 128 then [n] else (n mod 128 + 128) :: encodeLoop fuel (n / 128).
Proof.
  intros Hn. simpl.
  rewrite Z.rem_mod_nonneg by lia.
  destruct (Z.ltb_spec n 128) as [Hlt|Hge].
  - rewrite Z.div_small, Z.mod_small by lia. reflexivity.
  - assert (0 < n / 128) as Hq by (apply Z.div_str_pos; lia).
    destruct (Z.ltb_spec 0 (n / 128)); [|lia].
    rewrite lor_continuation by (apply Z.mod_pos_bound; lia). reflexivity.
Qed.

(** A number below [2 ^ (fuel + 1)] never exhausts [S fuel] turns:
    more fuel changes nothing. *)
Lemma encodeLoop_fuel (fuel : nat) :
  forall (n : Z) (extra : nat),
    0 <= n < 2 ^ Z.of_nat (S fuel) ->
    encodeLoop (S fuel + extra) n = encodeLoop (S fuel) n.
Proof.
  induction fuel as [|fuel IH]; intros n extra Hn.
  - change (2 ^ Z.of_nat 1) with 2 in Hn.
    change (1 + extra)%nat with (S extra).
    rewrite !encodeLoop_step by lia.
    destruct (Z.ltb_spec n 128); [reflexivity|lia].
  - change (S (S fuel) + extra)%nat with (S (S fuel + extra)).
    rewrite (encodeLoop_step (S fuel + extra)), (encodeLoop_step (S fuel)) by lia.
    destruct (Z.ltb_spec n 128); [reflexivity|].
    f_equal. apply IH.
    rewrite !Nat2Z.inj_succ, !Z.pow_succ_r in * by lia.
    split; [apply Z.div_pos; lia|].
    apply Z.div_lt_upper_bound; lia.
Qed.

Lemma encodeLoop_bytes (fuel : nat) :
  forall n : Z, 0 <= n -> Forall (fun b => 0 <= b < 256) (encodeLoop fuel n).
Proof.
  induction fuel as [|fuel IH]; intros n Hn; [constructor|].
  rewrite encodeLoop_step by lia.
  destruct (Z.ltb_spec n 128).
  - repeat constructor; lia.
  - constructor.
    + pose proof (Z.mod_pos_bound n 128). lia.
    + apply IH, Z.div_pos; lia.
Qed.

Lemma Buffer_from_bytes (l : list Z) :
  Forall (fun b => 0 <= b < 256) l -> Buffer_from l = l.
Proof.
  induction 1 as [|b l Hb _ IH]; [reflexivity|].
  unfold Buffer_from in *. simpl. rewrite IH, Z.mod_small by lia. reflexivity.
Qed.

(** The buffer [encodeRemainingLength] returns is the loop's list. *)
Lemma encodeRemainingLength_loop (n : Z) :
  0 <= n ->
  encodeRemainingLength n = encodeLoop (S (Z.to_nat (Z.log2 n))) n.
Proof.
  intros Hn. unfold encodeRemainingLength.
  apply Buffer_from_bytes, encodeLoop_bytes, Hn.
Qed.

Lemma log2_fuel (n : Z) :
  0 <= n -> 0 <= n < 2 ^ Z.of_nat (S (Z.to_nat (Z.log2 n))).
Proof.
  intros Hn. split; [lia|].
  rewrite Nat2Z.inj_succ, Z2Nat.id by apply Z.log2_nonneg.
  destruct (Z.eq_dec n 0) as [->|Hne]; [reflexivity|].
  apply Z.log2_spec. lia.
Qed.

(** The number of bytes is the number of base-128 digits. *)
Lemma encodeLoop_length (fuel : nat) :
  forall (n : Z) (k : nat),
    0 <= n < 2 ^ Z.of_nat (S fuel) ->
    n < 128 ^ Z.of_nat (S k) ->
    (1 <= length (encodeLoop (S fuel) n) <= S k)%nat.
Proof.
  induction fuel as [|fuel IH]; intros n k Hn Hk.
  - change (2 ^ Z.of_nat 1) with 2 in Hn.
    rewrite encodeLoop_step by lia.
    destruct (Z.ltb_spec n 128); simpl; lia.
  - rewrite encodeLoop_step by lia.
    destruct (Z.ltb_spec n 128) as [|Hge]; [simpl; lia|].
    destruct k as [|k]; [change (128 ^ Z.of_nat 1) with 128 in Hk; lia|].
    assert (1 <= length (encodeLoop (S fuel) (n / 128)) <= S k)%nat as IH'.
    { apply IH.
      - rewrite !Nat2Z.inj_succ, !Z.pow_succ_r in * by lia.
        split; [apply Z.div_pos; lia|apply Z.div_lt_upper_bound; lia].
      - rewrite (Nat2Z.inj_succ (S k)), Z.pow_succ_r in Hk by lia.
        apply Z.div_lt_upper_bound; lia. }
    cbn [length]. lia.
Qed.

Lemma encodeLoop_minimal (fuel : nat) :
  forall n : Z,
    0 <= n < 2 ^ Z.of_nat (S fuel) ->
    128 <= n ->
    128 ^ Z.of_nat (length (encodeLoop (S fuel) n) - 1) <= n.
Proof.
  induction fuel as [|fuel IH]; intros n Hn Hge.
  - change (2 ^ Z.of_nat 1) with 2 in Hn. lia.
  - rewrite encodeLoop_step by lia.
    destruct (Z.ltb_spec n 128) as [|_]; [lia|].
    assert (0 <= n / 128 < 2 ^ Z.of_nat (S fuel)) as Hq.
    { rewrite !Nat2Z.inj_succ, !Z.pow_succ_r in * by lia.
      split; [apply Z.div_pos; lia|apply Z.div_lt_upper_bound; lia]. }
    pose proof (encodeLoop_length fuel (n / 128) (S fuel) Hq) as Hlen.
    cbn [length]. rewrite Nat.sub_succ, Nat.sub_0_r.
    destruct (Z.ltb_spec (n / 128) 128) as [Hsmall|Hbig].
    + rewrite encodeLoop_step by lia.
      destruct (Z.ltb_spec (n / 128) 128); [|lia]. simpl. lia.
    + specialize (IH (n / 128) Hq Hbig).
      destruct (length (encodeLoop (S fuel) (n / 128))) as [|m] eqn:Hm.
      * simpl in *. lia.
      * rewrite Nat.sub_succ, Nat.sub_0_r in IH.
        rewrite Nat2Z.inj_succ, Z.pow_succ_r by lia.
        pose proof (Z.mul_div_le n 128). lia.
Qed.

(** Byte [i] is digit [i], least significant first, with the
    continuation bit on all but the last. *)
Lemma encodeLoop_digits (fuel : nat) :
  forall (n : Z) (i : nat) (b : Z),
    0 <= n < 2 ^ Z.of_nat (S fuel) ->
    encodeLoop (S fuel) n !! i = Some b ->
    b = (n / 128 ^ Z.of_nat i) mod 128
        + (if (S i <? length (encodeLoop (S fuel) n))%nat then 128 else 0).
Proof.
  assert (forall n, 0 <= n < 128 -> forall i b,
    [n] !! i = Some b ->
    b = (n / 128 ^ Z.of_nat i) mod 128
        + (if (S i <? length [n])%nat then 128 else 0)) as Hlast.
  { intros n Hn [|i] b Hb; [|discriminate].
    simpl in Hb. injection Hb as <-.
    change (Z.of_nat 0) with 0. rewrite Z.pow_0_r, Z.div_1_r, Z.mod_small by lia.
    simpl. lia. }
  induction fuel as [|fuel IH]; intros n i b Hn.
  - change (2 ^ Z.of_nat 1) with 2 in Hn.
    rewrite encodeLoop_step by lia.
    destruct (Z.ltb_spec n 128); [|lia].
    apply Hlast. lia.
  - rewrite encodeLoop_step by lia.
    destruct (Z.ltb_spec n 128) as [Hlt|Hge]; [apply Hlast; lia|].
    assert (0 <= n / 128 < 2 ^ Z.of_nat (S fuel)) as Hq.
    { rewrite !Nat2Z.inj_succ, !Z.pow_succ_r in * by lia.
      split; [apply Z.div_pos; lia|apply Z.div_lt_upper_bound; lia]. }
    pose proof (encodeLoop_length fuel (n / 128) 0 Hq) as Hlen.
    cbn [length].
    destruct i as [|i].
    + intros Hb. apply (inj Some) in Hb. subst b.
      change (Z.of_nat 0) with 0. rewrite Z.pow_0_r, Z.div_1_r.
      destruct (Nat.ltb_spec 1 (S (length (encodeLoop (S fuel) (n / 128)))))
        as [|Hshort]; [reflexivity|].
      exfalso.
      destruct (encodeLoop (S fuel) (n / 128)) as [|d ds] eqn:Hrec;
        [|cbn [length] in Hshort; lia].
      rewrite encodeLoop_step in Hrec by lia.
      destruct (n / 128 <? 128); discriminate.
    + intros Hb.
      change ((n mod 128 + 128 :: encodeLoop (S fuel) (n / 128)) !! S i)
        with (encodeLoop (S fuel) (n / 128) !! i) in Hb.
      apply IH in Hb; [|exact Hq]. rewrite Hb.
      rewrite (Nat2Z.inj_succ i), Z.pow_succ_r by lia.
      rewrite Z.div_div by lia.
      reflexivity.
Qed.

(** The decoder's loop on the encoder's bytes, whatever follows them. *)
Lemma decodeLoop_encodeLoop (fuel : nat) :
  forall (n : Z) (after : list Z) (multiplier acc offset : Z),
    0 <= n < 2 ^ Z.of_nat (S fuel) ->
    decodeLoop (encodeLoop (S fuel) n ++ after) multiplier acc offset =
      (acc + n * multiplier,
       offset + Z.of_nat (length (encodeLoop (S fuel) n))).
Proof.
  induction fuel as [|fuel IH]; intros n after multiplier acc offset Hn.
  - change (2 ^ Z.of_nat 1) with 2 in Hn.
    rewrite encodeLoop_step by lia.
    destruct (Z.ltb_spec n 128); [|lia].
    simpl. rewrite land_low7, land_continuation by lia.
    destruct (Z.ltb_spec n 128); [|lia].
    rewrite Z.mod_small by lia. reflexivity.
  - rewrite encodeLoop_step by lia.
    destruct (Z.ltb_spec n 128) as [Hlt|Hge].
    + simpl. rewrite land_low7, land_continuation by lia.
      destruct (Z.ltb_spec n 128); [|lia].
      rewrite Z.mod_small by lia. reflexivity.
    + pose proof (Z.mod_pos_bound n 128 ltac:(lia)) as Hd.
      cbn [app decodeLoop].
      rewrite land_low7, land_continuation by lia.
      destruct (Z.ltb_spec (n mod 128 + 128) 128); [lia|].
      rewrite IH.
      * f_equal.
        -- replace ((n mod 128 + 128) mod 128) with (n mod 128)
             by (apply (Z.mod_unique_pos _ _ 1); lia).
           pose proof (Z.div_mod n 128 ltac:(lia)). lia.
        -- cbn [length]. lia.
      * rewrite !Nat2Z.inj_succ, !Z.pow_succ_r in * by lia.
        split; [apply Z.div_pos; lia|apply Z.div_lt_upper_bound; lia].
Qed.

End RemainingLength.

(** C7. For every n with 0 <= n <= 268435455, [encodeRemainingLength n]
    is one to four bytes, as many as n has base-128 digits; byte i is
    digit i of n, least significant first, with the continuation bit
    0x80 added on every byte except the last; and the decoding loop of
    [parsePublishPacket], started at the offset where those bytes
    begin, returns n and stops right after them, whatever bytes come
    before and after. *)
Theorem remainingLength_roundtrip (n : Z) :
  0 <= n <= 268435455 ->
  let bytes := encodeRemainingLength n in
  (1 <= length bytes <= 4)%nat
  /\ (length bytes = 1%nat \/ 128 ^ Z.of_nat (length bytes - 1) <= n)
  /\ (forall (i : nat) (b : Z),
        bytes !! i = Some b ->
        b = (n / 128 ^ Z.of_nat i) mod 128
            + (if (S i <? length bytes)%nat then 128 else 0))
  /\ (forall before after : Buffer,
        decodeRemainingLength (before ++ bytes ++ after) (byteLength before)
        = (n, byteLength before + byteLength bytes)).
Proof.
  intros Hn bytes. subst bytes.
  rewrite encodeRemainingLength_loop by lia.
  pose proof (log2_fuel n ltac:(lia)) as Hfuel.
  set (fuel := Z.to_nat (Z.log2 n)) in *.
  repeat split.
  - apply (encodeLoop_length fuel n 3 Hfuel). change (128 ^ Z.of_nat 4) with 268435456. lia.
  - apply (encodeLoop_length fuel n 3 Hfuel). change (128 ^ Z.of_nat 4) with 268435456. lia.
  - destruct (Z.ltb_spec n 128) as [Hlt|Hge].
    + left. rewrite encodeLoop_step by lia.
      destruct (Z.ltb_spec n 128); [reflexivity|lia].
    + right. apply encodeLoop_minimal; [exact Hfuel|exact Hge].
  - intros i b. apply encodeLoop_digits, Hfuel.
  - intros before after. unfold decodeRemainingLength, byteLength.
    rewrite Nat2Z.id, drop_app_length.
    rewrite decodeLoop_encodeLoop by exact Hfuel.
    f_equal. lia.
Qed.

Lemma remainingLength_roundtrip_witness :
  0 <= 16384 <= 268435455
  /\ encodeRemainingLength 16384 = [128; 128; 1]
  /\ decodeRemainingLength ([50] ++ [128; 128; 1] ++ [0; 5; 47]) 1 = (16384, 4).
Proof.
  split; [lia|].
  split; [reflexivity|].
  destruct (remainingLength_roundtrip 16384 ltac:(lia)) as (_ & _ & _ & Hdec).
  exact (Hdec [50] [0; 5; 47]).
Defined.

(** The boundary values of the design document, through the encoder
    and back through the decoder's loop. *)
Example remainingLength_boundaries :
  map encodeRemainingLength [0; 127; 128; 16383; 16384; 2097151; 268435455]
  = [[0]; [127]; [128; 1]; [255; 127]; [128; 128; 1]; [255; 255; 127];
     [255; 255; 255; 127]]
  /\ map (fun n => decodeRemainingLength (encodeRemainingLength n) 0)
       [0; 127; 128; 16383; 16384; 2097151; 268435455]
     = [(0, 1); (127, 1); (128, 2); (16383, 2); (16384, 3); (2097151, 3);
        (268435455, 4)].
Proof. split; reflexivity. Qed.

(** ** PUBLISH frames *)

(** C1, at the frame of the design document. The frame has the
    remaining length at byte 1, then the topic, the packet id and the
    payload (it is the one [buildPublishPacket] produces), but
    [parsePublishPacket] starts its remaining-length loop at byte 2, not
    at byte 1: it reads the topic length from bytes 3 and 4 (0x052F),
    runs past the end of the frame looking for the packet id, and throws
    instead of returning the topic, QoS, packet id and payload. Started
    at byte 1 the same code returns them. *)
Theorem parsePublishPacket_hand_built :
  buildPublishPacket
    {| topic := "/t_ms"; payload := payload_x1; qos := 1; retain := false |}
    (Some 7) = Ok handBuiltFrame
  /\ parsePublishPacket handBuiltFrame = Throw RangeError
  /\ parsePacket handBuiltFrame = Throw RangeError
  /\ parsePublishPacketFrom 1 handBuiltFrame
     = Ok (PUBLISH "/t_ms" payload_x1 1 (Some 7)).
Proof. repeat split; reflexivity. Qed.

(** The same frame at QoS 0 does not throw, and the topic and payload
    returned are not the ones that were encoded. *)
Example parsePublishPacket_qos0 :
  let frame := [48; 14; 0; 5; 47; 116; 95; 109; 115; 123; 34; 120; 34; 58; 49; 125] in
  buildPublishPacket
    {| topic := "/t_ms"; payload := payload_x1; qos := 0; retain := false |}
    None = Ok frame
  /\ parsePublishPacket frame
     = Ok (PUBLISH (string_of_bytes ([116; 95; 109; 115] ++ payload_x1)) [] 0 None).
Proof. split; reflexivity. Qed.

Lemma writeUInt16BE_ok (value : Z) :
  0 <= value <= 65535 -> writeUInt16BE value = Ok [value / 256; value mod 256].
Proof.
  intros H. unfold writeUInt16BE.
  destruct (Z.leb_spec 0 value); [|lia].
  destruct (Z.leb_spec value 65535); [|lia].
  reflexivity.
Qed.

(** The layout of an encoded PUBLISH frame: the packet id is on the
    wire when the QoS is positive and the id is not 0. *)
Lemma buildPublishPacket_layout (message : MQTTMessage) (packetId : Z) :
  byteLength (Buffer_from_string (topic message)) <= 65535 ->
  0 <= packetId <= 65535 ->
  let topicBuf := Buffer_from_string (topic message) in
  let idField :=
    if (0 <? qos message) && negb (packetId =? 0)
    then [packetId / 256; packetId mod 256] else [] in
  buildPublishPacket message (Some packetId) =
    Ok (Buffer_from
          [Z.lor (Z.lor 48 (Z.shiftl (qos message) 1))
             (if retain message then 1 else 0)]
        ++ encodeRemainingLength
             (2 + byteLength topicBuf + byteLength idField
              + byteLength (payload message))
        ++ ([byteLength topicBuf / 256; byteLength topicBuf mod 256]
            ++ topicBuf ++ idField)
        ++ payload message).
Proof.
  intros Htopic Hid topicBuf idField. subst topicBuf idField.
  pose proof (Nat2Z.is_nonneg (length (Buffer_from_string (topic message)))).
  unfold buildPublishPacket, byteLength in *.
  change (truthyId (Some packetId)) with (negb (packetId =? 0)).
  change (toInt32 (Some packetId)) with packetId.
  rewrite (writeUInt16BE_ok packetId), (writeUInt16BE_ok (Z.of_nat _)) by lia.
  cbn [mbind Result_bind].
  destruct ((0 <? qos message) && negb (packetId =? 0)).
  - cbn [mbind Result_bind].
    rewrite <- !app_assoc. do 3 f_equal.
    rewrite !length_app. cbn [length app]. f_equal. lia.
  - cbn [mbind Result_bind].
    rewrite app_nil_r, <- !app_assoc. do 3 f_equal.
    rewrite !length_app. cbn [length]. f_equal. lia.
Qed.

(** The counter reaches 65535 after that many allocations, and the
    next id is 0. *)
Example packetId_wraps :
  let c := Nat.iter (Z.to_nat 65535) (fun c => snd (getNextPacketId c)) (newClient "100" "cid") in
  lastPacketId c = 65535 /\ fst (getNextPacketId c) = 0.
Proof. vm_compute. split; reflexivity. Qed.

(** C3, at the wrap of the counter. After packet id 65535 the next id
    is 0; [buildPublishPacket] tests the id itself ([qos > 0 &&
    packetId]) and so leaves the id field out of a QoS 1 frame whose id
    is 0: the header byte 0x32 announces QoS 1, and the topic is
    followed by the payload at once. [sendPublish] sends that frame and
    registers no pending acknowledgment. With id 7 the same message
    carries its id. *)
Theorem buildPublishPacket_wrapped_id :
  let message :=
    {| topic := "/t_ms"; payload := payload_x1; qos := 1; retain := false |} in
  let c :=
    set_lastPacketId 65535
      (set_connected true (set_ws (Some 0%nat) (newClient "100" "cid"))) in
  fst (getNextPacketId c) = 0
  /\ buildPublishPacket message (Some 0)
     = Ok [50; 14; 0; 5; 47; 116; 95; 109; 115; 123; 34; 120; 34; 58; 49; 125]
  /\ buildPublishPacket message (Some 7)
     = Ok [50; 16; 0; 5; 47; 116; 95; 109; 115; 0; 7; 123; 34; 120; 34; 58; 49; 125]
  /\ fst (sendPublish message c) = Ok Undefined
  /\ sent (snd (sendPublish message c))
     = [(0%nat, [50; 14; 0; 5; 47; 116; 95; 109; 115; 123; 34; 120; 34; 58; 49; 125])]
  /\ pendingAcks (snd (sendPublish message c)) = ∅.
Proof. repeat split; reflexivity. Qed.

(** ** EventParser *)

Section Attribution.

Variable now : Z.

(** A member of a value that is a condition's true branch is read
    without a type error. *)
Lemma getProp_truthy (v : JSValue) (key : string) :
  truthy v = true -> getProp v key = Ok (getPropOpt v key).
Proof. destruct v as [[]|]; simpl; intros H; try discriminate; reflexivity. Qed.

Lemma getProp_Ok (v r : JSValue) (key : string) :
  getProp v key = Ok r -> r = getPropOpt v key.
Proof. destruct v as [[]|]; simpl; intros [= <-] || discriminate; reflexivity. Qed.

Lemma getPropOpt_truthy (v : JSValue) (key : string) :
  truthy (getPropOpt v key) = true -> truthy v = true.
Proof. destruct v as [[]|]; simpl; try discriminate; try reflexivity. Qed.

(** [extractThreadId] computes the rule; [null] stands for no
    attribution. *)
Lemma extractThreadId_rule (threadKey : JSValue) :
  extractThreadId threadKey =
    Ok (match threadIdRule threadKey with
        | Some threadId => threadId
        | None => null
        end).
Proof.
  unfold extractThreadId, threadIdRule.
  destruct (truthy threadKey) eqn:Hkey; cbn [negb].
  - rewrite !getProp_truthy by exact Hkey. cbn [mbind Result_bind].
    destruct (truthy (getPropOpt threadKey "threadFbId")); [reflexivity|].
    destruct (truthy (getPropOpt threadKey "otherUserFbId")); reflexivity.
  - destruct (truthy (getPropOpt threadKey "threadFbId")) eqn:H1.
    { apply getPropOpt_truthy in H1. congruence. }
    destruct (truthy (getPropOpt threadKey "otherUserFbId")) eqn:H2.
    { apply getPropOpt_truthy in H2. congruence. }
    reflexivity.
Qed.

Lemma threadIdRule_truthy (threadKey threadId : JSValue) :
  threadIdRule threadKey = Some threadId -> truthy threadId = true.
Proof.
  unfold threadIdRule.
  destruct (truthy (getPropOpt threadKey "threadFbId")) eqn:H1;
    [intros [= <-]; exact H1|].
  destruct (truthy (getPropOpt threadKey "otherUserFbId")) eqn:H2;
    [intros [= <-]; exact H2|discriminate].
Qed.

Lemma getProp_readable (v : JSValue) (key : string) :
  readable v -> getProp v key = Ok (getPropOpt v key).
Proof. intros H. destruct v as [[]|]; simpl in *; try contradiction; reflexivity. Qed.

Lemma readable_of_Ok (v r : JSValue) (key : string) :
  getProp v key = Ok r -> readable v.
Proof.
  intros H. destruct v as [[]|]; simpl in *; try discriminate; exact I.
Qed.

Lemma readable_of_truthy (v : JSValue) : truthy v = true -> readable v.
Proof.
  intros H. destruct v as [[]|]; simpl in *; try discriminate; exact I.
Qed.

Lemma parseAttachments_readable (delta : JSValue) :
  readable delta -> exists l, parseAttachments delta = Ok l.
Proof.
  intros H. unfold parseAttachments. rewrite getProp_readable by exact H.
  cbn [mbind Result_bind].
  destruct (negb _ || negb _); eexists; reflexivity.
Qed.

Lemma parseMentions_readable (delta : JSValue) :
  readable delta -> exists l, parseMentions delta = Ok l.
Proof.
  intros H. unfold parseMentions. rewrite getProp_readable by exact H.
  cbn [mbind Result_bind].
  destruct (negb _ || negb _); eexists; reflexivity.
Qed.

(** [parseDelta] on a delta whose members can be read: a message or
    a reaction attributed by the rule, or none. *)
Lemma parseDelta_readable (delta : JSValue) :
  readable delta ->
  match threadIdRule (deltaThreadKey delta) with
  | Some threadId =>
      if truthy (getPropOpt delta "messageMetadata")
         || truthy (getPropOpt delta "reaction")
      then exists e, parseDelta now delta = Ok (Some e)
                     /\ eventThreadId e = Some threadId
      else parseDelta now delta = Ok None
  | None => parseDelta now delta = Ok None
  end.
Proof.
  intros Hdelta. unfold parseDelta, deltaThreadKey.
  rewrite (getProp_readable delta "messageMetadata") by exact Hdelta.
  cbn [mbind Result_bind].
  destruct (truthy (getPropOpt delta "messageMetadata")) eqn:Hmeta.
  - rewrite !(getProp_truthy (getPropOpt delta "messageMetadata")) by exact Hmeta.
    cbn [mbind Result_bind orb].
    rewrite extractThreadId_rule. cbn [mbind Result_bind].
    destruct (threadIdRule _) as [threadId|] eqn:Hrule; [|reflexivity].
    rewrite (threadIdRule_truthy _ _ Hrule). cbn [negb].
    rewrite (getProp_readable delta "body") by exact Hdelta.
    destruct (parseAttachments_readable delta Hdelta) as [atts ->].
    destruct (parseMentions_readable delta Hdelta) as [ments ->].
    cbn [mbind Result_bind].
    eexists. split; reflexivity.
  - rewrite (getProp_readable delta "reaction") by exact Hdelta.
    cbn [mbind Result_bind orb].
    destruct (truthy (getPropOpt delta "reaction")) eqn:Hreaction.
    + rewrite (getProp_readable delta "threadKey") by exact Hdelta.
      cbn [mbind Result_bind].
      rewrite extractThreadId_rule. cbn [mbind Result_bind].
      destruct (threadIdRule _) as [threadId|] eqn:Hrule; [|reflexivity].
      rewrite (threadIdRule_truthy _ _ Hrule). cbn [negb].
      rewrite !(getProp_truthy (getPropOpt delta "reaction")) by exact Hreaction.
      rewrite (getProp_readable delta "actorFbId") by exact Hdelta.
      cbn [mbind Result_bind].
      eexists. split; reflexivity.
    + destruct (threadIdRule _); reflexivity.
Qed.

(** Whatever [parseDelta] returns as an event is attributed by the
    rule. *)
Lemma parseDelta_attributed (delta : JSValue) (e : PanindiganEvent) :
  parseDelta now delta = Ok (Some e) ->
  eventThreadId e = threadIdRule (deltaThreadKey delta).
Proof.
  intros He.
  assert (readable delta) as Hdelta.
  { unfold parseDelta in He.
    destruct (getProp delta "messageMetadata") eqn:Hget; [|discriminate].
    eapply readable_of_Ok, Hget. }
  pose proof (parseDelta_readable delta Hdelta) as Hspec.
  destruct (threadIdRule (deltaThreadKey delta)) as [threadId|].
  - destruct (truthy _ || truthy _).
    + destruct Hspec as (e' & He' & Hid). congruence.
    + congruence.
  - congruence.
Qed.

(** The same for the direct message shape, whose thread key is the
    one of the payload's own message metadata. *)
Lemma parseDirectDelta_readable (data : JSValue) :
  readable data ->
  truthy (getPropOpt data "messageMetadata") = true ->
  match threadIdRule (getPropOpt (getPropOpt data "messageMetadata") "threadKey") with
  | Some threadId =>
      exists e, parseDirectDelta now data = Ok (Some e)
                /\ eventThreadId e = Some threadId
  | None => parseDirectDelta now data = Ok None
  end.
Proof.
  intros Hdata Hmeta. unfold parseDirectDelta.
  rewrite (getProp_readable data "messageMetadata") by exact Hdata.
  cbn [mbind Result_bind]. rewrite Hmeta. cbn [negb].
  rewrite !(getProp_truthy (getPropOpt data "messageMetadata")) by exact Hmeta.
  cbn [mbind Result_bind].
  rewrite extractThreadId_rule. cbn [mbind Result_bind].
  destruct (threadIdRule _) as [threadId|] eqn:Hrule; [|reflexivity].
  rewrite (threadIdRule_truthy _ _ Hrule). cbn [negb].
  rewrite (getProp_readable data "body") by exact Hdata.
  destruct (parseAttachments_readable data Hdata) as [atts ->].
  destruct (parseMentions_readable data Hdata) as [ments ->].
  cbn [mbind Result_bind].
  eexists. split; reflexivity.
Qed.

Lemma threadFbIdOrEmpty_cases (threadKey : JSValue) :
  threadFbIdOrEmpty threadKey =
    if truthy (getPropOpt threadKey "threadFbId")
    then getPropOpt threadKey "threadFbId"
    else Some (JStr "").
Proof. reflexivity. Qed.

(** Every branch of [parseGraphQLEvent] builds its event from the
    first delta key the payload carries, and takes the thread id from
    [threadFbId] alone. *)
Lemma parseGraphQLEvent_readable (data : JSValue) :
  readable data ->
  match firstDelta data graphQLDeltas with
  | Some (type, delta) =>
      exists e, parseGraphQLEvent now data = Ok (Some e)
                /\ eventType e = type
                /\ eventThreadId e
                   = Some (threadFbIdOrEmpty (getPropOpt delta "threadKey"))
  | None => parseGraphQLEvent now data = Ok None
  end.
Proof.
  intros Hdata. unfold parseGraphQLEvent, graphQLDeltas, firstDelta.
  repeat
    (match goal with
     | |- context [getProp data ?key] =>
         rewrite (getProp_readable data key) by exact Hdata;
         cbn [mbind Result_bind];
         let H := fresh "Hkey" in
         destruct (truthy (getPropOpt data key)) eqn:H;
         [ rewrite !(getProp_truthy (getPropOpt data key)) by exact H;
           cbn [mbind Result_bind];
           eexists; repeat split; reflexivity
         | ]
     end).
  reflexivity.
Qed.

End Attribution.

(** C4, as the code has it. In message-sync parsing ([parseDelta] for
    a message or a reaction, [parseDirectDelta] for the direct shape)
    the event's thread id is the thread key's [threadFbId] when that is
    present (truthy), else its [otherUserFbId], and with neither the
    parse yields no event. In every graphql-delta sub-parse the thread
    id is the thread key's [threadFbId] when present and the empty
    string otherwise: [otherUserFbId] is not consulted and an event is
    produced in every case. *)
Theorem threadId_attribution (now : Z) :
  (forall threadKey : JSValue,
      extractThreadId threadKey
      = Ok (match threadIdRule threadKey with
            | Some threadId => threadId
            | None => null
            end))
  /\ (forall (delta : JSValue) (e : PanindiganEvent),
        parseDelta now delta = Ok (Some e) ->
        eventThreadId e = threadIdRule (deltaThreadKey delta))
  /\ (forall delta : JSValue,
        readable delta ->
        match threadIdRule (deltaThreadKey delta) with
        | Some threadId =>
            if truthy (getPropOpt delta "messageMetadata")
               || truthy (getPropOpt delta "reaction")
            then exists e, parseDelta now delta = Ok (Some e)
                           /\ eventThreadId e = Some threadId
            else parseDelta now delta = Ok None
        | None => parseDelta now delta = Ok None
        end)
  /\ (forall data : JSValue,
        readable data ->
        truthy (getPropOpt data "messageMetadata") = true ->
        match threadIdRule
                (getPropOpt (getPropOpt data "messageMetadata") "threadKey") with
        | Some threadId =>
            exists e, parseDirectDelta now data = Ok (Some e)
                      /\ eventThreadId e = Some threadId
        | None => parseDirectDelta now data = Ok None
        end)
  /\ (forall data : JSValue,
        readable data ->
        match firstDelta data graphQLDeltas with
        | Some (type, delta) =>
            exists e, parseGraphQLEvent now data = Ok (Some e)
                      /\ eventType e = type
                      /\ eventThreadId e
                         = Some (if truthy (getPropOpt (getPropOpt delta "threadKey")
                                              "threadFbId")
                                 then getPropOpt (getPropOpt delta "threadKey")
                                        "threadFbId"
                                 else Some (JStr ""))
        | None => parseGraphQLEvent now data = Ok None
        end).
Proof.
  split; [exact extractThreadId_rule|].
  split; [exact (parseDelta_attributed now)|].
  split; [exact (parseDelta_readable now)|].
  split; [exact (parseDirectDelta_readable now)|].
  exact (parseGraphQLEvent_readable now).
Qed.

Lemma threadId_attribution_witness :
  readable (Some renameOneToOne)
  /\ (exists e,
        parseGraphQLEvent 1000 (Some renameOneToOne) = Ok (Some e)
        /\ eventType e = "thread_rename"%string
        /\ eventThreadId e = Some (Some (JStr "")))
  /\ parseDelta 1000 (Some (JStr "hi")) = Ok None.
Proof.
  assert (readable (Some renameOneToOne)) as Hr1 by exact I.
  assert (readable (Some (JStr "hi"))) as Hr2 by exact I.
  destruct (threadId_attribution 1000) as (_ & _ & Hdelta & _ & Hgql).
  split; [exact Hr1|].
  split; [exact (Hgql (Some renameOneToOne) Hr1)|].
  exact (Hdelta (Some (JStr "hi")) Hr2).
Defined.

(** C4 as stated fails on the graphql topic. A rename whose thread key
    carries only [otherUserFbId] is attributed to the empty thread id,
    not to that user as the rule has it; one whose thread key carries
    neither field still yields an event, where the rule has none. *)
Lemma parseGraphQLEvent_ignores_rule :
  (exists e,
      parseGraphQLEvent 1000 (Some renameOneToOne) = Ok (Some e)
      /\ eventThreadId e = Some (Some (JStr ""))
      /\ threadIdRule (Some (JObj [("otherUserFbId", JStr "42")]))
         = Some (Some (JStr "42"))
      /\ eventThreadId e
         <> threadIdRule (Some (JObj [("otherUserFbId", JStr "42")])))
  /\ (exists e,
        parseGraphQLEvent 1000 (Some renameUnattributed) = Ok (Some e)
        /\ threadIdRule (Some (JObj [])) = None).
Proof.
  split.
  - eexists. split; [reflexivity|]. split; [reflexivity|].
    split; [reflexivity|]. discriminate.
  - eexists. split; reflexivity.
Qed.

(** The two message examples of the design document. *)
Example parseMessageSync_examples :
  parseMessageSync 1000 (Some groupMessage)
  = Ok (Some (MessageEvent 1000
      {| messageId := Some (JStr "m1"); threadId := Some (JStr "123");
         senderId := Some (JStr "9"); body := Some (JStr "hi");
         timestamp := Some (JNum 1000); attachments := []; mentions := [];
         isGroup := true; reactions := []; isUnread := true |}))
  /\ parseMessageSync 1000 (Some directMessage)
     = Ok (Some (MessageEvent 1000
      {| messageId := Some (JStr "m2"); threadId := Some (JStr "42");
         senderId := Some (JStr "9"); body := Some (JStr "");
         timestamp := Some (JNum 1000); attachments := []; mentions := [];
         isGroup := false; reactions := []; isUnread := true |})).
Proof. split; reflexivity. Qed.

(** C5, on the code. The topic the client subscribes to for the
    session's user is [mqtt_c2b_] followed by the user id, without a
    leading slash; [parse] routes to the message-sync parser only the
    topics that start with [/mqtt_c2b_], so the subscribed personal
    topic falls into the unrecognized branch and yields no event
    whatever the payload is, also for a payload that is a message on
    the message-sync topic (and on the personal topic written with the
    slash). *)
Theorem parse_personal_topic_unrouted
  (JSON_parse : string -> Result json) (now : Z) (c : MQTTClient) (payload : Buffer) :
  personalTopic (userId c) ∈ requiredTopics c
  /\ parse JSON_parse now (personalTopic (userId c)) payload = None
  /\ (exists e,
        parse (fun _ => Ok groupMessage) now "/t_ms" payload = Some e
        /\ parse (fun _ => Ok groupMessage) now ("/" ++ personalTopic (userId c))
             payload = Some e
        /\ parse (fun _ => Ok groupMessage) now (personalTopic (userId c)) payload
           = None).
Proof.
  split; [|split].
  - unfold requiredTopics, personalTopic. set_solver.
  - unfold parse, parseBody, personalTopic.
    destruct (JSON_parse (string_of_bytes payload)); reflexivity.
  - eexists. split; [reflexivity|]. split; reflexivity.
Qed.

(** ** MQTTClient *)

(** Opens a client into its fields, so that every projection computes. *)
Ltac open_client c :=
  destruct c as [uid cid sock con cing att maxatt delay rtimer katimer lastid
                 acks queue socks cl snt em proms timers aw lap lis].

(** *** Fields a step leaves alone *)

Lemma emit_fields (e : Emitted) (c : MQTTClient) :
  let c' := emit e c in
  connected c' = connected c /\ ws c' = ws c /\ sent c' = sent c
  /\ messageQueue c' = messageQueue c
  /\ reconnectAttempts c' = reconnectAttempts c
  /\ maxReconnectAttempts c' = maxReconnectAttempts c
  /\ reconnectTimer c' = reconnectTimer c
  /\ keepAliveTimer c' = keepAliveTimer c
  /\ sockets c' = sockets c
  /\ emitted c' = emitted c ++ [e].
Proof.
  unfold emit. destruct e; cbn; try (repeat split; reflexivity);
    destruct (awaiting c); repeat split; reflexivity.
Qed.

Lemma sendPublish_fields (message : MQTTMessage) (c : MQTTClient) :
  let c' := snd (sendPublish message c) in
  connected c' = connected c /\ connecting c' = connecting c /\ ws c' = ws c
  /\ messageQueue c' = messageQueue c
  /\ reconnectAttempts c' = reconnectAttempts c
  /\ keepAliveTimer c' = keepAliveTimer c
  /\ emitted c' = emitted c
  /\ userId c' = userId c.
Proof.
  unfold sendPublish, getNextPacketId, wsSend.
  destruct (0 <? qos message); cbn -[buildPublishPacket];
    (destruct (buildPublishPacket _ _); cbn; [|repeat split; reflexivity]);
    destruct (ws c) eqn:Hw; cbn; try destruct (negb _); cbn; rewrite ?Hw;
    repeat split; reflexivity.
Qed.

Lemma subscribe_fields (topic : string) (qos : Z) (c : MQTTClient) :
  let c' := snd (subscribe topic qos c) in
  connected c' = connected c /\ connecting c' = connecting c /\ ws c' = ws c
  /\ messageQueue c' = messageQueue c
  /\ reconnectAttempts c' = reconnectAttempts c
  /\ keepAliveTimer c' = keepAliveTimer c
  /\ emitted c' = emitted c
  /\ userId c' = userId c.
Proof.
  unfold subscribe, getNextPacketId, wsSend.
  destruct (negb (connected c) || negb (isSome (ws c))); cbn;
    [repeat split; reflexivity|].
  cbn -[buildSubscribePacket].
  destruct (buildSubscribePacket _ _ _); cbn; [|repeat split; reflexivity].
  destruct (ws c) eqn:Hw; cbn; rewrite ?Hw; repeat split; reflexivity.
Qed.

Lemma subscribeEach_fields (topics : list string) :
  forall c : MQTTClient,
    let c' := subscribeEach topics c in
    connected c' = connected c /\ connecting c' = connecting c /\ ws c' = ws c
    /\ messageQueue c' = messageQueue c
    /\ reconnectAttempts c' = reconnectAttempts c
    /\ keepAliveTimer c' = keepAliveTimer c
    /\ emitted c' = emitted c
    /\ userId c' = userId c.
Proof.
  induction topics as [|topic topics IH]; intros c; cbn [subscribeEach].
  - repeat split; reflexivity.
  - pose proof (subscribe_fields topic 1 c) as Hs.
    destruct (subscribe topic 1 c) as [r c1]. cbn [snd] in Hs.
    specialize (IH c1). cbn zeta in *.
    destruct Hs as (? & ? & ? & ? & ? & ? & ? & ?).
    destruct IH as (? & ? & ? & ? & ? & ? & ? & ?).
    repeat split; congruence.
Qed.

Lemma flushLoop_fields (queue : list MQTTMessage) :
  forall c : MQTTClient,
    let c' := snd (flushLoop queue c) in
    connected c' = connected c /\ connecting c' = connecting c /\ ws c' = ws c
    /\ reconnectAttempts c' = reconnectAttempts c
    /\ keepAliveTimer c' = keepAliveTimer c
    /\ emitted c' = emitted c.
Proof.
  induction queue as [|message queue IH]; intros c; cbn [flushLoop].
  - repeat split; reflexivity.
  - destruct (connected c) eqn:Hc; [|cbn; rewrite Hc; repeat split; reflexivity].
    pose proof (sendPublish_fields message (set_messageQueue queue c)) as Hs.
    destruct (sendPublish message (set_messageQueue queue c)) as [[r|e] c1];
      cbn [snd] in Hs; cbn zeta in Hs;
      destruct Hs as (H1 & H2 & H3 & _ & H5 & H6 & H7 & _); cbn in H1, H2, H3, H5, H6, H7.
    + specialize (IH c1). cbn zeta in IH.
      destruct IH as (? & ? & ? & ? & ? & ?).
      repeat split; congruence.
    + cbn [snd]. repeat split; congruence.
Qed.

(** A successful CONNACK resets the attempt counter, whatever happens
    to the subscriptions and to the queue afterwards. *)
Lemma handleConnAck_resets (c : MQTTClient) :
  reconnectAttempts (snd (handleConnAck (Some 0) c)) = 0.
Proof.
  unfold handleConnAck, processMessageQueue, subscribeToTopics, startKeepAlive.
  set (c4 := set_keepAliveTimer _ _).
  pose proof (subscribeEach_fields (requiredTopics c4) c4) as Hsub.
  cbn zeta in Hsub. destruct Hsub as (_ & _ & _ & _ & Hsub & _).
  set (c5 := subscribeEach _ c4) in *.
  pose proof (flushLoop_fields (messageQueue c5) c5) as Hflush.
  cbn zeta in Hflush. destruct Hflush as (_ & _ & _ & Hflush & _).
  destruct (flushLoop (messageQueue c5) c5) as [[r|e] c6]; cbn [snd] in *.
  - pose proof (emit_fields Emit_connect c6) as He. cbn zeta in He.
    destruct He as (_ & _ & _ & _ & -> & _). rewrite Hflush, Hsub. reflexivity.
  - rewrite Hflush, Hsub. reflexivity.
Qed.

(** *** Reconnection *)

(** The handshake as the sockets deliver it: [connect()], the open
    event, and the CONNACK frame [20 02 00 00]. *)
Example handshake_run (JSON_parse : string -> Result json) :
  run JSON_parse (newClient "100" "cid")
    [Call_connect; Ws_open; Ws_message [32; 2; 0; 0] 0]
  = connectedClient.
Proof. vm_compute. reflexivity. Qed.

(** C2, on the code. A connected client is disconnected explicitly:
    [disconnect()] cancels both timers, sends DISCONNECT, closes the
    socket and drops it. The close event of that socket then reaches
    [handleClose], which has no record of the explicit disconnect: it
    arms the reconnect timer (attempt 1, after 5000 ms), and when the
    timer fires [connect()] opens a second socket. No [connect()] call
    is among the inputs. *)
Theorem disconnect_then_close_reconnects (JSON_parse : string -> Result json) :
  let c1 := run JSON_parse connectedClient [Call_disconnect] in
  let c2 := run JSON_parse connectedClient [Call_disconnect; Ws_close 1000 ""] in
  let c3 :=
    run JSON_parse connectedClient
      [Call_disconnect; Ws_close 1000 ""; ReconnectTimer_fires] in
  (connected connectedClient = true /\ ws connectedClient = Some 0%nat)
  /\ (reconnectTimer c1 = None /\ keepAliveTimer c1 = None /\ ws c1 = None
      /\ closed c1 = [0%nat] /\ last (sent c1) = Some (0%nat, [224; 0])
      /\ connected c1 = false /\ connecting c1 = false)
  /\ (reconnectTimer c2 = Some 5000 /\ reconnectAttempts c2 = 1)
  /\ (connecting c3 = true /\ ws c3 = Some 1%nat /\ sockets c3 = 2%nat).
Proof. vm_compute. repeat split; reflexivity. Qed.

(** What [disconnect()] leaves behind. *)
Lemma disconnect_fields (c : MQTTClient) :
  let d := disconnect c in
  reconnectTimer d = None /\ keepAliveTimer d = None /\ ws d = None
  /\ connected d = false /\ connecting d = false
  /\ reconnectAttempts d = reconnectAttempts c
  /\ maxReconnectAttempts d = maxReconnectAttempts c.
Proof.
  open_client c.
  destruct rtimer, katimer, sock;
    unfold disconnect, stopReconnect, stopKeepAlive, sendDisconnect, wsSend, emit;
    cbn; repeat split; reflexivity.
Qed.

(** A close event on a client with attempts left and no timer armed
    arms the reconnect timer, and the timer starts an attempt. *)
Lemma handleClose_schedules (c : MQTTClient) (code : Z) (reason : string) :
  reconnectTimer c = None ->
  reconnectAttempts c < maxReconnectAttempts c ->
  let c2 := handleClose code reason c in
  isSome (reconnectTimer c2) = true
  /\ reconnectAttempts c2 = reconnectAttempts c + 1
  /\ connecting (reconnectTimerFires c2) = true.
Proof.
  intros Htimer Hleft. open_client c. cbn in Htimer, Hleft. subst rtimer.
  apply Z.ltb_lt in Hleft.
  unfold handleClose, scheduleReconnect, reconnectTimerFires, connect, emit.
  cbn -[Z.ltb Z.min Z.mul Z.add]. rewrite Hleft.
  cbn -[Z.ltb Z.min Z.mul Z.add]. repeat split; reflexivity.
Qed.

(** What C2 denies holds for every client with attempts left: the close
    event after an explicit disconnect arms the reconnect timer, and
    the timer starts a connection attempt. *)
Lemma handleClose_after_disconnect (c : MQTTClient) (code : Z) (reason : string) :
  reconnectAttempts c < maxReconnectAttempts c ->
  let c2 := handleClose code reason (disconnect c) in
  reconnectTimer (disconnect c) = None
  /\ isSome (reconnectTimer c2) = true
  /\ connecting (reconnectTimerFires c2) = true.
Proof.
  intros Hleft c2.
  pose proof (disconnect_fields c) as Hd. cbn zeta in Hd.
  destruct Hd as (Htimer & _ & _ & _ & _ & Hatt & Hmax).
  split; [exact Htimer|].
  destruct (handleClose_schedules (disconnect c) code reason Htimer)
    as (Harmed & _ & Hfires); [rewrite Hatt, Hmax; exact Hleft|].
  split; [exact Harmed|exact Hfires].
Qed.

Lemma handleClose_after_disconnect_witness :
  reconnectAttempts connectedClient < maxReconnectAttempts connectedClient
  /\ connecting
       (reconnectTimerFires (handleClose 1000 "" (disconnect connectedClient)))
     = true.
Proof.
  assert (reconnectAttempts connectedClient < maxReconnectAttempts connectedClient)
    as H by (vm_compute; reflexivity).
  split; [exact H|].
  exact (proj2 (proj2 (handleClose_after_disconnect connectedClient 1000 "" H))).
Defined.

(** C6, as the code has it. When the attempt counter has reached the
    maximum, an unexpected close of the socket schedules nothing: the
    reconnect timer and the counter stay as they were, and the client
    is neither connected nor connecting. A [connect()] call made then is
    not a no-op: it marks the client connecting and opens a new socket;
    it leaves the attempt counter where it was. The counter is reset to
    0 when a CONNACK with return code 0 is handled, that is when the
    attempt succeeds. *)
Theorem reconnect_budget_exhausted (c : MQTTClient) (code : Z) (reason : string) :
  maxReconnectAttempts c <= reconnectAttempts c ->
  let c1 := handleClose code reason c in
  let c2 := connect c1 in
  (reconnectTimer c1 = reconnectTimer c
   /\ reconnectAttempts c1 = reconnectAttempts c
   /\ connected c1 = false /\ connecting c1 = false)
  /\ (connecting c2 = true
      /\ ws c2 = Some (sockets c) /\ sockets c2 = S (sockets c)
      /\ reconnectAttempts c2 = reconnectAttempts c)
  /\ reconnectAttempts (snd (handleConnAck (Some 0) (handleOpen c2))) = 0.
Proof.
  intros Hmax. cbn zeta.
  split; [|split]; [| |apply handleConnAck_resets].
  - open_client c. cbn in Hmax.
    unfold handleClose, scheduleReconnect, emit. cbn.
    destruct (Z.ltb_spec att maxatt); [lia|]. cbn. repeat split; reflexivity.
  - open_client c. cbn in Hmax.
    unfold handleClose, scheduleReconnect, emit, connect. cbn.
    destruct (Z.ltb_spec att maxatt); [lia|]. cbn. repeat split; reflexivity.
Qed.

Lemma reconnect_budget_exhausted_witness :
  maxReconnectAttempts exhaustedClient <= reconnectAttempts exhaustedClient
  /\ reconnectTimer (handleClose 1006 "" exhaustedClient) = None
  /\ connecting (connect (handleClose 1006 "" exhaustedClient)) = true
  /\ reconnectAttempts
       (snd (handleConnAck (Some 0)
               (handleOpen (connect (handleClose 1006 "" exhaustedClient))))) = 0.
Proof.
  assert (maxReconnectAttempts exhaustedClient <= reconnectAttempts exhaustedClient)
    as H by (vm_compute; discriminate).
  destruct (reconnect_budget_exhausted exhaustedClient 1006 "" H)
    as ((Htimer & _) & (Hconnecting & _) & Hreset).
  split; [exact H|].
  split; [rewrite Htimer; reflexivity|].
  split; [exact Hconnecting|exact Hreset].
Defined.

(** C6 as stated fails: after ten failed automatic attempts and the
    close that ends the last one, a manual [connect()] starts an attempt
    but the counter is still 10, not reset; when that attempt fails too
    (the socket closes), no reconnect is scheduled. *)
Lemma connect_keeps_attempt_counter :
  let c := handleClose 1006 "" exhaustedClient in
  reconnectAttempts exhaustedClient = 10
  /\ reconnectTimer c = None
  /\ connecting (connect c) = true
  /\ reconnectAttempts (connect c) = 10
  /\ reconnectAttempts (connect c) <> 0
  /\ reconnectTimer (handleClose 1006 "" (connect c)) = None.
Proof. vm_compute. repeat split; try reflexivity. discriminate. Qed.

(** *** The outbound queue *)

Lemma message_eta (message : MQTTMessage) :
  {| topic := topic message; payload := payload message; qos := qos message;
     retain := retain message |} = message.
Proof. destruct message; reflexivity. Qed.

(** While disconnected, [publish] only appends to the queue. *)
Lemma publishCall_disconnected (c : MQTTClient) (message : MQTTMessage) :
  connected c = false \/ ws c = None ->
  publishCall c message = set_messageQueue (messageQueue c ++ [message]) c.
Proof.
  intros Hoff. unfold publishCall, publish. rewrite message_eta.
  replace (negb (connected c) || negb (isSome (ws c))) with true; [reflexivity|].
  destruct Hoff as [-> | ->]; [reflexivity|].
  destruct (connected c); reflexivity.
Qed.

Lemma publishCalls_disconnected (calls : list MQTTMessage) :
  forall c : MQTTClient,
    connected c = false \/ ws c = None ->
    let queued := fold_left publishCall calls c in
    messageQueue queued = messageQueue c ++ calls
    /\ sent queued = sent c
    /\ connected queued = connected c /\ ws queued = ws c.
Proof.
  induction calls as [|message calls IH]; intros c Hoff; cbn [fold_left].
  - rewrite app_nil_r. repeat split; reflexivity.
  - rewrite publishCall_disconnected by exact Hoff.
    specialize (IH (set_messageQueue (messageQueue c ++ [message]) c) Hoff).
    cbn zeta in IH. destruct IH as (Hq & Hs & Hc & Hw).
    rewrite Hq, Hs, Hc, Hw. cbn. rewrite <- app_assoc.
    repeat split; reflexivity.
Qed.

Lemma buildPublishPacket_total (message : MQTTMessage) (packetId : option Z) :
  encodable message ->
  match packetId with
  | Some id => 0 <= id <= 65535
  | None => True
  end ->
  exists frame, buildPublishPacket message packetId = Ok frame.
Proof.
  unfold encodable, encodableTopic. intros Htopic Hid.
  apply Z.leb_le in Htopic.
  destruct packetId as [id|].
  - rewrite buildPublishPacket_layout by assumption. eexists; reflexivity.
  - pose proof (Nat2Z.is_nonneg (length (Buffer_from_string (topic message)))).
    unfold buildPublishPacket, byteLength in *.
    rewrite (writeUInt16BE_ok (Z.of_nat _)) by lia.
    cbn [truthyId mbind Result_bind]. rewrite andb_false_r.
    cbn [mbind Result_bind]. eexists; reflexivity.
Qed.

(** On an open socket [sendPublish] hands exactly one frame to the
    socket: the message's own. *)
Lemma sendPublish_sends (message : MQTTMessage) (c : MQTTClient) (s : nat) :
  ws c = Some s ->
  encodable message ->
  exists (r : RetVal) (packetId : option Z) (frame : Buffer),
    fst (sendPublish message c) = Ok r
    /\ buildPublishPacket message packetId = Ok frame
    /\ sent (snd (sendPublish message c)) = sent c ++ [(s, frame)].
Proof.
  intros Hws Henc. unfold sendPublish, getNextPacketId, wsSend.
  destruct (0 <? qos message).
  - pose proof (Z.mod_pos_bound (lastPacketId c + 1) 65536 ltac:(lia)) as Hid.
    destruct (buildPublishPacket_total message
                (Some ((lastPacketId c + 1) mod 65536)) Henc) as [frame Hframe];
      [lia|].
    cbn -[buildPublishPacket]. rewrite Hframe. cbn. rewrite Hws.
    destruct (negb _); cbn; eexists _, _, frame;
      (split; [reflexivity|]); (split; [exact Hframe|reflexivity]).
  - destruct (buildPublishPacket_total message None Henc I) as [frame Hframe].
    cbn -[buildPublishPacket]. rewrite Hframe. cbn. rewrite Hws. cbn.
    eexists _, _, frame.
    split; [reflexivity|]. split; [exact Hframe|reflexivity].
Qed.

(** [sendPublish] neither reads nor writes the queue. *)
Lemma sendPublish_queue (message : MQTTMessage) (c : MQTTClient)
  (queue : list MQTTMessage) :
  sendPublish message (set_messageQueue queue c)
  = (fst (sendPublish message c), set_messageQueue queue (snd (sendPublish message c))).
Proof.
  unfold sendPublish, getNextPacketId, wsSend.
  destruct (0 <? qos message); cbn -[buildPublishPacket];
    (destruct (buildPublishPacket _ _); cbn; [|reflexivity]);
    destruct (ws c); cbn; try destruct (negb _); reflexivity.
Qed.

(** The queue the loop recurses on is the client's queue at every turn. *)
Lemma flushLoop_queue (queue : list MQTTMessage) :
  forall c : MQTTClient,
    messageQueue c = queue ->
    connected c = true ->
    fst (flushLoop queue c) = Ok tt ->
    messageQueue (snd (flushLoop queue c)) = [].
Proof.
  induction queue as [|message queue IH]; intros c Hq Hc Hok; cbn [flushLoop] in *.
  - exact Hq.
  - rewrite Hc in *.
    pose proof (sendPublish_fields message (set_messageQueue queue c)) as Hf.
    cbn zeta in Hf. destruct Hf as (Hc1 & _ & _ & Hq1 & _).
    cbn in Hc1, Hq1.
    destruct (sendPublish message (set_messageQueue queue c)) as [[r|e] c1];
      cbn [fst snd] in *; [|discriminate].
    apply IH; [exact Hq1|congruence|exact Hok].
Qed.

Lemma flushLoop_sends (queue : list MQTTMessage) (s : nat) :
  forall c : MQTTClient,
    connected c = true ->
    ws c = Some s ->
    Forall encodable queue ->
    exists frames : list Buffer,
      fst (flushLoop queue c) = Ok tt
      /\ sent (snd (flushLoop queue c)) = sent c ++ map (pair s) frames
      /\ Forall2
           (fun message frame =>
              exists packetId, buildPublishPacket message packetId = Ok frame)
           queue frames.
Proof.
  induction queue as [|message queue IH]; intros c Hc Hws Henc; cbn [flushLoop].
  - exists []. cbn. rewrite app_nil_r. repeat split. constructor.
  - rewrite Hc. inversion Henc as [|? ? Hm Hrest]; subst.
    destruct (sendPublish_sends message (set_messageQueue queue c) s Hws Hm)
      as (r & packetId & frame & Hr & Hframe & Hsent).
    pose proof (sendPublish_fields message (set_messageQueue queue c)) as Hf.
    cbn zeta in Hf. destruct Hf as (Hc1 & _ & Hws1 & _).
    cbn in Hc1, Hws1, Hsent.
    destruct (sendPublish message (set_messageQueue queue c)) as [r' c1];
      cbn [fst snd] in *. subst r'.
    destruct (IH c1) as (frames & Hok & Hsent' & Hall);
      [congruence|congruence|exact Hrest|].
    exists (frame :: frames).
    split; [exact Hok|]. split.
    + rewrite Hsent', Hsent. cbn. rewrite <- app_assoc. reflexivity.
    + constructor; [exists packetId; exact Hframe|exact Hall].
Qed.

(** Flushing is the sequence of live [publish] calls, one per queued
    message in queue order, on the client with its queue emptied. *)
Lemma flushLoop_publishCalls (queue : list MQTTMessage) (s : nat) :
  forall c : MQTTClient,
    messageQueue c = queue ->
    connected c = true ->
    ws c = Some s ->
    Forall encodable queue ->
    snd (flushLoop queue c)
    = fold_left publishCall queue (set_messageQueue [] c).
Proof.
  induction queue as [|message queue IH]; intros c Hq Hc Hws Henc;
    cbn [flushLoop fold_left].
  - open_client c. cbn in *. subst. reflexivity.
  - rewrite Hc. inversion Henc as [|? ? Hm Hrest]; subst.
    destruct (sendPublish_sends message (set_messageQueue queue c) s Hws Hm)
      as (r & _ & _ & Hr & _ & _).
    pose proof (sendPublish_fields message (set_messageQueue queue c)) as Hf.
    cbn zeta in Hf. destruct Hf as (Hc1 & _ & Hws1 & Hq1 & _).
    cbn in Hc1, Hws1, Hq1.
    pose proof (sendPublish_queue message c queue) as Hcomm.
    destruct (sendPublish message (set_messageQueue queue c)) as [r' c1] eqn:Hsend;
      cbn [fst snd] in *. subst r'.
    rewrite (IH c1) by (try congruence; assumption).
    f_equal.
    unfold publishCall, publish. rewrite message_eta.
    replace (negb (connected (set_messageQueue [] c))
             || negb (isSome (ws (set_messageQueue [] c)))) with false
      by (cbn; rewrite Hc, Hws; reflexivity).
    rewrite (sendPublish_queue message c []).
    injection Hcomm as Hfst Hsnd. rewrite <- Hfst.
    cbn [snd]. subst c1. reflexivity.
Qed.

(** C8, as the code has it. The [publish] calls made while the client
    is disconnected (not connected, or without a socket) send nothing
    and leave the queue extended by their messages in call order. When
    the topics of the queued messages fit the two-byte length prefix and
    the queue is flushed on a connected client with socket [s],
    [processMessageQueue] ends without an exception, empties the queue,
    and hands the socket one frame per queued message, in queue order,
    each the encoding of its own message; the client it leaves is the
    one that live [publish] calls of the queued messages, in that order,
    would leave. *)
Theorem queue_flush_fifo (c : MQTTClient) (calls : list MQTTMessage) (s : nat) :
  connected c = false \/ ws c = None ->
  let queued := fold_left publishCall calls c in
  messageQueue queued = messageQueue c ++ calls
  /\ sent queued = sent c
  /\ (Forall encodable (messageQueue c ++ calls) ->
      forall c' : MQTTClient,
        messageQueue c' = messageQueue queued ->
        connected c' = true ->
        ws c' = Some s ->
        exists frames : list Buffer,
          fst (processMessageQueue c') = Ok tt
          /\ messageQueue (snd (processMessageQueue c')) = []
          /\ sent (snd (processMessageQueue c')) = sent c' ++ map (pair s) frames
          /\ Forall2
               (fun message frame =>
                  exists packetId, buildPublishPacket message packetId = Ok frame)
               (messageQueue c ++ calls) frames
          /\ snd (processMessageQueue c')
             = fold_left publishCall (messageQueue c ++ calls)
                 (set_messageQueue [] c')).
Proof.
  intros Hoff queued.
  destruct (publishCalls_disconnected calls c Hoff) as (Hq & Hs & _).
  fold queued in Hq, Hs.
  split; [exact Hq|]. split; [exact Hs|].
  intros Henc c' Hq' Hc' Hws'. rewrite Hq in Hq'.
  unfold processMessageQueue. rewrite Hq'.
  destruct (flushLoop_sends (messageQueue c ++ calls) s c' Hc' Hws' Henc)
    as (frames & Hok & Hsent & Hall).
  exists frames.
  split; [exact Hok|].
  split; [apply flushLoop_queue; assumption|].
  split; [exact Hsent|].
  split; [exact Hall|].
  apply (flushLoop_publishCalls _ s); assumption.
Qed.

Lemma queue_flush_fifo_witness :
  let c := newClient "100" "cid" in
  let c' := set_connected true (handleOpen (connect (fold_left publishCall threeMessages c))) in
  (connected c = false \/ ws c = None)
  /\ Forall encodable (messageQueue c ++ threeMessages)
  /\ messageQueue c' = messageQueue (fold_left publishCall threeMessages c)
  /\ connected c' = true
  /\ ws c' = Some 0%nat
  /\ messageQueue (fold_left publishCall threeMessages c) = threeMessages
  /\ sent (fold_left publishCall threeMessages c) = []
  /\ fst (processMessageQueue c') = Ok tt
  /\ messageQueue (snd (processMessageQueue c')) = [].
Proof.
  intros c c'.
  assert (connected c = false \/ ws c = None) as Hoff by (left; reflexivity).
  assert (Forall encodable (messageQueue c ++ threeMessages)) as Henc
    by (repeat constructor).
  assert (messageQueue c' = messageQueue (fold_left publishCall threeMessages c))
    as Hq' by reflexivity.
  assert (connected c' = true) as Hc' by reflexivity.
  assert (ws c' = Some 0%nat) as Hws' by reflexivity.
  destruct (queue_flush_fifo c threeMessages 0%nat Hoff) as (Hq & Hs & Hflush).
  destruct (Hflush Henc c' Hq' Hc' Hws') as (frames & Hok & Hempty & _).
  split; [exact Hoff|]. split; [exact Henc|]. split; [exact Hq'|].
  split; [exact Hc'|]. split; [exact Hws'|]. split; [exact Hq|].
  split; [exact Hs|]. split; [exact Hok|exact Hempty].
Defined.

(** C8 fails as it is written when a queued message cannot be encoded.
    Three publishes while disconnected, the second with a topic of
    65536 bytes, then a connection that succeeds: after the CONNECT
    frame and the twelve SUBSCRIBE frames only the first message is on
    the socket; the second was taken off the queue and is lost, and the
    third is still queued. *)
Lemma queue_flush_drops_message :
  let queued := fold_left publishCall withLongTopic (newClient "100" "cid") in
  let c := snd (handleConnAck (Some 0) (handleOpen (connect queued))) in
  messageQueue queued = withLongTopic
  /\ sent queued = []
  /\ drop 13 (sent c) = [(0%nat, [48; 5; 0; 2; 47; 97; 1])]
  /\ messageQueue c
     = [ {| topic := "/c"; payload := [3]; qos := 0; retain := false |} ].
Proof.
  intros queued c.
  split; [cbv -[longTopic]; reflexivity|].
  vm_compute. repeat split; reflexivity.
Qed.

(** The scenario of the design document: three QoS 0 publishes while
    disconnected, then a connection that succeeds. After the CONNECT
    frame and the twelve SUBSCRIBE frames, the three PUBLISH frames are
    on the socket in the order of the calls, and the queue is empty. *)
Example three_publishes_then_connect :
  let queued := fold_left publishCall threeMessages (newClient "100" "cid") in
  let c := snd (handleConnAck (Some 0) (handleOpen (connect queued))) in
  messageQueue queued = threeMessages
  /\ sent queued = []
  /\ drop 13 (sent c)
     = [(0%nat, [48; 5; 0; 2; 47; 97; 1]);
        (0%nat, [48; 5; 0; 2; 47; 98; 2]);
        (0%nat, [48; 5; 0; 2; 47; 99; 3])]
  /\ messageQueue c = []
  /\ emitted c = [Emit_connect].
Proof. vm_compute. repeat split; reflexivity. Qed.

(** *** CONNACK *)








(** *** What [publish] returns *)




(** * Further properties of the codec *)

(** The bytes of the loop are enough digits for the number. *)
Lemma encodeLoop_upper (fuel : nat) :
  forall n : Z,
    0 <= n < 2 ^ Z.of_nat (S fuel) ->
    n < 128 ^ Z.of_nat (length (encodeLoop (S fuel) n)).
Proof.
  induction fuel as [|fuel IH]; intros n Hn.
  - change (2 ^ Z.of_nat 1) with 2 in Hn.
    rewrite encodeLoop_step by lia.
    destruct (Z.ltb_spec n 128); [|lia]. cbn. lia.
  - rewrite encodeLoop_step by lia.
    destruct (Z.ltb_spec n 128); [cbn; lia|].
    assert (0 <= n / 128 < 2 ^ Z.of_nat (S fuel)) as Hq.
    { rewrite !Nat2Z.inj_succ, !Z.pow_succ_r in * by lia.
      split; [apply Z.div_pos; lia|apply Z.div_lt_upper_bound; lia]. }
    specialize (IH (n / 128) Hq).
    cbn [length]. rewrite Nat2Z.inj_succ, Z.pow_succ_r by lia.
    pose proof (Z.div_mod n 128 ltac:(lia)).
    pose proof (Z.mod_pos_bound n 128 ltac:(lia)). lia.
Qed.

(** X1. The encoder has no four-byte limit: every length up to the largest
    integer a JavaScript number holds exactly is encoded, with more than
    four bytes exactly above 268435455, and the decoding loop reads
    every such field back. *)
Theorem remainingLength_unbounded (n : Z) :
  0 <= n <= 9007199254740991 ->
  (forall before after : Buffer,
      decodeRemainingLength (before ++ encodeRemainingLength n ++ after)
        (byteLength before)
      = (n, byteLength before + byteLength (encodeRemainingLength n)))
  /\ ((4 < length (encodeRemainingLength n))%nat <-> 268435455 < n).
Proof.
  intros [Hn _].
  rewrite encodeRemainingLength_loop by lia.
  pose proof (log2_fuel n Hn) as Hfuel.
  set (fuel := Z.to_nat (Z.log2 n)) in *.
  split.
  - intros before after. unfold decodeRemainingLength, byteLength.
    rewrite Nat2Z.id, drop_app_length.
    rewrite decodeLoop_encodeLoop by exact Hfuel. f_equal. lia.
  - split.
    + intros Hlong.
      destruct (Z.ltb_spec 268435455 n) as [|Hsmall]; [assumption|].
      pose proof (encodeLoop_length fuel n 3 Hfuel) as Hlen.
      change (128 ^ Z.of_nat 4) with 268435456 in Hlen. lia.
    + intros Hbig.
      pose proof (encodeLoop_upper fuel n Hfuel) as Hup.
      destruct (Nat.ltb_spec 4 (length (encodeLoop (S fuel) n))) as [|Hshort];
        [assumption|].
      assert (128 ^ Z.of_nat (length (encodeLoop (S fuel) n)) <= 128 ^ 4)
        by (apply Z.pow_le_mono_r; lia).
      change (128 ^ 4) with 268435456 in *. lia.
Qed.

Lemma remainingLength_unbounded_witness :
  0 <= 268435456 <= 9007199254740991
  /\ encodeRemainingLength 268435456 = [128; 128; 128; 128; 1]
  /\ decodeRemainingLength (encodeRemainingLength 268435456) 0 = (268435456, 5).
Proof.
  split; [lia|]. split; [reflexivity|].
  destruct (remainingLength_unbounded 268435456 ltac:(lia)) as (Hdec & _).
  exact (Hdec [] []).
Defined.

(** The remaining-length field of a frame that starts with one header
    byte. *)
Lemma decodeRemainingLength_header (header n : Z) (rest : Buffer) :
  0 <= n ->
  decodeRemainingLength (header :: encodeRemainingLength n ++ rest) 1
  = (n, 1 + byteLength (encodeRemainingLength n)).
Proof.
  intros Hn.
  rewrite encodeRemainingLength_loop by lia.
  pose proof (log2_fuel n Hn) as Hfuel.
  unfold decodeRemainingLength, byteLength.
  change (drop (Z.to_nat 1) (header :: ?l)) with l.
  rewrite decodeLoop_encodeLoop by exact Hfuel. f_equal. lia.
Qed.

Lemma wellFramed_intro (header n : Z) (body : Buffer) :
  byteLength body = n ->
  wellFramed header (header :: encodeRemainingLength n ++ body).
Proof.
  intros Hbody. pose proof (Nat2Z.is_nonneg (length body)) as Hpos.
  unfold byteLength in Hbody.
  exists (encodeRemainingLength n ++ body), n,
    (1 + byteLength (encodeRemainingLength n)).
  split; [reflexivity|]. split.
  - apply decodeRemainingLength_header. lia.
  - unfold byteLength. cbn [length]. rewrite length_app. lia.
Qed.

Lemma land_byte (x : Z) : Z.land x 255 = x mod 256.
Proof. change 255 with (Z.ones 8). now rewrite Z.land_ones. Qed.

(** X2. The PUBACK frame built for a 16-bit packet id is read back by
    [parsePacket] as the acknowledgment of that id. *)
Theorem pubAck_roundtrip (packetId : Z) :
  0 <= packetId <= 65535 ->
  buildPubAckPacket packetId = [64; 2; packetId / 256; packetId mod 256]
  /\ parsePacket (buildPubAckPacket packetId) = Ok (PUBACK packetId).
Proof.
  intros Hid.
  assert (buildPubAckPacket packetId = [64; 2; packetId / 256; packetId mod 256])
    as Hframe.
  { unfold buildPubAckPacket, Buffer_from. cbn [map].
    rewrite !land_byte, Z.shiftr_div_pow2 by lia.
    change (2 ^ 8) with 256.
    assert (0 <= packetId / 256 < 256)
      by (split; [apply Z.div_pos; lia|apply Z.div_lt_upper_bound; lia]).
    rewrite !Z.mod_mod by lia.
    rewrite (Z.mod_small (packetId / 256)) by lia.
    reflexivity. }
  split; [exact Hframe|]. rewrite Hframe.
  assert (forall hi lo : Z, parsePacket [64; 2; hi; lo] = Ok (PUBACK (hi * 2 ^ 8 + lo)))
    as Hparse by reflexivity.
  rewrite Hparse. f_equal. f_equal.
  pose proof (Z.div_mod packetId 256 ltac:(lia)). lia.
Qed.

Lemma pubAck_roundtrip_witness :
  0 <= 7 <= 65535 /\ parsePacket [64; 2; 0; 7] = Ok (PUBACK 7).
Proof.
  split; [lia|].
  exact (proj2 (pubAck_roundtrip 7 ltac:(lia))).
Defined.

(** What [buildPublishPacket] returns when it returns: header byte,
    remaining length, variable header, payload. *)
Lemma buildPublishPacket_shape (message : MQTTMessage) (packetId : option Z)
  (frame : Buffer) :
  buildPublishPacket message packetId = Ok frame ->
  exists variableHeader : Buffer,
    frame =
      (Z.lor (Z.lor 48 (Z.shiftl (qos message) 1))
         (if retain message then 1 else 0)) mod 256
      :: encodeRemainingLength
           (byteLength variableHeader + byteLength (payload message))
         ++ variableHeader ++ payload message.
Proof.
  unfold buildPublishPacket.
  destruct (writeUInt16BE (byteLength (Buffer_from_string (topic message))))
    as [topicLength|e]; cbn [mbind Result_bind]; [|discriminate].
  destruct ((0 <? qos message) && truthyId packetId).
  - destruct (writeUInt16BE (toInt32 packetId)) as [packetIdBuf|e];
      cbn [mbind Result_bind]; [|discriminate].
    intros [= <-].
    exists ((topicLength ++ Buffer_from_string (topic message)) ++ packetIdBuf).
    reflexivity.
  - cbn [mbind Result_bind]. intros [= <-].
    exists (topicLength ++ Buffer_from_string (topic message)).
    reflexivity.
Qed.

Lemma publish_header_byte (q : Z) (r : bool) :
  0 <= q <= 3 ->
  (Z.lor (Z.lor 48 (Z.shiftl q 1)) (if r then 1 else 0)) mod 256
  = 48 + 2 * q + (if r then 1 else 0).
Proof.
  intros Hq.
  assert (q = 0 \/ q = 1 \/ q = 2 \/ q = 3) as [->|[->|[->| ->]]] by lia;
    destruct r; reflexivity.
Qed.

(** X3. Every PUBLISH frame the encoder returns is well framed: its first
    byte is 0x30 plus twice the QoS plus the retain bit, and its
    remaining-length field counts exactly the bytes after it. *)
Theorem publish_frame_wellFramed (message : MQTTMessage) (packetId : option Z)
  (frame : Buffer) :
  buildPublishPacket message packetId = Ok frame ->
  0 <= qos message <= 3 ->
  wellFramed (48 + 2 * qos message + (if retain message then 1 else 0)) frame.
Proof.
  intros Hbuild Hqos.
  destruct (buildPublishPacket_shape message packetId frame Hbuild)
    as [variableHeader ->].
  rewrite publish_header_byte by exact Hqos.
  apply wellFramed_intro. unfold byteLength. rewrite length_app. lia.
Qed.

Lemma publish_frame_wellFramed_witness :
  buildPublishPacket
    {| topic := "/t_ms"; payload := payload_x1; qos := 1; retain := false |}
    (Some 7) = Ok handBuiltFrame
  /\ 0 <= 1 <= 3
  /\ wellFramed 50 handBuiltFrame.
Proof.
  assert (buildPublishPacket
            {| topic := "/t_ms"; payload := payload_x1; qos := 1; retain := false |}
            (Some 7) = Ok handBuiltFrame) as Hbuild by reflexivity.
  assert (0 <= 1 <= 3) as Hqos by lia.
  split; [exact Hbuild|]. split; [exact Hqos|].
  exact (publish_frame_wellFramed _ _ _ Hbuild Hqos).
Defined.

(** X4. A SUBSCRIBE frame: header 0x82, remaining length, packet id, topic
    with its length prefix, requested QoS. A topic longer than 65535
    bytes makes the encoder throw. *)
Theorem subscribe_frame (packetId : Z) (topic : string) (qos : Z) :
  0 <= packetId <= 65535 ->
  let topicBuf := Buffer_from_string topic in
  if byteLength topicBuf <=? 65535
  then
    exists frame : Buffer,
      buildSubscribePacket packetId topic qos = Ok frame
      /\ frame =
           130 :: encodeRemainingLength (5 + byteLength topicBuf)
             ++ [packetId / 256; packetId mod 256;
                 byteLength topicBuf / 256; byteLength topicBuf mod 256]
             ++ topicBuf ++ [qos mod 256]
      /\ wellFramed 130 frame
  else buildSubscribePacket packetId topic qos = Throw RangeError.
Proof.
  intros Hid topicBuf. subst topicBuf.
  pose proof (Nat2Z.is_nonneg (length (Buffer_from_string topic))) as Hlen.
  unfold buildSubscribePacket, byteLength in *.
  destruct (Z.leb_spec (Z.of_nat (length (Buffer_from_string topic))) 65535)
    as [Hfit|Hlong].
  - rewrite (writeUInt16BE_ok (Z.of_nat _)), (writeUInt16BE_ok packetId) by lia.
    cbn [mbind Result_bind].
    match goal with
    | |- context [encodeRemainingLength (Z.of_nat (length ?body))] =>
        assert (Z.of_nat (length body)
                = 5 + Z.of_nat (length (Buffer_from_string topic))) as Hbody
          by (rewrite !length_app; cbn [Buffer_from map length]; lia);
        rewrite Hbody
    end.
    eexists. split; [reflexivity|]. split; [reflexivity|].
    apply (wellFramed_intro 130
             (5 + Z.of_nat (length (Buffer_from_string topic)))).
    unfold byteLength. rewrite !length_app. cbn [Buffer_from map length]. lia.
  - unfold writeUInt16BE.
    destruct (Z.leb_spec (Z.of_nat (length (Buffer_from_string topic))) 65535);
      [lia|].
    rewrite andb_false_r. reflexivity.
Qed.

Lemma subscribe_frame_witness :
  0 <= 1 <= 65535
  /\ exists frame : Buffer,
       buildSubscribePacket 1 "/t_ms" 1 = Ok frame
       /\ frame = 130 :: encodeRemainingLength (5 + 5)
                    ++ [1 / 256; 1 mod 256; 5 / 256; 5 mod 256]
                    ++ Buffer_from_string "/t_ms" ++ [1 mod 256]
       /\ wellFramed 130 frame.
Proof.
  split; [lia|].
  exact (subscribe_frame 1 "/t_ms" 1 ltac:(lia)).
Defined.

(** X5. The CONNECT frame: header 0x10, then a remaining length of 12 plus
    the length of the client id, protocol name [MQTT] at level 4, the
    connect flags with only clean-session set (no user name, password or
    will), a keep-alive of 60 seconds, and the client id with its length
    prefix as the whole payload. *)
Theorem connect_frame (c : MQTTClient) :
  let clientIdBuf := Buffer_from_string (clientId c) in
  byteLength clientIdBuf <= 65535 ->
  exists frame : Buffer,
    buildConnectPacket c = Ok frame
    /\ frame =
         16 :: encodeRemainingLength (12 + byteLength clientIdBuf)
           ++ [0; 4; 77; 81; 84; 84; 4; 2; 0; 60]
           ++ [byteLength clientIdBuf / 256; byteLength clientIdBuf mod 256]
           ++ clientIdBuf
    /\ wellFramed 16 frame
    /\ sent (handleOpen c)
       = match ws c with
         | Some s => sent c ++ [(s, frame)]
         | None => sent c
         end.
Proof.
  intros clientIdBuf Hfit. subst clientIdBuf.
  pose proof (Nat2Z.is_nonneg (length (Buffer_from_string (clientId c)))) as Hlen.
  assert (buildConnectPacket c
          = Ok (16 :: encodeRemainingLength
                        (12 + byteLength (Buffer_from_string (clientId c)))
                  ++ [0; 4; 77; 81; 84; 84; 4; 2; 0; 60]
                  ++ [byteLength (Buffer_from_string (clientId c)) / 256;
                      byteLength (Buffer_from_string (clientId c)) mod 256]
                  ++ Buffer_from_string (clientId c))) as Hbuild.
  { unfold buildConnectPacket, byteLength in *.
    rewrite (writeUInt16BE_ok (Z.of_nat _)) by lia.
    cbn [mbind Result_bind].
    change (Buffer_from [0; 4] ++ Buffer_from_string "MQTT" ++ Buffer_from [4]
            ++ Buffer_from [2]
            ++ Buffer_from [Z.land (Z.shiftr MQTT_DEFAULT_OPTIONS_keepalive 8) 255;
                            Z.land MQTT_DEFAULT_OPTIONS_keepalive 255])
      with [0; 4; 77; 81; 84; 84; 4; 2; 0; 60].
    match goal with
    | |- context [encodeRemainingLength (?a + Z.of_nat (length ?body))] =>
        assert (a + Z.of_nat (length body)
                = 12 + Z.of_nat (length (Buffer_from_string (clientId c))))
          as Hbody by (cbn [length app]; lia);
        rewrite Hbody
    end.
    reflexivity. }
  eexists. split; [exact Hbuild|]. split; [reflexivity|]. split.
  - apply wellFramed_intro. unfold byteLength.
    rewrite !length_app. cbn [length]. lia.
  - unfold handleOpen, sendConnect. rewrite Hbuild. unfold wsSend.
    destruct (ws c); reflexivity.
Qed.

Lemma connect_frame_witness :
  byteLength (Buffer_from_string (clientId (newClient "100" "abc"))) <= 65535
  /\ buildConnectPacket (newClient "100" "abc")
     = Ok [16; 15; 0; 4; 77; 81; 84; 84; 4; 2; 0; 60; 0; 3; 97; 98; 99].
Proof.
  assert (byteLength (Buffer_from_string (clientId (newClient "100" "abc"))) <= 65535)
    as Hfit by (vm_compute; discriminate).
  split; [exact Hfit|].
  destruct (connect_frame (newClient "100" "abc") Hfit) as (frame & Hbuild & Hframe & _).
  rewrite Hbuild, Hframe. reflexivity.
Defined.

Lemma readUInt16BE_at_2 (data : Buffer) :
  (length data < 4)%nat <-> readUInt16BE data 2 = Throw RangeError.
Proof.
  destruct data as [|b0 [|b1 [|b2 [|b3 rest]]]]; cbn; split;
    intros H; try reflexivity; try discriminate; try lia.
Qed.

(** X6. Which frames [parsePacket] cannot read: an acknowledgment (PUBACK or
    SUBACK) shorter than four bytes throws a range error, and
    [handleMessage] then drops the frame and leaves the client as it
    was. Frames of every type other than PUBLISH, PUBACK and SUBACK are
    read without an exception, whatever their length; the empty buffer
    is read as a packet of unknown type. *)
Theorem parsePacket_errors (data : Buffer) :
  let packetType := Z.land (Z.shiftr (toInt32 (byteAt data 0)) 4) 15 in
  (packetType <> 3 -> packetType <> 4 -> packetType <> 9 ->
   exists p, parsePacket data = Ok p)
  /\ (packetType = 4 \/ packetType = 9 ->
      ((length data < 4)%nat <-> parsePacket data = Throw RangeError))
  /\ (packetType = 4 \/ packetType = 9 ->
      (length data < 4)%nat ->
      forall (JSON_parse : string -> Result json) (now : Z) (c : MQTTClient),
        handleMessage JSON_parse now data c = c)
  /\ parsePacket [] = Ok (OtherPacket "UNKNOWN").
Proof.
  intros packetType.
  assert (0 <= packetType < 16) as Hrange.
  { subst packetType. change 15 with (Z.ones 4).
    rewrite Z.land_ones by lia. apply Z.mod_pos_bound. lia. }
  assert (packetType = 4 \/ packetType = 9 ->
          parsePacket data
          = (packetId ← readUInt16BE data 2;
             if packetType =? 4 then Ok (PUBACK packetId)
             else Ok (SUBACK packetId [byteAt data 4]))) as Hack.
  { unfold parsePacket. fold packetType. intros [-> | ->]; reflexivity. }
  split; [|split; [|split]].
  - intros H3 H4 H9. unfold parsePacket. fold packetType.
    assert (packetType = 0 \/ packetType = 1 \/ packetType = 2 \/ packetType = 5
            \/ packetType = 6 \/ packetType = 7 \/ packetType = 8
            \/ packetType = 10 \/ packetType = 11 \/ packetType = 12
            \/ packetType = 13 \/ packetType = 14 \/ packetType = 15) as Hcases
      by lia.
    clearbody packetType.
    repeat (destruct Hcases as [-> | Hcases]; [eexists; reflexivity|]).
    subst. eexists; reflexivity.
  - intros Htype. rewrite (Hack Htype).
    rewrite readUInt16BE_at_2.
    destruct (readUInt16BE data 2) as [packetId|e] eqn:Hread; cbn [mbind Result_bind].
    + split; [discriminate|]. destruct (packetType =? 4); discriminate.
    + split; intros [= ->]; reflexivity.
  - intros Htype Hshort JSON_parse now c. unfold handleMessage.
    rewrite (Hack Htype).
    apply readUInt16BE_at_2 in Hshort. rewrite Hshort. reflexivity.
  - reflexivity.
Qed.

Lemma parsePacket_errors_witness :
  (Z.land (Z.shiftr (toInt32 (byteAt [64; 2; 0] 0)) 4) 15 = 4
   \/ Z.land (Z.shiftr (toInt32 (byteAt [64; 2; 0] 0)) 4) 15 = 9)
  /\ (length [64; 2; 0] < 4)%nat
  /\ parsePacket [64; 2; 0] = Throw RangeError
  /\ handleMessage (fun _ => Throw SyntaxError) 0 [64; 2; 0] connectedClient
     = connectedClient.
Proof.
  assert (Z.land (Z.shiftr (toInt32 (byteAt [64; 2; 0] 0)) 4) 15 = 4
          \/ Z.land (Z.shiftr (toInt32 (byteAt [64; 2; 0] 0)) 4) 15 = 9) as Htype
    by (left; reflexivity).
  assert (length [64; 2; 0] < 4)%nat as Hshort by (cbn; lia).
  destruct (parsePacket_errors [64; 2; 0]) as (_ & Hthrow & Hdrop & _).
  split; [exact Htype|]. split; [exact Hshort|]. split.
  - apply (Hthrow Htype). exact Hshort.
  - exact (Hdrop Htype Hshort _ 0 connectedClient).
Defined.

(** * Further properties of the event parser *)

Section Routing.

Variable JSON_parse : string -> Result json.
Variable now : Z.

(** X7. [parse] yields an event only on one of its six fixed topics or on a
    topic that starts with [/mqtt_c2b_]. Of the twelve topics the client
    subscribes to, the last six (the personal topic and the five
    supplementary ones) therefore never yield an event. *)
Theorem parse_routing (topic : string) (payload : Buffer) :
  (forall e : PanindiganEvent,
      parse JSON_parse now topic payload = Some e ->
      topic ∈ routedTopics \/ startsWith topic "/mqtt_c2b_" = true)
  /\ (forall c : MQTTClient,
        take 6 (requiredTopics c) = routedTopics
        /\ (topic ∈ drop 6 (requiredTopics c) ->
            parse JSON_parse now topic payload = None)).
Proof.
  split.
  - intros e. unfold parse, parseBody, routedTopics.
    destruct (JSON_parse (string_of_bytes payload)) as [parsed|err];
      cbn [mbind Result_bind]; [|discriminate].
    destruct (String.eqb_spec topic "/t_ms") as [->|_]; [left; set_solver|].
    destruct (String.eqb_spec topic "/t_rtc") as [->|_]; [left; set_solver|].
    destruct (String.eqb_spec topic "/t_p") as [->|_]; [left; set_solver|].
    destruct (String.eqb_spec topic "/t_tn") as [->|_]; [left; set_solver|].
    destruct (String.eqb_spec topic "/t_graphql") as [->|_]; [left; set_solver|].
    destruct (String.eqb_spec topic "/t_messaging_events") as [->|_];
      [left; set_solver|].
    destruct (startsWith topic "/mqtt_c2b_"); [right; reflexivity|discriminate].
  - intros c. split; [reflexivity|].
    unfold requiredTopics. cbn [drop]. intros Hin.
    assert (forall t : string,
              t ∈ ["mqtt_c2b_" ++ userId c; "/t_sb"; "/t_admin_text";
                   "/t_presence"; "/t_msg_body"; "/t_delta"]%string ->
              parseBody JSON_parse now t payload
              = (parsed ← JSON_parse (string_of_bytes payload); Ok None)) as Hbody.
    { intros t Ht. unfold parseBody.
      repeat (apply elem_of_cons in Ht; destruct Ht as [-> | Ht]; [reflexivity|]).
      inversion Ht. }
    unfold parse. rewrite (Hbody topic Hin).
    destruct (JSON_parse (string_of_bytes payload)); reflexivity.
Qed.

(** X8. A payload that is not JSON, or that is the JSON value [null], yields
    no event on any topic: the exception is caught inside [parse]. *)
Theorem parse_null_payload (topic : string) (payload : Buffer) :
  (forall err, JSON_parse (string_of_bytes payload) = Throw err ->
               parse JSON_parse now topic payload = None)
  /\ (JSON_parse (string_of_bytes payload) = Ok JNull ->
      parse JSON_parse now topic payload = None).
Proof.
  split.
  - intros err Herr. unfold parse, parseBody. rewrite Herr. reflexivity.
  - intros Hnull. unfold parse, parseBody. rewrite Hnull. cbn [mbind Result_bind].
    repeat match goal with
           | |- context [if ?b then _ else _] => destruct b; try reflexivity
           end.
Qed.

(** X9. On the presence and typing topics every payload other than [null]
    yields an event, also one that has none of the fields: a presence
    whose status is not one of [ACTIVE], [active], [IDLE], [idle] is
    [offline], and a typing notification is on only when
    [typingStatus] is the number 1. *)
Theorem presence_typing_events (payload : Buffer) (parsed : json) :
  JSON_parse (string_of_bytes payload) = Ok parsed ->
  parsed <> JNull ->
  parse JSON_parse now "/t_p" payload
  = Some (PresenceEvent now
            (getPropOpt (Some parsed) "userId")
            (mapPresenceStatus (getPropOpt (Some parsed) "status"))
            (getPropOpt (Some parsed) "lastActive"))
  /\ parse JSON_parse now "/t_tn" payload
     = Some (TypingEvent now
               (getPropOpt (Some parsed) "threadId")
               (getPropOpt (Some parsed) "senderId")
               (match getPropOpt (Some parsed) "typingStatus" with
                | Some (JNum 1) => true
                | _ => false
                end))
  /\ (getPropOpt (Some parsed) "status" = None ->
      mapPresenceStatus (getPropOpt (Some parsed) "status") = offline).
Proof.
  intros Hparsed Hnonnull.
  assert (readable (Some parsed)) as Hr by (destruct parsed; try exact I; congruence).
  unfold parse, parseBody. rewrite Hparsed. cbn [mbind Result_bind].
  change (String.eqb "/t_p" "/t_ms") with false.
  change (String.eqb "/t_p" "/t_rtc") with false.
  change (String.eqb "/t_p" "/t_p") with true.
  change (String.eqb "/t_tn" "/t_ms") with false.
  change (String.eqb "/t_tn" "/t_rtc") with false.
  change (String.eqb "/t_tn" "/t_p") with false.
  change (String.eqb "/t_tn" "/t_tn") with true.
  cbv iota.
  unfold parsePresence, parseTypingNotification.
  rewrite !(getProp_readable _ _ Hr). cbn [mbind Result_bind].
  split; [reflexivity|]. split; [reflexivity|].
  intros ->. reflexivity.
Qed.

End Routing.

Lemma presence_typing_events_witness :
  (fun _ : string => Ok (JObj [])) (string_of_bytes [123; 125]) = Ok (JObj [])
  /\ JObj [] <> JNull
  /\ parse (fun _ => Ok (JObj [])) 1000 "/t_p" [123; 125]
     = Some (PresenceEvent 1000 None offline None)
  /\ parse (fun _ => Ok (JObj [])) 1000 "/t_tn" [123; 125]
     = Some (TypingEvent 1000 None None false).
Proof.
  assert ((fun _ : string => Ok (JObj [])) (string_of_bytes [123; 125]) = Ok (JObj []))
    as Hparsed by reflexivity.
  assert (JObj [] <> JNull) as Hnonnull by discriminate.
  destruct (presence_typing_events (fun _ => Ok (JObj [])) 1000 [123; 125] (JObj [])
              Hparsed Hnonnull) as (Hp & Ht & _).
  split; [exact Hparsed|]. split; [exact Hnonnull|].
  split; [exact Hp|exact Ht].
Defined.

Lemma parse_routing_witness :
  "/t_delta"%string ∈ drop 6 (requiredTopics (newClient "100" "cid"))
  /\ parse (fun _ => Ok groupMessage) 1000 "/t_delta" [] = None.
Proof.
  assert ("/t_delta"%string ∈ drop 6 (requiredTopics (newClient "100" "cid")))
    as Hin by (cbn; set_solver).
  split; [exact Hin|].
  destruct (parse_routing (fun _ => Ok groupMessage) 1000 "/t_delta" [])
    as (_ & Hsub).
  exact (proj2 (Hsub (newClient "100" "cid")) Hin).
Defined.

Lemma parse_null_payload_witness :
  (fun _ : string => Ok JNull) (string_of_bytes [110; 117; 108; 108]) = Ok JNull
  /\ parse (fun _ => Ok JNull) 1000 "/t_p" [110; 117; 108; 108] = None.
Proof.
  assert ((fun _ : string => Ok JNull) (string_of_bytes [110; 117; 108; 108])
          = Ok JNull) as Hnull by reflexivity.
  split; [exact Hnull|].
  exact (proj2 (parse_null_payload (fun _ => Ok JNull) 1000 "/t_p"
                  [110; 117; 108; 108]) Hnull).
Defined.

Section MessageSync.

Variable now : Z.

(** The scan of a [deltas] array stops at the first delta that yields
    an event, or at the first one that throws. *)
Lemma scanDeltas_first (before : list json) (delta : json) (after : list json) :
  Forall (fun d => parseDelta now (Some d) = Ok None) before ->
  scanDeltas now (before ++ delta :: after)
  = match parseDelta now (Some delta) with
    | Ok (Some e) => Ok (Some e)
    | Ok None => scanDeltas now after
    | Throw err => Throw err
    end.
Proof.
  induction 1 as [|d before Hd _ IH]; cbn [app scanDeltas].
  - destruct (parseDelta now (Some delta)) as [[e|]|err]; reflexivity.
  - rewrite Hd. cbn [mbind Result_bind]. exact IH.
Qed.

Lemma scanDeltas_none (deltas : list json) :
  Forall (fun d => parseDelta now (Some d) = Ok None) deltas ->
  scanDeltas now deltas = Ok None.
Proof.
  induction 1 as [|d deltas Hd _ IH]; cbn [scanDeltas]; [reflexivity|].
  rewrite Hd. cbn [mbind Result_bind]. exact IH.
Qed.

(** X10. Precedence in message-sync parsing. When the payload has a [deltas]
    array, the first delta in it that yields an event decides the
    result, whatever comes after it in the array and whatever the
    payload's [delta] and [messageMetadata] members are. A [null] entry
    met before any such delta makes the parser throw, so that no event
    is produced at all. When no delta of the array yields an event the
    single [delta] member is parsed if the payload has one, and
    otherwise the payload itself when it has [messageMetadata]. *)
Theorem parseMessageSync_precedence (members : list (string * json))
  (before : list json) :
  Forall (fun d => parseDelta now (Some d) = Ok None) before ->
  (forall (delta : json) (after : list json) (e : PanindiganEvent),
      lookupMember "deltas" members = Some (JArr (before ++ delta :: after)) ->
      parseDelta now (Some delta) = Ok (Some e) ->
      parseMessageSync now (Some (JObj members)) = Ok (Some e))
  /\ (forall after : list json,
        lookupMember "deltas" members = Some (JArr (before ++ JNull :: after)) ->
        parseMessageSync now (Some (JObj members)) = Throw TypeError)
  /\ (lookupMember "deltas" members = Some (JArr before) ->
      parseMessageSync now (Some (JObj members))
      = if truthy (lookupMember "delta" members)
        then parseDelta now (lookupMember "delta" members)
        else if truthy (lookupMember "messageMetadata" members)
        then parseDirectDelta now (Some (JObj members))
        else Ok None).
Proof.
  intros Hbefore. split; [|split].
  - intros delta after e Hdeltas Hdelta.
    unfold parseMessageSync. cbn [getProp mbind Result_bind].
    rewrite Hdeltas. cbn [truthy isArray andb arrayOrEmpty].
    rewrite (scanDeltas_first before delta after Hbefore), Hdelta.
    reflexivity.
  - intros after Hdeltas.
    unfold parseMessageSync. cbn [getProp mbind Result_bind].
    rewrite Hdeltas. cbn [truthy isArray andb arrayOrEmpty].
    rewrite (scanDeltas_first before JNull after Hbefore).
    reflexivity.
  - intros Hdeltas.
    unfold parseMessageSync. cbn [getProp mbind Result_bind].
    rewrite Hdeltas. cbn [truthy isArray andb arrayOrEmpty].
    rewrite (scanDeltas_none before Hbefore). cbn [mbind Result_bind].
    destruct (truthy (lookupMember "delta" members)); [reflexivity|].
    destruct (truthy (lookupMember "messageMetadata" members)); reflexivity.
Qed.

(** X11. In a message event [isGroup] tells where the thread id came from:
    it is true exactly when the thread key has a [threadFbId], which is
    then the thread id; when it is false the thread id is the thread
    key's [otherUserFbId]. In both cases the thread id is not empty. *)
Theorem message_isGroup (delta : JSValue) (timestamp : Z) (m : Message) :
  parseDelta now delta = Ok (Some (MessageEvent timestamp m)) ->
  let threadKey := getPropOpt (getPropOpt delta "messageMetadata") "threadKey" in
  isGroup m = truthy (getPropOpt threadKey "threadFbId")
  /\ (isGroup m = true -> threadId m = getPropOpt threadKey "threadFbId")
  /\ (isGroup m = false -> threadId m = getPropOpt threadKey "otherUserFbId")
  /\ truthy (threadId m) = true.
Proof.
  intros He threadKey.
  assert (readable delta) as Hdelta.
  { unfold parseDelta in He.
    destruct (getProp delta "messageMetadata") eqn:Hget; [|discriminate].
    eapply readable_of_Ok, Hget. }
  pose proof (parseDelta_attributed now delta _ He) as Hid.
  cbn [eventThreadId] in Hid.
  unfold parseDelta in He.
  rewrite (getProp_readable delta "messageMetadata") in He by exact Hdelta.
  cbn [mbind Result_bind] in He.
  destruct (truthy (getPropOpt delta "messageMetadata")) eqn:Hmeta.
  - unfold deltaThreadKey in Hid. rewrite Hmeta in Hid. fold threadKey in Hid.
    rewrite !(getProp_truthy (getPropOpt delta "messageMetadata")) in He
      by exact Hmeta.
    cbn [mbind Result_bind] in He. fold threadKey in He.
    rewrite extractThreadId_rule in He. cbn [mbind Result_bind] in He.
    rewrite <- Hid in He.
    assert (truthy (threadId m) = true) as Htruthy
      by (apply (threadIdRule_truthy threadKey); symmetry; exact Hid).
    rewrite Htruthy in He. cbn [negb] in He.
    rewrite (getProp_readable delta "body") in He by exact Hdelta.
    destruct (parseAttachments_readable delta Hdelta) as [atts Hatts].
    destruct (parseMentions_readable delta Hdelta) as [ments Hments].
    rewrite Hatts, Hments in He. cbn [mbind Result_bind] in He.
    injection He as _ Hm.
    assert (isGroup m = truthy (getPropOpt threadKey "threadFbId")) as Hgroup
      by (rewrite <- Hm; reflexivity).
    split; [exact Hgroup|].
    unfold threadIdRule in Hid.
    destruct (truthy (getPropOpt threadKey "threadFbId")).
    + split; [intros _; congruence|]. split; [congruence|exact Htruthy].
    + destruct (truthy (getPropOpt threadKey "otherUserFbId")); [|discriminate].
      split; [congruence|]. split; [intros _; congruence|exact Htruthy].
  - rewrite (getProp_readable delta "reaction") in He by exact Hdelta.
    cbn [mbind Result_bind] in He.
    destruct (truthy (getPropOpt delta "reaction")); [|discriminate].
    rewrite (getProp_readable delta "threadKey") in He by exact Hdelta.
    cbn [mbind Result_bind] in He.
    rewrite extractThreadId_rule in He. cbn [mbind Result_bind] in He.
    destruct (negb _); [discriminate|].
    destruct (getProp (getPropOpt delta "reaction") "messageId");
      cbn [mbind Result_bind] in He; [|discriminate].
    rewrite (getProp_readable delta "actorFbId") in He by exact Hdelta.
    cbn [mbind Result_bind] in He.
    destruct (getProp (getPropOpt delta "reaction") "reaction");
      cbn [mbind Result_bind] in He; discriminate.
Qed.

End MessageSync.

Lemma parseMessageSync_precedence_witness :
  Forall (fun d => parseDelta 1000 (Some d) = Ok None) [JObj []; JNum 5]
  /\ (exists m,
        parseMessageSync 1000
          (Some (JObj [("deltas",
                        JArr [JObj []; JNum 5;
                              JObj [("messageMetadata",
                                     JObj [("threadKey",
                                            JObj [("otherUserFbId", JStr "42")])])];
                              JNull]);
                       ("delta", JNull)]))
        = Ok (Some (MessageEvent 1000 m))
        /\ threadId m = Some (JStr "42")).
Proof.
  assert (Forall (fun d => parseDelta 1000 (Some d) = Ok None) [JObj []; JNum 5])
    as Hbefore by (repeat constructor).
  split; [exact Hbefore|].
  eexists. split.
  - apply (proj1 (parseMessageSync_precedence 1000 _ [JObj []; JNum 5] Hbefore)
             (JObj [("messageMetadata",
                     JObj [("threadKey", JObj [("otherUserFbId", JStr "42")])])])
             [JNull]); reflexivity.
  - reflexivity.
Defined.

Lemma message_isGroup_witness :
  exists m,
    parseDelta 1000 (getPropOpt (Some groupMessage) "delta")
    = Ok (Some (MessageEvent 1000 m))
    /\ isGroup m = true
    /\ threadId m = Some (JStr "123").
Proof.
  assert (exists m,
            parseDelta 1000 (getPropOpt (Some groupMessage) "delta")
            = Ok (Some (MessageEvent 1000 m))) as [m Hm]
    by (eexists; reflexivity).
  exists m. split; [exact Hm|].
  destruct (message_isGroup 1000 _ 1000 m Hm) as (Hgroup & Hid & _ & _).
  assert (isGroup m = true) as Htrue by (rewrite Hgroup; reflexivity).
  split; [exact Htrue|]. rewrite (Hid Htrue). reflexivity.
Defined.

(** * Further properties of the connection manager *)

(** X12. [connect()] is idempotent: while the client is connected or a
    connection attempt is in progress a call changes nothing, so a
    second call right after a first opens no second socket. *)
Theorem connect_idempotent (c : MQTTClient) :
  connect (connect c) = connect c
  /\ (connected c = true \/ connecting c = true -> connect c = c)
  /\ (sockets (connect (connect c)) <= S (sockets c))%nat.
Proof.
  open_client c. unfold connect. cbn.
  destruct con, cing; cbn; repeat split; try reflexivity; try lia;
    intros [H|H]; try discriminate; reflexivity.
Qed.

Lemma connect_idempotent_witness :
  (connected connectedClient = true \/ connecting connectedClient = true)
  /\ connect connectedClient = connectedClient.
Proof.
  assert (connected connectedClient = true \/ connecting connectedClient = true)
    as H by (left; reflexivity).
  split; [exact H|].
  exact (proj1 (proj2 (connect_idempotent connectedClient)) H).
Defined.

(** X13. The packet-id counter is cyclic with period 65536: after [k]
    allocations it stands at the old value plus [k] modulo 65536, so the
    ids of fewer than 65536 allocations in a row are pairwise different,
    and the 65536th returns to the start. Every id is in 0..65535, 0
    included. *)
Theorem packetId_cycle (c : MQTTClient) (k : nat) :
  0 <= lastPacketId c < 65536 ->
  lastPacketId (allocate k c) = (lastPacketId c + Z.of_nat k) mod 65536
  /\ 0 <= lastPacketId (allocate k c) < 65536
  /\ (0 < Z.of_nat k < 65536 -> lastPacketId (allocate k c) <> lastPacketId c)
  /\ (Z.of_nat k = 65536 -> lastPacketId (allocate k c) = lastPacketId c).
Proof.
  intros Hrange.
  assert (lastPacketId (allocate k c) = (lastPacketId c + Z.of_nat k) mod 65536)
    as Hk.
  { induction k as [|k IH].
    - cbn. rewrite Z.add_0_r, Z.mod_small by lia. reflexivity.
    - change (allocate (S k) c) with (snd (getNextPacketId (allocate k c))).
      change (lastPacketId (snd (getNextPacketId (allocate k c))))
        with ((lastPacketId (allocate k c) + 1) mod 65536).
      rewrite IH, Zplus_mod_idemp_l. f_equal. lia. }
  split; [exact Hk|]. rewrite Hk.
  split; [apply Z.mod_pos_bound; lia|]. split.
  - intros Hsmall Heq.
    assert ((lastPacketId c + Z.of_nat k) mod 65536
            = if lastPacketId c + Z.of_nat k <? 65536
              then lastPacketId c + Z.of_nat k
              else lastPacketId c + Z.of_nat k - 65536) as Hmod.
    { destruct (Z.ltb_spec (lastPacketId c + Z.of_nat k) 65536).
      - apply Z.mod_small. lia.
      - symmetry. apply (Z.mod_unique_pos _ _ 1); lia. }
    rewrite Hmod in Heq.
    destruct (lastPacketId c + Z.of_nat k <? 65536); lia.
  - intros Hfull. rewrite Hfull. symmetry. apply (Z.mod_unique_pos _ _ 1); lia.
Qed.

Lemma packetId_cycle_witness :
  0 <= lastPacketId connectedClient < 65536
  /\ lastPacketId (allocate 3 connectedClient) = 15.
Proof.
  assert (0 <= lastPacketId connectedClient < 65536) as H
    by (vm_compute; split; [discriminate|reflexivity]).
  split; [exact H|].
  rewrite (proj1 (packetId_cycle connectedClient 3 H)). reflexivity.
Defined.

(** X14. The reconnection delay grows linearly with the attempt number and
    is capped at 30 seconds: a close with attempts left and no timer
    armed counts one more attempt and arms the timer with the base
    delay times the new attempt number, at most 30000 ms. A close while
    a timer is already armed counts nothing and leaves the timer as it
    is. *)
Theorem reconnect_backoff (c : MQTTClient) (code : Z) (reason : string) :
  reconnectAttempts c < maxReconnectAttempts c ->
  let c' := handleClose code reason c in
  (reconnectTimer c = None ->
   reconnectAttempts c' = reconnectAttempts c + 1
   /\ reconnectTimer c'
      = Some (Z.min (reconnectDelay c * (reconnectAttempts c + 1)) 30000))
  /\ (forall armed : Z,
        reconnectTimer c = Some armed ->
        reconnectAttempts c' = reconnectAttempts c
        /\ reconnectTimer c' = Some armed).
Proof.
  intros Hleft. open_client c. cbn in Hleft. apply Z.ltb_lt in Hleft.
  unfold handleClose, scheduleReconnect, emit.
  cbn -[Z.ltb Z.min Z.mul Z.add]. rewrite Hleft.
  split.
  - intros ->. cbn -[Z.ltb Z.min Z.mul Z.add]. split; reflexivity.
  - intros armed ->. cbn -[Z.ltb Z.min Z.mul Z.add]. split; reflexivity.
Qed.

Lemma reconnect_backoff_witness :
  let c := Nat.iter 6 failedAttempt (connect (newClient "100" "cid")) in
  reconnectAttempts c < maxReconnectAttempts c
  /\ reconnectTimer c = None
  /\ reconnectTimer (handleClose 1006 "" c) = Some 30000.
Proof.
  intros c.
  assert (reconnectAttempts c < maxReconnectAttempts c) as Hleft
    by (vm_compute; reflexivity).
  assert (reconnectTimer c = None) as Htimer by (vm_compute; reflexivity).
  split; [exact Hleft|]. split; [exact Htimer|].
  destruct (proj1 (reconnect_backoff c 1006 "" Hleft) Htimer) as (_ & Hdelay).
  rewrite Hdelay. vm_compute. reflexivity.
Defined.

(** One failed automatic attempt (the socket closes, then the reconnect
    timer fires) on a client with no timer armed. *)
Lemma failedAttempt_step (c : MQTTClient) :
  reconnectTimer c = None ->
  let c' := failedAttempt c in
  reconnectTimer c' = None
  /\ maxReconnectAttempts c' = maxReconnectAttempts c
  /\ (if reconnectAttempts c <? maxReconnectAttempts c
      then reconnectAttempts c' = reconnectAttempts c + 1
           /\ sockets c' = S (sockets c)
      else reconnectAttempts c' = reconnectAttempts c
           /\ sockets c' = sockets c).
Proof.
  intros Htimer. open_client c. cbn in Htimer. subst rtimer.
  unfold failedAttempt, handleClose, scheduleReconnect, reconnectTimerFires,
    connect, emit.
  cbn -[Z.ltb Z.min Z.mul Z.add].
  destruct (att <? maxatt); cbn -[Z.ltb Z.min Z.mul Z.add];
    repeat split; reflexivity.
Qed.

(** X15. The retry budget: however many automatic attempts fail in a row,
    the attempt counter stops at the maximum, and the number of sockets
    opened by the reconnect timer is the number of attempts counted, at
    most the attempts that were left. *)
Theorem automatic_attempts_bounded (c : MQTTClient) (k : nat) :
  reconnectTimer c = None ->
  reconnectAttempts c <= maxReconnectAttempts c ->
  let c' := Nat.iter k failedAttempt c in
  reconnectAttempts c'
  = Z.min (reconnectAttempts c + Z.of_nat k) (maxReconnectAttempts c)
  /\ Z.of_nat (sockets c')
     = Z.of_nat (sockets c) + (reconnectAttempts c' - reconnectAttempts c)
  /\ reconnectTimer c' = None.
Proof.
  intros Htimer Hmax. cbn zeta.
  assert (reconnectAttempts (Nat.iter k failedAttempt c)
          = Z.min (reconnectAttempts c + Z.of_nat k) (maxReconnectAttempts c)
          /\ Z.of_nat (sockets (Nat.iter k failedAttempt c))
             = Z.of_nat (sockets c)
               + (reconnectAttempts (Nat.iter k failedAttempt c)
                  - reconnectAttempts c)
          /\ reconnectTimer (Nat.iter k failedAttempt c) = None
          /\ maxReconnectAttempts (Nat.iter k failedAttempt c)
             = maxReconnectAttempts c) as H.
  { induction k as [|k IH].
    - change (Nat.iter 0 failedAttempt c) with c.
      split; [lia|]. split; [lia|]. split; [exact Htimer|reflexivity].
    - destruct IH as (Hatt & Hsock & Ht & Hm).
      change (Nat.iter (S k) failedAttempt c)
        with (failedAttempt (Nat.iter k failedAttempt c)).
      set (ck := Nat.iter k failedAttempt c) in *.
      pose proof (failedAttempt_step ck Ht) as Hstep. cbn zeta in Hstep.
      destruct Hstep as (Ht' & Hm' & Hcase).
      rewrite Hm in *.
      destruct (Z.ltb_spec (reconnectAttempts ck) (maxReconnectAttempts c));
        destruct Hcase as (Hatt' & Hsock'); rewrite Hatt', Hsock';
        repeat split; try assumption; lia. }
  destruct H as (Hatt & Hsock & Ht & _). repeat split; assumption.
Qed.

Lemma automatic_attempts_bounded_witness :
  let c := connect (newClient "100" "cid") in
  reconnectTimer c = None
  /\ reconnectAttempts c <= maxReconnectAttempts c
  /\ reconnectAttempts (Nat.iter 25 failedAttempt c) = 10
  /\ sockets (Nat.iter 25 failedAttempt c) = 11%nat.
Proof.
  intros c.
  assert (reconnectTimer c = None) as Htimer by reflexivity.
  assert (reconnectAttempts c <= maxReconnectAttempts c) as Hmax
    by (vm_compute; discriminate).
  destruct (automatic_attempts_bounded c 25 Htimer Hmax) as (Hatt & _ & _).
  split; [exact Htimer|]. split; [exact Hmax|]. split.
  - rewrite Hatt. reflexivity.
  - vm_compute. reflexivity.
Defined.

(** ** Invariants *)

(** *** Steps that leave the bookkeeping alone *)

Lemma emit_frame (e : Emitted) (c : MQTTClient) :
  ackFields (emit e c) = ackFields c /\ budgetFields (emit e c) = budgetFields c.
Proof.
  open_client c. unfold emit.
  destruct e; try (split; reflexivity); destruct aw; split; reflexivity.
Qed.

Lemma wsSend_frame (packet : Buffer) (c : MQTTClient) :
  ackFields (wsSend packet c) = ackFields c
  /\ budgetFields (wsSend packet c) = budgetFields c.
Proof. open_client c. unfold wsSend. destruct sock; split; reflexivity. Qed.

Lemma connect_frame_fields (c : MQTTClient) :
  ackFields (connect c) = ackFields c /\ budgetFields (connect c) = budgetFields c.
Proof. open_client c. unfold connect. destruct con, cing; split; reflexivity. Qed.

Lemma connectTimeout_frame (c : MQTTClient) :
  ackFields (connectTimeout c) = ackFields c
  /\ budgetFields (connectTimeout c) = budgetFields c.
Proof. open_client c. unfold connectTimeout. destruct aw; split; reflexivity. Qed.

Lemma handleOpen_frame (c : MQTTClient) :
  ackFields (handleOpen c) = ackFields c
  /\ budgetFields (handleOpen c) = budgetFields c.
Proof.
  unfold handleOpen, sendConnect.
  destruct (buildConnectPacket c); [apply wsSend_frame|apply emit_frame].
Qed.

Lemma keepAliveFires_frame (c : MQTTClient) :
  ackFields (keepAliveFires c) = ackFields c
  /\ budgetFields (keepAliveFires c) = budgetFields c.
Proof.
  unfold keepAliveFires, sendPing.
  destruct (keepAliveTimer c); [|split; reflexivity].
  destruct (connected c); [apply wsSend_frame|split; reflexivity].
Qed.

Lemma subscribe_frame_fields (topic : string) (qos : Z) (c : MQTTClient) :
  ackFields (snd (subscribe topic qos c)) = ackFields c
  /\ budgetFields (snd (subscribe topic qos c)) = budgetFields c.
Proof.
  open_client c. unfold subscribe, getNextPacketId, wsSend.
  cbn -[buildSubscribePacket].
  destruct (negb con || negb (isSome sock)); [split; reflexivity|].
  cbn -[buildSubscribePacket].
  destruct (buildSubscribePacket _ _ _); [|split; reflexivity].
  destruct sock; split; reflexivity.
Qed.

Lemma subscribeEach_frame (topics : list string) :
  forall c : MQTTClient,
    ackFields (subscribeEach topics c) = ackFields c
    /\ budgetFields (subscribeEach topics c) = budgetFields c.
Proof.
  induction topics as [|topic topics IH]; intros c; cbn [subscribeEach];
    [split; reflexivity|].
  pose proof (subscribe_frame_fields topic 1 c) as (Ha & Hb).
  destruct (subscribe topic 1 c) as [r c1]. cbn [snd] in *.
  destruct (IH c1) as (Ha' & Hb'). split; congruence.
Qed.

Lemma parseAndEmitEvent_frame (JSON_parse : string -> Result json) (now : Z)
  (topic : string) (payload : Buffer) (c : MQTTClient) :
  ackFields (parseAndEmitEvent JSON_parse now topic payload c) = ackFields c
  /\ budgetFields (parseAndEmitEvent JSON_parse now topic payload c)
     = budgetFields c.
Proof.
  unfold parseAndEmitEvent.
  pose proof (emit_frame (Emit_raw topic payload) c) as (Ha & Hb).
  destruct (parse JSON_parse now topic payload) as [event|]; [|split; assumption].
  pose proof (emit_frame (Emit_typed (eventType event) event)
                (emit (Emit_raw topic payload) c)) as (Ha1 & Hb1).
  pose proof (emit_frame (Emit_event event)
                (emit (Emit_typed (eventType event) event)
                   (emit (Emit_raw topic payload) c))) as (Ha2 & Hb2).
  split; congruence.
Qed.

Lemma handlePublish_frame (JSON_parse : string -> Result json) (now : Z)
  (topic : string) (payload : Buffer) (qos : Z) (packetId : option Z)
  (c : MQTTClient) :
  ackFields (handlePublish JSON_parse now topic payload qos packetId c)
  = ackFields c
  /\ budgetFields (handlePublish JSON_parse now topic payload qos packetId c)
     = budgetFields c.
Proof.
  unfold handlePublish, sendPubAck.
  set (c1 := if (0 <? qos) && truthyId packetId then _ else c).
  assert (ackFields c1 = ackFields c /\ budgetFields c1 = budgetFields c)
    as (Ha1 & Hb1).
  { subst c1. destruct ((0 <? qos) && truthyId packetId);
      [apply wsSend_frame|split; reflexivity]. }
  pose proof (emit_frame (Emit_message topic payload) c1) as (Ha2 & Hb2).
  pose proof (parseAndEmitEvent_frame JSON_parse now topic payload
                (emit (Emit_message topic payload) c1)) as (Ha3 & Hb3).
  split; congruence.
Qed.

Lemma sendPublish_budget (message : MQTTMessage) (c : MQTTClient) :
  budgetFields (snd (sendPublish message c)) = budgetFields c.
Proof.
  open_client c. unfold sendPublish, getNextPacketId, wsSend.
  destruct (0 <? qos message); cbn -[buildPublishPacket];
    (destruct (buildPublishPacket _ _); cbn; [|reflexivity]);
    destruct sock; cbn; try destruct (negb _); reflexivity.
Qed.

Lemma flushLoop_budget (pending : list MQTTMessage) :
  forall c : MQTTClient, budgetFields (snd (flushLoop pending c)) = budgetFields c.
Proof.
  induction pending as [|message pending IH]; intros c; cbn [flushLoop];
    [reflexivity|].
  destruct (connected c); [|reflexivity].
  pose proof (sendPublish_budget message (set_messageQueue pending c)) as Hb.
  destruct (sendPublish message (set_messageQueue pending c)) as [[r|e] c1];
    cbn [snd] in *.
  - rewrite IH, Hb. open_client c. reflexivity.
  - rewrite Hb. open_client c. reflexivity.
Qed.

Lemma publish_budget (topic : string) (payload : Buffer + string) (qos : Z)
  (retain : bool) (c : MQTTClient) :
  budgetFields (snd (publish topic payload qos retain c)) = budgetFields c.
Proof.
  unfold publish.
  destruct (negb (connected c) || negb (isSome (ws c)));
    [open_client c; reflexivity|].
  match goal with
  | |- context [sendPublish ?m c] =>
      pose proof (sendPublish_budget m c) as Hb;
      destruct (sendPublish m c) as [[r|e] c1]
  end; exact Hb.
Qed.

Lemma handlePubAck_budget (packetId : Z) (c : MQTTClient) :
  budgetFields (handlePubAck packetId c) = budgetFields c.
Proof.
  unfold handlePubAck. destruct (pendingAcks c !! packetId); [|reflexivity].
  open_client c. reflexivity.
Qed.

Lemma publishTimeout_budget (p : nat) (c : MQTTClient) :
  budgetFields (publishTimeout p c) = budgetFields c.
Proof.
  unfold publishTimeout. destruct (ackTimers c !! p); [|reflexivity].
  open_client c. reflexivity.
Qed.

Lemma disconnect_acks (c : MQTTClient) : ackFields (disconnect c) = ackFields c.
Proof.
  open_client c.
  destruct rtimer, katimer, sock;
    unfold disconnect, stopReconnect, stopKeepAlive, sendDisconnect, wsSend, emit;
    reflexivity.
Qed.

Lemma handleClose_acks (code : Z) (reason : string) (c : MQTTClient) :
  ackFields (handleClose code reason c) = ackFields c.
Proof.
  open_client c. unfold handleClose, scheduleReconnect, emit.
  cbn -[Z.ltb Z.min Z.mul Z.add].
  destruct (att <? maxatt); [|reflexivity].
  destruct rtimer; reflexivity.
Qed.

Lemma reconnectTimerFires_acks (c : MQTTClient) :
  ackFields (reconnectTimerFires c) = ackFields c.
Proof.
  unfold reconnectTimerFires. destruct (reconnectTimer c); [|reflexivity].
  rewrite (proj1 (connect_frame_fields _)). open_client c. reflexivity.
Qed.

(** *** The acknowledgment bookkeeping *)

Lemma acksConsistent_fields (c c' : MQTTClient) :
  ackFields c' = ackFields c -> acksConsistent c -> acksConsistent c'.
Proof. unfold acksConsistent, ackFields. intros [= -> -> ->]. trivial. Qed.

Lemma acksOk_register (acks : gmap Z nat) (timers : gmap nat Z)
  (proms : list PromiseState) (id : Z) :
  acksOk acks timers proms ->
  acksOk (<[id := length proms]> acks) (<[length proms := id]> timers)
    (proms ++ [Pending]).
Proof.
  intros (H1 & H2 & H3).
  assert (Hfresh : forall (p : nat) (id' : Z),
             timers !! p = Some id' -> p <> length proms).
  { intros p id' Ht ->. apply H2 in Ht. apply lookup_lt_Some in Ht. lia. }
  repeat split.
  - intros id' p [[-> <-]|[Hne Ha]]%lookup_insert_Some.
    + apply lookup_insert_Some. left. split; reflexivity.
    + apply lookup_insert_Some. right. split; [|apply H1, Ha].
      intros Heq. apply (Hfresh p id'); [apply H1, Ha|congruence].
  - intros p id' [[<- <-]|[Hne Ht]]%lookup_insert_Some.
    + rewrite lookup_app_r by lia. rewrite Nat.sub_diag. reflexivity.
    + rewrite lookup_app_l; [apply (H2 p id'), Ht|].
      apply H2 in Ht. apply lookup_lt_Some in Ht. exact Ht.
  - intros p Hp. destruct (decide (p = length proms)) as [->|Hne].
    + exists id. apply lookup_insert_Some. left. split; reflexivity.
    + assert (Hlt : (p < length proms)%nat).
      { apply lookup_lt_Some in Hp. rewrite length_app in Hp.
        cbn [length] in Hp. lia. }
      rewrite lookup_app_l in Hp by exact Hlt.
      destruct (H3 p Hp) as [id' Ht]. exists id'.
      apply lookup_insert_Some. right. split; [congruence|exact Ht].
Qed.

Lemma settle_same (p : nat) (s : PromiseState) (ps : list PromiseState) :
  ps !! p = Some Pending -> settle p s ps !! p = Some s.
Proof.
  intros Hp. unfold settle. rewrite Hp.
  apply list_lookup_insert_eq. apply lookup_lt_Some in Hp. exact Hp.
Qed.

Lemma settle_other (p q : nat) (s : PromiseState) (ps : list PromiseState) :
  p <> q -> settle p s ps !! q = ps !! q.
Proof.
  intros Hne. unfold settle. destruct (ps !! p) as [[| |]|]; try reflexivity.
  apply list_lookup_insert_ne. exact Hne.
Qed.

Lemma acksOk_settle (acks : gmap Z nat) (timers : gmap nat Z)
  (proms : list PromiseState) (id : Z) (p : nat) (s : PromiseState) :
  s <> Pending ->
  timers !! p = Some id ->
  acksOk acks timers proms ->
  acksOk (delete id acks) (delete p timers) (settle p s proms).
Proof.
  intros Hs Ht (H1 & H2 & H3). repeat split.
  - intros id' p' [Hne Ha]%lookup_delete_Some.
    apply lookup_delete_Some. split; [|apply H1, Ha].
    intros <-. apply H1 in Ha. congruence.
  - intros p' id' [Hne Ht']%lookup_delete_Some.
    rewrite settle_other by exact Hne. apply (H2 p' id'), Ht'.
  - intros p' Hp'. destruct (decide (p = p')) as [<-|Hne].
    + rewrite settle_same in Hp' by (apply (H2 p id), Ht). congruence.
    + rewrite settle_other in Hp' by exact Hne.
      destruct (H3 p' Hp') as [id' Ht']. exists id'.
      apply lookup_delete_Some. split; assumption.
Qed.

Lemma sendPublish_acks (message : MQTTMessage) (c : MQTTClient) :
  ackFields (snd (sendPublish message c)) = ackFields c
  \/ exists id : Z,
      ackFields (snd (sendPublish message c))
      = (<[id := length (promises c)]> (pendingAcks c),
         <[length (promises c) := id]> (ackTimers c),
         promises c ++ [Pending]).
Proof.
  open_client c. unfold sendPublish, getNextPacketId, wsSend.
  destruct (0 <? qos message); cbn -[buildPublishPacket];
    (destruct (buildPublishPacket _ _); cbn; [|left; reflexivity]).
  - destruct (negb _); destruct sock; cbn;
      first [left; reflexivity | right; eexists; reflexivity].
  - destruct sock; left; reflexivity.
Qed.

Lemma sendPublish_consistent (message : MQTTMessage) (c : MQTTClient) :
  acksConsistent c -> acksConsistent (snd (sendPublish message c)).
Proof.
  intros Hc. destruct (sendPublish_acks message c) as [Heq|[id Heq]].
  - exact (acksConsistent_fields _ _ Heq Hc).
  - unfold acksConsistent, ackFields in *. injection Heq as -> -> ->.
    apply acksOk_register, Hc.
Qed.

Lemma flushLoop_consistent (pending : list MQTTMessage) :
  forall c : MQTTClient,
    acksConsistent c -> acksConsistent (snd (flushLoop pending c)).
Proof.
  induction pending as [|message pending IH]; intros c Hc; cbn [flushLoop];
    [exact Hc|].
  destruct (connected c); [|exact Hc].
  assert (Hq : acksConsistent (set_messageQueue pending c))
    by (open_client c; exact Hc).
  pose proof (sendPublish_consistent message _ Hq) as Hs.
  destruct (sendPublish message (set_messageQueue pending c)) as [[r|e] c1];
    cbn [snd] in *; [apply IH, Hs|exact Hs].
Qed.

Lemma publish_consistent (topic : string) (payload : Buffer + string) (qos : Z)
  (retain : bool) (c : MQTTClient) :
  acksConsistent c -> acksConsistent (snd (publish topic payload qos retain c)).
Proof.
  intros Hc. unfold publish.
  destruct (negb (connected c) || negb (isSome (ws c)));
    [open_client c; exact Hc|].
  match goal with
  | |- context [sendPublish ?m c] =>
      pose proof (sendPublish_consistent m c Hc) as Hs;
      destruct (sendPublish m c) as [[r|e] c1]
  end; exact Hs.
Qed.

Lemma handleConnAck_consistent (returnCode : option Z) (c : MQTTClient) :
  acksConsistent c -> acksConsistent (snd (handleConnAck returnCode c)).
Proof.
  intros Hc.
  assert (Hrefused :
    acksConsistent
      (emit (Emit_error (Error (refusalReason returnCode)))
         (set_connecting false c))).
  { apply (acksConsistent_fields c); [|exact Hc].
    rewrite (proj1 (emit_frame _ _)). open_client c. reflexivity. }
  unfold handleConnAck.
  destruct returnCode as [[| [| |] |]|]; try exact Hrefused.
  unfold processMessageQueue, subscribeToTopics.
  match goal with
  | |- context [flushLoop ?q ?c1] =>
      assert (Hs : acksConsistent c1);
      [|pose proof (flushLoop_consistent q c1 Hs) as Hf;
        destruct (flushLoop q c1) as [[r|e] c2]; cbn [snd] in *]
  end.
  - apply (acksConsistent_fields c); [|exact Hc].
    rewrite (proj1 (subscribeEach_frame _ _)). open_client c. reflexivity.
  - apply (acksConsistent_fields c2); [apply emit_frame|exact Hf].
  - exact Hf.
Qed.

Lemma handlePubAck_consistent (packetId : Z) (c : MQTTClient) :
  acksConsistent c -> acksConsistent (handlePubAck packetId c).
Proof.
  intros Hc. unfold handlePubAck.
  destruct (pendingAcks c !! packetId) as [p|] eqn:Ha; [|exact Hc].
  open_client c. unfold acksConsistent in *. cbn in *.
  apply acksOk_settle; [discriminate| |exact Hc].
  destruct Hc as (H1 & _). apply H1, Ha.
Qed.

Lemma publishTimeout_consistent (p : nat) (c : MQTTClient) :
  acksConsistent c -> acksConsistent (publishTimeout p c).
Proof.
  intros Hc. unfold publishTimeout.
  destruct (ackTimers c !! p) as [packetId|] eqn:Ht; [|exact Hc].
  open_client c. unfold acksConsistent in *. cbn in *.
  apply acksOk_settle; [discriminate|exact Ht|exact Hc].
Qed.

Lemma step_consistent (JSON_parse : string -> Result json) (i : Input)
  (c : MQTTClient) :
  acksConsistent c -> acksConsistent (step JSON_parse c i).
Proof.
  intros Hc.
  destruct i as [| |name data level flag|name level| |data now|code reason
                |error| | | |p|]; cbn [step].
  - exact (acksConsistent_fields _ _ (proj1 (connect_frame_fields c)) Hc).
  - exact (acksConsistent_fields _ _ (disconnect_acks c) Hc).
  - apply publish_consistent, Hc.
  - exact (acksConsistent_fields _ _
             (proj1 (subscribe_frame_fields name level c)) Hc).
  - exact (acksConsistent_fields _ _ (proj1 (handleOpen_frame c)) Hc).
  - unfold handleMessage. destruct (parsePacket data) as [[| | | |]|]; try exact Hc.
    + apply handleConnAck_consistent, Hc.
    + refine (acksConsistent_fields _ _ (proj1 (handlePublish_frame _ _ _ _ _ _ _)) Hc).
    + apply handlePubAck_consistent, Hc.
  - exact (acksConsistent_fields _ _ (handleClose_acks code reason c) Hc).
  - exact (acksConsistent_fields _ _ (proj1 (emit_frame _ c)) Hc).
  - exact (acksConsistent_fields _ _ (reconnectTimerFires_acks c) Hc).
  - exact (acksConsistent_fields _ _ (proj1 (keepAliveFires_frame c)) Hc).
  - exact (acksConsistent_fields _ _ (proj1 (connectTimeout_frame c)) Hc).
  - apply publishTimeout_consistent, Hc.
  - open_client c. exact Hc.
Qed.

Lemma run_consistent (JSON_parse : string -> Result json) (inputs : list Input) :
  forall c : MQTTClient,
    acksConsistent c -> acksConsistent (run JSON_parse c inputs).
Proof.
  unfold run. induction inputs as [|i inputs IH]; intros c Hc; cbn [fold_left];
    [exact Hc|].
  apply IH, step_consistent, Hc.
Qed.

Lemma newClient_consistent (userId clientId : string) :
  acksConsistent (newClient userId clientId).
Proof.
  unfold acksConsistent, acksOk. cbn. repeat split.
  - intros id p H. rewrite lookup_empty in H. discriminate.
  - intros p id H. rewrite lookup_empty in H. discriminate.
  - intros p H. destruct p; discriminate.
Qed.

(** *** The reconnection bookkeeping *)

Lemma budgetKept_fields (c c' : MQTTClient) :
  budgetFields c' = budgetFields c -> budgetKept c -> budgetKept c'.
Proof. unfold budgetKept, budgetFields. intros [= -> -> -> ->]. trivial. Qed.

Lemma budgetKept_intro (c : MQTTClient) (attempts : Z) (timer : option Z) :
  budgetFields c = (attempts, 10, 5000, timer) ->
  0 <= attempts <= 10 ->
  (forall delay : Z, timer = Some delay -> 5000 <= delay <= 30000) ->
  budgetKept c.
Proof.
  unfold budgetKept, budgetFields. intros [= -> -> -> ->] Hr Ht.
  repeat split; try lia; apply Ht; assumption.
Qed.

Lemma budgetKept_fields_eq (c : MQTTClient) :
  budgetKept c ->
  budgetFields c = (reconnectAttempts c, 10, 5000, reconnectTimer c).
Proof. unfold budgetKept, budgetFields. intros (_ & -> & -> & _). reflexivity. Qed.

Lemma disconnect_budget (c : MQTTClient) :
  budgetFields (disconnect c)
  = (reconnectAttempts c, maxReconnectAttempts c, reconnectDelay c, None).
Proof.
  open_client c.
  destruct rtimer, katimer, sock;
    unfold disconnect, stopReconnect, stopKeepAlive, sendDisconnect, wsSend, emit;
    reflexivity.
Qed.

Lemma handleClose_budget (code : Z) (reason : string) (c : MQTTClient) :
  budgetFields (handleClose code reason c) = budgetFields c
  \/ (reconnectAttempts c < maxReconnectAttempts c
      /\ budgetFields (handleClose code reason c)
         = (reconnectAttempts c + 1, maxReconnectAttempts c, reconnectDelay c,
            Some (Z.min (reconnectDelay c * (reconnectAttempts c + 1)) 30000))).
Proof.
  open_client c. unfold handleClose, scheduleReconnect, emit.
  cbn -[Z.ltb Z.min Z.mul Z.add].
  destruct (Z.ltb_spec att maxatt); [|left; reflexivity].
  destruct rtimer; [left; reflexivity|right; split; [assumption|reflexivity]].
Qed.

Lemma reconnectTimerFires_budget (c : MQTTClient) :
  budgetFields (reconnectTimerFires c) = budgetFields c
  \/ budgetFields (reconnectTimerFires c)
     = (reconnectAttempts c, maxReconnectAttempts c, reconnectDelay c, None).
Proof.
  unfold reconnectTimerFires. destruct (reconnectTimer c); [|left; reflexivity].
  right. rewrite (proj2 (connect_frame_fields _)). open_client c. reflexivity.
Qed.

Lemma handleConnAck_budget (returnCode : option Z) (c : MQTTClient) :
  budgetFields (snd (handleConnAck returnCode c)) = budgetFields c
  \/ budgetFields (snd (handleConnAck returnCode c))
     = (0, maxReconnectAttempts c, reconnectDelay c, reconnectTimer c).
Proof.
  assert (Hrefused :
    budgetFields
      (emit (Emit_error (Error (refusalReason returnCode)))
         (set_connecting false c)) = budgetFields c).
  { rewrite (proj2 (emit_frame _ _)). open_client c. reflexivity. }
  unfold handleConnAck.
  destruct returnCode as [[| [| |] |]|]; try (left; exact Hrefused).
  right. unfold processMessageQueue, subscribeToTopics.
  match goal with
  | |- context [flushLoop ?q ?c1] =>
      pose proof (flushLoop_budget q c1) as Hf;
      assert (Hs : budgetFields c1
                   = (0, maxReconnectAttempts c, reconnectDelay c,
                      reconnectTimer c));
      [|destruct (flushLoop q c1) as [[r|e] c2]; cbn [snd] in *]
  end.
  - rewrite (proj2 (subscribeEach_frame _ _)). open_client c. reflexivity.
  - rewrite (proj2 (emit_frame _ _)). congruence.
  - congruence.
Qed.

Lemma step_budget (JSON_parse : string -> Result json) (i : Input)
  (c : MQTTClient) :
  budgetKept c -> budgetKept (step JSON_parse c i).
Proof.
  intros Hc. pose proof (budgetKept_fields_eq c Hc) as Heq.
  pose proof Hc as (Hr & Hmax & Hdelay & Htimer).
  destruct i as [| |name data level flag|name level| |data now|code reason
                |error| | | |p|]; cbn [step].
  - exact (budgetKept_fields _ _ (proj2 (connect_frame_fields c)) Hc).
  - apply (budgetKept_intro _ (reconnectAttempts c) None);
      [rewrite disconnect_budget; congruence|lia|discriminate].
  - exact (budgetKept_fields _ _ (publish_budget name data level flag c) Hc).
  - exact (budgetKept_fields _ _
             (proj2 (subscribe_frame_fields name level c)) Hc).
  - exact (budgetKept_fields _ _ (proj2 (handleOpen_frame c)) Hc).
  - unfold handleMessage. destruct (parsePacket data) as [[| | | |]|]; try exact Hc.
    + destruct (handleConnAck_budget returnCode c) as [Hb|Hb].
      * exact (budgetKept_fields _ _ Hb Hc).
      * apply (budgetKept_intro _ 0 (reconnectTimer c));
          [rewrite Hb; congruence|lia|exact Htimer].
    + refine (budgetKept_fields _ _ (proj2 (handlePublish_frame _ _ _ _ _ _ _)) Hc).
    + exact (budgetKept_fields _ _ (handlePubAck_budget _ c) Hc).
  - destruct (handleClose_budget code reason c) as [Hb|[Hlt Hb]].
    + exact (budgetKept_fields _ _ Hb Hc).
    + eapply budgetKept_intro; [rewrite Hb, Hmax, Hdelay; reflexivity|lia|].
      intros delay [= <-]. lia.
  - exact (budgetKept_fields _ _ (proj2 (emit_frame _ c)) Hc).
  - destruct (reconnectTimerFires_budget c) as [Hb|Hb].
    + exact (budgetKept_fields _ _ Hb Hc).
    + apply (budgetKept_intro _ (reconnectAttempts c) None);
        [rewrite Hb; congruence|lia|discriminate].
  - exact (budgetKept_fields _ _ (proj2 (keepAliveFires_frame c)) Hc).
  - exact (budgetKept_fields _ _ (proj2 (connectTimeout_frame c)) Hc).
  - exact (budgetKept_fields _ _ (publishTimeout_budget p c) Hc).
  - open_client c. exact Hc.
Qed.

Lemma run_budget (JSON_parse : string -> Result json) (inputs : list Input) :
  forall c : MQTTClient, budgetKept c -> budgetKept (run JSON_parse c inputs).
Proof.
  unfold run. induction inputs as [|i inputs IH]; intros c Hc; cbn [fold_left];
    [exact Hc|].
  apply IH, step_budget, Hc.
Qed.

Lemma newClient_budget (userId clientId : string) :
  budgetKept (newClient userId clientId).
Proof.
  apply (budgetKept_intro _ 0 None); [reflexivity|lia|discriminate].
Qed.

(** * Further properties of the connection manager: invariants *)

(** X16. Whatever calls, socket events and timers a new client goes
    through, its acknowledgment bookkeeping stays consistent: every
    entry of [pendingAcks] belongs to a promise whose timeout is armed
    for that packet id, and a promise has an armed timeout exactly when
    it is still pending. *)
Theorem acks_invariant (JSON_parse : string -> Result json)
  (userId clientId : string) (inputs : list Input) :
  acksConsistent (run JSON_parse (newClient userId clientId) inputs).
Proof. apply run_consistent, newClient_consistent. Qed.

(** X17. In a client with consistent bookkeeping, a PUBACK for a
    registered packet id resolves the promise registered under it,
    removes the entry and disarms the timeout, which then does nothing
    when it fires. A pending promise is neither resolved nor rejected by
    [disconnect()] or by the socket closing: it stays pending until its
    own timeout rejects it with [PUBLISH timeout]. *)
Theorem pending_publish_settles (c : MQTTClient) :
  acksConsistent c ->
  (forall (id : Z) (p : nat),
      pendingAcks c !! id = Some p ->
      let c' := handlePubAck id c in
      promises c !! p = Some Pending
      /\ promises c' !! p = Some Resolved
      /\ pendingAcks c' !! id = None
      /\ ackTimers c' !! p = None
      /\ publishTimeout p c' = c')
  /\ (forall (p : nat) (code : Z) (reason : string),
        promises c !! p = Some Pending ->
        let c' := handleClose code reason (disconnect c) in
        promises c' !! p = Some Pending
        /\ promises (publishTimeout p c') !! p
           = Some (Rejected (Error "PUBLISH timeout"))).
Proof.
  intros (H1 & H2 & H3). split.
  - intros id p Ha c'. subst c'.
    pose proof (H2 p id (H1 id p Ha)) as Hp.
    split; [exact Hp|].
    unfold handlePubAck. rewrite Ha. unfold publishTimeout.
    open_client c. cbn in *.
    rewrite settle_same by exact Hp. rewrite !lookup_delete_eq.
    repeat split; reflexivity.
  - intros p code reason Hp c'.
    assert (Hfields : ackFields c' = ackFields c).
    { subst c'. rewrite handleClose_acks. apply disconnect_acks. }
    clearbody c'. unfold ackFields in Hfields.
    injection Hfields as Hacks Htimers Hproms.
    destruct (H3 p Hp) as [id Ht].
    split; [congruence|].
    unfold publishTimeout. rewrite Htimers, Ht.
    open_client c'. cbn in *. subst.
    apply settle_same, Hp.
Qed.

Lemma pending_publish_settles_witness :
  let c := publishCall connectedClient
             {| topic := "/t_ms"; payload := payload_x1; qos := 1; retain := false |} in
  acksConsistent c
  /\ pendingAcks c !! 13 = Some 0%nat
  /\ promises (handlePubAck 13 c) !! 0%nat = Some Resolved
  /\ promises (publishTimeout 0 (handleClose 1006 "" (disconnect c))) !! 0%nat
     = Some (Rejected (Error "PUBLISH timeout")).
Proof.
  intros c.
  assert (Hc : acksConsistent c).
  { subst c. unfold publishCall. apply publish_consistent.
    unfold connectedClient. apply handleConnAck_consistent.
    apply (acksConsistent_fields (newClient "100" "cid"));
      [|apply newClient_consistent].
    rewrite (proj1 (handleOpen_frame _)). apply connect_frame_fields. }
  assert (Ha : pendingAcks c !! 13 = Some 0%nat) by (vm_compute; reflexivity).
  assert (Hp : promises c !! 0%nat = Some Pending) by (vm_compute; reflexivity).
  destruct (pending_publish_settles c Hc) as (Hack & Hout).
  destruct (Hack 13 0%nat Ha) as (_ & Hres & _).
  destruct (Hout 0%nat 1006 ""%string Hp) as (_ & Hrej).
  split; [exact Hc|]. split; [exact Ha|]. split; [exact Hres|exact Hrej].
Defined.

(** X19. Whatever calls, socket events and timers a new client goes
    through, the attempt counter stays between 0 and the budget of 10,
    and an armed reconnect timer waits at least 5 and at most 30
    seconds. *)
Theorem budget_invariant (JSON_parse : string -> Result json)
  (userId clientId : string) (inputs : list Input) :
  budgetKept (run JSON_parse (newClient userId clientId) inputs).
Proof. apply run_budget, newClient_budget. Qed.

(** * Further properties of the connection manager: edge behaviour *)

Lemma subscribe_not_connected (name : string) (level : Z) (c : MQTTClient) :
  connected c = false \/ ws c = None ->
  subscribe name level c = (Throw (Error "Not connected to MQTT broker"), c).
Proof.
  intros H. unfold subscribe.
  destruct H as [-> | ->]; [reflexivity|].
  rewrite orb_true_r. reflexivity.
Qed.

Lemma subscribeEach_no_socket (topics : list string) (c : MQTTClient) :
  connected c = false \/ ws c = None -> subscribeEach topics c = c.
Proof.
  intros H. induction topics as [|name topics IH]; cbn [subscribeEach];
    [reflexivity|].
  rewrite subscribe_not_connected by exact H. exact IH.
Qed.

Lemma buildSubscribePacket_cases (packetId : Z) (name : string) (level : Z) :
  0 <= packetId <= 65535 ->
  if encodableTopic name
  then exists frame : Buffer, buildSubscribePacket packetId name level = Ok frame
  else buildSubscribePacket packetId name level = Throw RangeError.
Proof.
  intros Hid.
  pose proof (Nat2Z.is_nonneg (length (Buffer_from_string name))) as Hlen.
  unfold encodableTopic, buildSubscribePacket, byteLength in *.
  destruct (Z.leb_spec (Z.of_nat (length (Buffer_from_string name))) 65535)
    as [Hfit|Hlong].
  - rewrite (writeUInt16BE_ok (Z.of_nat _)), (writeUInt16BE_ok packetId) by lia.
    cbn [mbind Result_bind]. eexists. reflexivity.
  - unfold writeUInt16BE.
    destruct (Z.leb_spec (Z.of_nat (length (Buffer_from_string name))) 65535);
      [lia|].
    rewrite andb_false_r. reflexivity.
Qed.

(** X20. [subscribe] on a client that is not connected, or has no
    socket, throws and changes nothing. On a connected client it takes
    the next packet id and sends one SUBSCRIBE frame carrying it; when
    the topic is longer than 65535 bytes it throws a RangeError after the
    packet id was taken, and sends nothing. [subscribeToTopics] swallows
    these errors, so without a socket it does nothing at all. *)
Theorem subscribe_outcomes (name : string) (level : Z) (c : MQTTClient) :
  (connected c = false \/ ws c = None ->
   subscribe name level c = (Throw (Error "Not connected to MQTT broker"), c)
   /\ subscribeToTopics c = c)
  /\ (forall s : nat,
        connected c = true ->
        ws c = Some s ->
        let id := (lastPacketId c + 1) mod 65536 in
        let c' := snd (subscribe name level c) in
        lastPacketId c' = id
        /\ if encodableTopic name
           then exists frame : Buffer,
                  buildSubscribePacket id name level = Ok frame
                  /\ fst (subscribe name level c) = Ok tt
                  /\ sent c' = sent c ++ [(s, frame)]
           else fst (subscribe name level c) = Throw RangeError
                /\ sent c' = sent c).
Proof.
  split.
  - intros H. split; [apply subscribe_not_connected, H|].
    apply subscribeEach_no_socket, H.
  - intros s Hc Hws id c'. subst id c'.
    pose proof (Z.mod_pos_bound (lastPacketId c + 1) 65536 ltac:(lia)) as Hid.
    pose proof (buildSubscribePacket_cases ((lastPacketId c + 1) mod 65536)
                  name level ltac:(lia)) as Hframe.
    unfold encodableTopic in *.
    open_client c. cbn in Hc, Hws. subst con sock.
    unfold subscribe, getNextPacketId, wsSend. cbn -[buildSubscribePacket] in *.
    destruct (byteLength (Buffer_from_string name) <=? 65535).
    + destruct Hframe as (frame & ->). cbn.
      split; [reflexivity|]. exists frame. repeat split; reflexivity.
    + rewrite Hframe. cbn. repeat split; reflexivity.
Qed.

Lemma subscribe_outcomes_witness :
  connected connectedClient = true
  /\ ws connectedClient = Some 0%nat
  /\ (connected (newClient "100" "cid") = false \/ ws (newClient "100" "cid") = None)
  /\ subscribeToTopics (newClient "100" "cid") = newClient "100" "cid"
  /\ lastPacketId (snd (subscribe "/t_ms" 1 connectedClient))
     = (lastPacketId connectedClient + 1) mod 65536.
Proof.
  assert (Hc : connected connectedClient = true) by reflexivity.
  assert (Hws : ws connectedClient = Some 0%nat) by reflexivity.
  assert (Hn : connected (newClient "100" "cid") = false
               \/ ws (newClient "100" "cid") = None) by (left; reflexivity).
  destruct (subscribe_outcomes "/t_ms" 1 (newClient "100" "cid")) as (Hoff & _).
  destruct (subscribe_outcomes "/t_ms" 1 connectedClient) as (_ & Hon).
  destruct (Hoff Hn) as (_ & Htopics).
  destruct (Hon 0%nat Hc Hws) as (Hid & _).
  split; [exact Hc|]. split; [exact Hws|]. split; [exact Hn|].
  split; [exact Htopics|exact Hid].
Defined.

Lemma sendPublish_no_socket (message : MQTTMessage) (c : MQTTClient) :
  ws c = None ->
  encodable message ->
  (exists r : RetVal, fst (sendPublish message c) = Ok r)
  /\ sent (snd (sendPublish message c)) = sent c.
Proof.
  intros Hws Henc. unfold sendPublish, getNextPacketId, wsSend.
  destruct (0 <? qos message).
  - pose proof (Z.mod_pos_bound (lastPacketId c + 1) 65536 ltac:(lia)) as Hid.
    destruct (buildPublishPacket_total message
                (Some ((lastPacketId c + 1) mod 65536)) Henc) as [frame Hframe];
      [lia|].
    cbn -[buildPublishPacket]. rewrite Hframe. cbn. rewrite Hws.
    destruct (negb _); cbn; (split; [eexists; reflexivity|reflexivity]).
  - destruct (buildPublishPacket_total message None Henc I) as [frame Hframe].
    cbn -[buildPublishPacket]. rewrite Hframe. cbn. rewrite Hws. cbn.
    split; [eexists; reflexivity|reflexivity].
Qed.

Lemma flushLoop_no_socket (pending : list MQTTMessage) :
  forall c : MQTTClient,
    connected c = true ->
    ws c = None ->
    Forall encodable pending ->
    fst (flushLoop pending c) = Ok tt
    /\ sent (snd (flushLoop pending c)) = sent c.
Proof.
  induction pending as [|message pending IH]; intros c Hc Hws Henc;
    cbn [flushLoop]; [split; reflexivity|].
  rewrite Hc. inversion Henc as [|? ? Hm Hrest]; subst.
  destruct (sendPublish_no_socket message (set_messageQueue pending c) Hws Hm)
    as ([r Hr] & Hsent).
  pose proof (sendPublish_fields message (set_messageQueue pending c)) as Hf.
  cbn zeta in Hf. destruct Hf as (Hc1 & _ & Hws1 & _).
  cbn in Hc1, Hws1, Hsent.
  destruct (sendPublish message (set_messageQueue pending c)) as [r' c1];
    cbn [fst snd] in *. subst r'.
  destruct (IH c1) as (Hok & Hsent'); [congruence|congruence|exact Hrest|].
  split; [exact Hok|congruence].
Qed.

Lemma sendPublish_ok (message : MQTTMessage) (c : MQTTClient) :
  encodable message -> exists r : RetVal, fst (sendPublish message c) = Ok r.
Proof.
  intros Henc. destruct (ws c) as [s|] eqn:Hws.
  - destruct (sendPublish_sends message c s Hws Henc) as (r & _ & _ & Hr & _).
    exists r. exact Hr.
  - apply sendPublish_no_socket; assumption.
Qed.

(** A topic that does not fit its length prefix makes the encoder
    throw. *)
Lemma buildPublishPacket_unencodable (message : MQTTMessage) (packetId : option Z) :
  ~ encodable message -> buildPublishPacket message packetId = Throw RangeError.
Proof.
  unfold encodable, encodableTopic, buildPublishPacket, writeUInt16BE.
  intros Hlong.
  destruct (byteLength (Buffer_from_string (topic message)) <=? 65535);
    [congruence|].
  rewrite andb_false_r. reflexivity.
Qed.

Lemma sendPublish_unencodable (message : MQTTMessage) (c : MQTTClient) :
  ~ encodable message -> fst (sendPublish message c) = Throw RangeError.
Proof.
  intros Hlong. unfold sendPublish, getNextPacketId.
  destruct (0 <? qos message); cbn -[buildPublishPacket];
    rewrite buildPublishPacket_unencodable by exact Hlong; reflexivity.
Qed.

Lemma sendPublish_no_socket_sent (message : MQTTMessage) (c : MQTTClient) :
  ws c = None -> sent (snd (sendPublish message c)) = sent c.
Proof.
  intros Hws. open_client c. cbn in Hws. subst sock.
  unfold sendPublish, getNextPacketId, wsSend.
  destruct (0 <? qos message); cbn -[buildPublishPacket];
    (destruct (buildPublishPacket _ _); cbn; [|reflexivity]);
    try destruct (negb _); reflexivity.
Qed.

Lemma flushLoop_no_socket_sent (pending : list MQTTMessage) :
  forall c : MQTTClient,
    ws c = None -> sent (snd (flushLoop pending c)) = sent c.
Proof.
  induction pending as [|message pending IH]; intros c Hws; cbn [flushLoop];
    [reflexivity|].
  destruct (connected c); [|reflexivity].
  assert (Hws0 : ws (set_messageQueue pending c) = None)
    by (open_client c; exact Hws).
  pose proof (sendPublish_no_socket_sent message _ Hws0) as Hsent.
  pose proof (sendPublish_fields message (set_messageQueue pending c)) as Hf.
  cbn zeta in Hf. destruct Hf as (_ & _ & Hws1 & _).
  assert (Hs0 : sent (set_messageQueue pending c) = sent c)
    by (open_client c; reflexivity).
  destruct (sendPublish message (set_messageQueue pending c)) as [[r|e] c1];
    cbn [snd] in *; [|congruence].
  rewrite IH by congruence. congruence.
Qed.

(** The flush stops at the first message it cannot encode: that message
    and those before it are off the queue, those after it stay. *)
Lemma flushLoop_stops (good : list MQTTMessage) (bad : MQTTMessage)
  (rest : list MQTTMessage) :
  forall c : MQTTClient,
    connected c = true ->
    Forall encodable good ->
    ~ encodable bad ->
    fst (flushLoop (good ++ bad :: rest) c) = Throw RangeError
    /\ messageQueue (snd (flushLoop (good ++ bad :: rest) c)) = rest.
Proof.
  induction good as [|message good IH]; intros c Hc Hgood Hbad;
    cbn [app flushLoop]; rewrite Hc.
  - pose proof (sendPublish_unencodable bad (set_messageQueue rest c) Hbad) as Hr.
    pose proof (sendPublish_fields bad (set_messageQueue rest c)) as Hf.
    cbn zeta in Hf. destruct Hf as (_ & _ & _ & Hq & _).
    assert (Hq0 : messageQueue (set_messageQueue rest c) = rest)
      by (open_client c; reflexivity).
    destruct (sendPublish bad (set_messageQueue rest c)) as [[r|e] c1];
      cbn [fst snd] in *; [discriminate|].
    split; congruence.
  - inversion Hgood as [|? ? Hm Hgood']; subst.
    destruct (sendPublish_ok message (set_messageQueue (good ++ bad :: rest) c) Hm)
      as [r Hr].
    pose proof (sendPublish_fields message
                  (set_messageQueue (good ++ bad :: rest) c)) as Hf.
    cbn zeta in Hf. destruct Hf as (Hc1 & _).
    assert (Hc0 : connected (set_messageQueue (good ++ bad :: rest) c) = true)
      by (open_client c; exact Hc).
    destruct (sendPublish message (set_messageQueue (good ++ bad :: rest) c))
      as [[r'|e] c1]; cbn [fst snd] in *; [|discriminate].
    apply IH; [congruence|exact Hgood'|exact Hbad].
Qed.

(** X21. A CONNACK that accepts the connection after the socket was
    dropped (the handlers of a socket stay attached after
    [disconnect()]) still marks the client connected and starts the
    keep-alive timer, and nothing is sent: no subscription, no queued
    message. When every queued topic fits the two-byte length prefix,
    the handler ends without an exception, the whole queue is taken off
    unsent and [connect] is announced; after it, [publish] queues again,
    since there is no socket. When a queued topic does not fit, the
    handler throws at the first such message: it and the messages before
    it are off the queue unsent, the messages after it stay queued, and
    [connect] is not announced. *)
Theorem connack_without_socket (c : MQTTClient) :
  ws c = None ->
  let c' := snd (handleConnAck (Some 0) c) in
  (connected c' = true /\ ws c' = None /\ keepAliveTimer c' = Some 60000
   /\ sent c' = sent c)
  /\ (Forall encodable (messageQueue c) ->
      fst (handleConnAck (Some 0) c) = Ok tt
      /\ messageQueue c' = []
      /\ emitted c' = emitted c ++ [Emit_connect]
      /\ forall (name : string) (data : Buffer) (level : Z) (flag : bool),
           messageQueue (snd (publish name (inl data) level flag c'))
           = [{| topic := name; payload := data; qos := level; retain := flag |}]
           /\ sent (snd (publish name (inl data) level flag c')) = sent c)
  /\ (forall (good : list MQTTMessage) (bad : MQTTMessage)
             (rest : list MQTTMessage),
        messageQueue c = good ++ bad :: rest ->
        Forall encodable good ->
        ~ encodable bad ->
        fst (handleConnAck (Some 0) c) = Throw RangeError
        /\ messageQueue c' = rest
        /\ emitted c' = emitted c).
Proof.
  intros Hws c'. subst c'.
  unfold handleConnAck, processMessageQueue, subscribeToTopics.
  rewrite subscribeEach_no_socket by (right; open_client c; exact Hws).
  set (c1 := startKeepAlive _).
  assert (Hc1 : connected c1 = true) by (open_client c; reflexivity).
  assert (Hw1 : ws c1 = None) by (open_client c; exact Hws).
  assert (Hq1 : messageQueue c1 = messageQueue c) by (open_client c; reflexivity).
  assert (Hk1 : keepAliveTimer c1 = Some 60000) by (open_client c; reflexivity).
  assert (Hs1 : sent c1 = sent c) by (open_client c; reflexivity).
  assert (He1 : emitted c1 = emitted c) by (open_client c; reflexivity).
  clearbody c1. rewrite <- Hq1.
  pose proof (flushLoop_no_socket_sent (messageQueue c1) c1 Hw1) as Hsent.
  pose proof (flushLoop_fields (messageQueue c1) c1) as Hf. cbn zeta in Hf.
  destruct Hf as (Hc2 & _ & Hw2 & _ & Hk2 & He2).
  split; [|split].
  - destruct (flushLoop (messageQueue c1) c1) as [[r|e] c2]; cbn [fst snd] in *;
      open_client c2; cbn in *; subst; repeat split; congruence.
  - intros Henc.
    destruct (flushLoop_no_socket (messageQueue c1) c1 Hc1 Hw1 Henc) as (Hok & _).
    pose proof (flushLoop_queue (messageQueue c1) c1 eq_refl Hc1 Hok) as Hempty.
    destruct (flushLoop (messageQueue c1) c1) as [r c2]. cbn [fst snd] in *.
    subst r. cbn [snd fst].
    assert (Hmain :
      messageQueue (emit Emit_connect c2) = []
      /\ emitted (emit Emit_connect c2) = emitted c ++ [Emit_connect]
      /\ ws (emit Emit_connect c2) = None
      /\ sent (emit Emit_connect c2) = sent c).
    { open_client c2. cbn in *. subst. repeat split; congruence. }
    destruct Hmain as (Hq & He & Hw & Hs).
    split; [reflexivity|]. split; [exact Hq|]. split; [exact He|].
    intros name data level flag. unfold publish. rewrite Hw.
    rewrite orb_true_r. cbn [snd].
    generalize dependent (emit Emit_connect c2). intros c3 Hq Hw He Hs.
    open_client c3. cbn in *. subst. split; reflexivity.
  - intros good bad rest Hqueue Hgood Hbad. rewrite Hqueue in *.
    destruct (flushLoop_stops good bad rest c1 Hc1 Hgood Hbad) as (Hthrow & Hrest).
    destruct (flushLoop (good ++ bad :: rest) c1) as [[r|e] c2];
      cbn [fst snd] in *; [discriminate|].
    injection Hthrow as ->. repeat split; congruence.
Qed.

Lemma connack_without_socket_witness :
  let c := disconnect
             (fold_left publishCall withLongTopic
                (handleOpen (connect (newClient "100" "cid")))) in
  let first := {| topic := "/a"; payload := [1]; qos := 0; retain := false |} in
  let second := {| topic := longTopic; payload := [2]; qos := 0; retain := false |} in
  let third := {| topic := "/c"; payload := [3]; qos := 0; retain := false |} in
  ws c = None
  /\ messageQueue c = [first] ++ second :: [third]
  /\ Forall encodable [first]
  /\ ~ encodable second
  /\ connected (snd (handleConnAck (Some 0) c)) = true
  /\ sent (snd (handleConnAck (Some 0) c)) = sent c
  /\ fst (handleConnAck (Some 0) c) = Throw RangeError
  /\ messageQueue (snd (handleConnAck (Some 0) c)) = [third].
Proof.
  intros c first second third.
  assert (Hws : ws c = None) by reflexivity.
  assert (Hqueue : messageQueue c = [first] ++ second :: [third])
    by (cbv -[longTopic]; reflexivity).
  assert (Hgood : Forall encodable [first]) by (repeat constructor).
  assert (Hbad : ~ encodable second) by (vm_compute; discriminate).
  destruct (connack_without_socket c Hws) as ((Hc & _ & _ & Hs) & _ & Hstop).
  destruct (Hstop [first] second [third] Hqueue Hgood Hbad) as (Hthrow & Hrest & _).
  split; [exact Hws|]. split; [exact Hqueue|]. split; [exact Hgood|].
  split; [exact Hbad|]. split; [exact Hc|]. split; [exact Hs|].
  split; [exact Hthrow|exact Hrest].
Defined.



(** * Further properties of the event parser: calls and receipts *)

Section Receipts.

Variable JSON_parse : string -> Result json.
Variable now : Z.

(** X23. On [/t_rtc] a payload gives a call event exactly when its
    [callState] is truthy; the status is [missed] unless [callState] is
    one of the four strings the code knows. On [/t_messaging_events] a
    truthy [readReceipt] wins over [deliveryReceipt], and a truthy
    receipt always gives an event, also when it is not an object: its
    fields are then undefined. A payload with neither gives no event. *)
Theorem call_receipt_events (payload : Buffer) (parsed : json) :
  JSON_parse (string_of_bytes payload) = Ok parsed ->
  parsed <> JNull ->
  let data := Some parsed in
  let callState := getPropOpt data "callState" in
  let readReceipt := getPropOpt data "readReceipt" in
  let deliveryReceipt := getPropOpt data "deliveryReceipt" in
  parse JSON_parse now "/t_rtc" payload
  = (if truthy callState
     then Some (CallEvent now
                  (getPropOpt data "callId")
                  (getPropOpt data "threadId")
                  (getPropOpt data "callerId")
                  (orElse (getPropOpt data "isVideoCall") (Some (JBool false)))
                  (orElse (getPropOpt data "isGroupCall") (Some (JBool false)))
                  (mapCallState callState)
                  (getPropOpt data "duration"))
     else None)
  /\ parse JSON_parse now "/t_messaging_events" payload
     = (if truthy readReceipt
        then Some (ReadReceiptEvent now
                     (getPropOpt readReceipt "threadId")
                     (getPropOpt readReceipt "actorFbId")
                     (getPropOpt readReceipt "watermarkTimestamp"))
        else if truthy deliveryReceipt
        then Some (DeliveryReceiptEvent now
                     (getPropOpt deliveryReceipt "threadId")
                     (getPropOpt deliveryReceipt "actorFbId")
                     (getPropOpt deliveryReceipt "deliveredTimestamp"))
        else None)
  /\ (mapCallState callState <> missed ->
      exists text : string,
        callState = Some (JStr text)
        /\ text ∈ ["STARTED"; "started"; "ENDED"; "ended"]%string).
Proof.
  intros Hparsed Hnonnull data callState readReceipt deliveryReceipt.
  assert (readable data) as Hr
    by (subst data; destruct parsed; try exact I; congruence).
  unfold parse, parseBody. rewrite Hparsed. cbn [mbind Result_bind]. fold data.
  change (String.eqb "/t_rtc" "/t_ms") with false.
  change (String.eqb "/t_rtc" "/t_rtc") with true.
  change (String.eqb "/t_messaging_events" "/t_ms") with false.
  change (String.eqb "/t_messaging_events" "/t_rtc") with false.
  change (String.eqb "/t_messaging_events" "/t_p") with false.
  change (String.eqb "/t_messaging_events" "/t_tn") with false.
  change (String.eqb "/t_messaging_events" "/t_graphql") with false.
  change (String.eqb "/t_messaging_events" "/t_messaging_events") with true.
  cbv iota.
  split; [|split].
  - unfold parseRTCEvent. rewrite !(getProp_readable _ _ Hr).
    cbn [mbind Result_bind]. fold callState.
    destruct (truthy callState); reflexivity.
  - unfold parseMessagingEvent. rewrite !(getProp_readable _ _ Hr).
    cbn [mbind Result_bind]. fold readReceipt deliveryReceipt.
    destruct (truthy readReceipt) eqn:Hread.
    + rewrite !(getProp_truthy _ _ Hread). reflexivity.
    + destruct (truthy deliveryReceipt) eqn:Hdel; [|reflexivity].
      rewrite !(getProp_truthy _ _ Hdel). reflexivity.
  - clearbody callState. unfold mapCallState, strictEqStr.
    destruct callState as [[|b|n|text|items|members]|];
      try (cbn; congruence).
    intros Hstate. exists text. split; [reflexivity|].
    destruct (String.eqb_spec text "STARTED") as [->|_]; [set_solver|].
    destruct (String.eqb_spec text "started") as [->|_]; [set_solver|].
    destruct (String.eqb_spec text "ENDED") as [->|_]; [set_solver|].
    destruct (String.eqb_spec text "ended") as [->|_]; [set_solver|].
    cbn in Hstate. congruence.
Qed.

End Receipts.

Lemma call_receipt_events_witness :
  let parsed := JObj [("readReceipt", JBool true); ("callState", JStr "RINGING")]%string in
  (fun _ : string => Ok parsed) (string_of_bytes [123; 125]) = Ok parsed
  /\ parsed <> JNull
  /\ parse (fun _ => Ok parsed) 1000 "/t_rtc" [123; 125]
     = Some (CallEvent 1000 None None None (Some (JBool false))
               (Some (JBool false)) missed None)
  /\ parse (fun _ => Ok parsed) 1000 "/t_messaging_events" [123; 125]
     = Some (ReadReceiptEvent 1000 None None None).
Proof.
  intros parsed.
  assert ((fun _ : string => Ok parsed) (string_of_bytes [123; 125]) = Ok parsed)
    as Hparsed by reflexivity.
  assert (parsed <> JNull) as Hnonnull by discriminate.
  destruct (call_receipt_events (fun _ => Ok parsed) 1000 [123; 125] parsed
              Hparsed Hnonnull) as (Hcall & Hreceipt & _).
  split; [exact Hparsed|]. split; [exact Hnonnull|].
  split; [exact Hcall|exact Hreceipt].
Defined.
